(** * Polaris kernel: processor bring-up, SMP bootstrap, devtmpfs and the
      boot tag list

    A shallow embedding of [kernel/cpu/cpu.c], of the file operations of
    [kernel/fs/devtmpfs.c] (read, write, open, mkdir) and of
    [stivale2_get_tag] from [kernel/kernel/kernel.c], with the properties
    of the design document stated over it, and further properties read off
    the code.  Part I holds the embedding and the vocabulary the
    properties are stated in; Part II holds the lemmas and theorems.

    Conventions.  A C integer of width [w] is a [Z] in [0, 2^w); every
    conversion and every arithmetic wrap-around is written out with [u32]
    and [u64].  Privileged processor state (control registers, MSRs,
    extended control registers, the AC flag) is a record threaded through a
    small state monad; every privileged instruction also appends an event to
    a chronological trace, so that ordering properties can be stated. *)

From Stdlib Require Import ZArith List Bool Lia.
From stdpp Require Import base list.
Import ListNotations.
Local Open Scope Z_scope.

(** * Part I.  The embedding *)

(** ** Machine integers *)

Definition u32 (x : Z) : Z := x mod 2 ^ 32.
Definition u64 (x : Z) : Z := x mod 2 ^ 64.

Arguments u32 : simpl never.
Arguments u64 : simpl never.

(** ** Processor bring-up: cpu.c *)

Module Cpu.

(** *** Processor state *)

(** The four output registers of one CPUID query; also the locals
    [a], [b], [c], [d] of [cpu_init]. *)
Record cpuid_regs := mk_regs { r_a : Z; r_b : Z; r_c : Z; r_d : Z }.

(** Feature masks of the compiler's [<cpuid.h>]. *)
Definition bit_XSAVE : Z := Z.shiftl 1 26.
Definition bit_AVX : Z := Z.shiftl 1 28.
Definition bit_AVX512F : Z := Z.shiftl 1 16.

(** The four save/restore routines of cpu.c, lines 57-77; each is a single
    instruction on the given region, so only its identity matters here. *)
Inductive fpu_routine := xsave | xrstor | fxsave | fxrstor.

Inductive event :=
| EvCpuid (leaf : Z)
| EvReadCr (n : Z)
| EvWriteCr (n v : Z)
| EvRdmsr (i : Z)
| EvWrmsr (i v : Z)
| EvXsetbv (i v : Z)
| EvClac.

Record machine := mk_machine {
  cr : Z -> Z;                          (* control registers, by index *)
  msr : Z -> Z;                         (* model-specific registers *)
  xcr : Z -> Z;                         (* extended control registers *)
  rflags_ac : bool;                     (* RFLAGS.AC, "access allowed" *)
  cpu_fpu_storage_size : Z;             (* size_t cpu_fpu_storage_size *)
  cpu_fpu_save : option fpu_routine;    (* void ( *cpu_fpu_save )(void * ) *)
  cpu_fpu_restore : option fpu_routine; (* void ( *cpu_fpu_restore )(void * ) *)
  trace : list event                    (* oldest event first *)
}.

Definition upd (f : Z -> Z) (k v : Z) : Z -> Z :=
  fun k' => if k' =? k then v else f k'.

(** *** A state monad over the machine *)

Definition M (A : Type) : Type := machine -> A * machine.

Definition ret {A} (x : A) : M A := fun s => (x, s).

Definition bind {A B} (m : M A) (k : A -> M B) : M B :=
  fun s => let (x, s') := m s in k x s'.

Notation "'let*' x := m 'in' k" := (bind m (fun x => k))
  (at level 100, x name, m at level 99, k at level 200).
Notation "m ;; k" := (bind m (fun _ => k))
  (at level 100, k at level 200, right associativity).

Definition exec {A} (m : M A) (s : machine) : machine := snd (m s).

Definition emit (e : event) : M unit := fun s =>
  (tt, mk_machine (cr s) (msr s) (xcr s) (rflags_ac s) (cpu_fpu_storage_size s)
         (cpu_fpu_save s) (cpu_fpu_restore s) (trace s ++ [e])).

(** *** Register access layer *)

(** [read_cr] / [write_cr] (macros of klibc/asm.h): a [mov] from or to the
    control register, whose width is 64 bits. *)
Definition read_cr (n : Z) : M Z := fun s =>
  let v := u64 (cr s n) in
  (v, snd (emit (EvReadCr n) s)).

Definition write_cr (n v : Z) : M unit := fun s =>
  emit (EvWriteCr n (u64 v))
    (mk_machine (upd (cr s) n (u64 v)) (msr s) (xcr s) (rflags_ac s)
       (cpu_fpu_storage_size s) (cpu_fpu_save s) (cpu_fpu_restore s) (trace s)).

(** cpu.c:39 [rdmsr]: the instruction delivers the register in EDX:EAX. *)
Definition rdmsr (i : Z) : M Z := fun s =>
  let eax := u32 (msr s i) in
  let edx := u32 (Z.shiftr (msr s i) 32) in
  (Z.lor (Z.shiftl edx 32) eax, snd (emit (EvRdmsr i) s)).

(** cpu.c:45 [wrmsr]: the value is split into EDX:EAX and written. *)
Definition wrmsr (i value : Z) : M unit := fun s =>
  let edx := u32 (Z.shiftr value 32) in
  let eax := u32 value in
  let w := Z.lor (Z.shiftl edx 32) eax in
  emit (EvWrmsr i w)
    (mk_machine (cr s) (upd (msr s) i w) (xcr s) (rflags_ac s)
       (cpu_fpu_storage_size s) (cpu_fpu_save s) (cpu_fpu_restore s) (trace s)).

(** cpu.c:51 [wrxcr]: [xsetbv] with the value split into EDX:EAX. *)
Definition wrxcr (i value : Z) : M unit := fun s =>
  let edx := u32 (Z.shiftr value 32) in
  let eax := u32 value in
  let w := Z.lor (Z.shiftl edx 32) eax in
  emit (EvXsetbv i w)
    (mk_machine (cr s) (msr s) (upd (xcr s) i w) (rflags_ac s)
       (cpu_fpu_storage_size s) (cpu_fpu_save s) (cpu_fpu_restore s) (trace s)).

(** [asm("clac")]: clears RFLAGS.AC. *)
Definition clac : M unit := fun s =>
  emit EvClac
    (mk_machine (cr s) (msr s) (xcr s) false
       (cpu_fpu_storage_size s) (cpu_fpu_save s) (cpu_fpu_restore s) (trace s)).

Definition set_fpu (size : Z) (save restore : fpu_routine) : M unit := fun s =>
  (tt, mk_machine (cr s) (msr s) (xcr s) (rflags_ac s)
         size (Some save) (Some restore) (trace s)).

(** The locals [a], [b], [c], [d] as line 123 initialises them. *)
Definition regs0 : cpuid_regs := mk_regs 0 0 0 0.

(** The machine [s] with the events [evs] appended to its trace. *)
Definition log_events (evs : list event) (s : machine) : machine :=
  mk_machine (cr s) (msr s) (xcr s) (rflags_ac s) (cpu_fpu_storage_size s)
    (cpu_fpu_save s) (cpu_fpu_restore s) (trace s ++ evs).

(** *** Feature probe *)

Section CpuInit.

(** Feature masks of cpu.h, which the sources at hand do not include. *)
Variables CPUID_SMEP CPUID_SMAP CPUID_UMIP : Z.

(** The processor: what the CPUID instruction answers for a leaf (the
    value of EAX) and a sub-leaf (the value of ECX), during one run of
    [cpu_init].  The answers [cpu_init] reads do not depend on the control
    bits it changes within a run: leaf 1 is queried before CR4.OSXSAVE is
    set, and leaves 0 and 7 reflect none of them.  A later run may meet
    another table: leaf 1 ECX bit 27 mirrors CR4 bit 18, which a run
    sets. *)
Variable cpuid : Z -> Z -> cpuid_regs.

(** [__cpuid] of the compiler's [<cpuid.h>], as x86_64 has it: the
    instruction with EAX loaded from [leaf] and nothing else.  ECX is not
    loaded, so the instruction runs with the value [ecx] the register
    holds at that point.  The four outputs are [unsigned int]. *)
Definition __cpuid (leaf ecx : Z) : M cpuid_regs := fun s =>
  let r := cpuid leaf ecx in
  (mk_regs (u32 (r_a r)) (u32 (r_b r)) (u32 (r_c r)) (u32 (r_d r)),
   snd (emit (EvCpuid leaf) s)).

(** [__get_cpuid_max] of [<cpuid.h>]: EAX of the base leaf [ext] (0 or
    0x80000000).  The base leaves have no sub-leaves - the processor
    ignores ECX for them - which is written as sub-leaf 0.  The second
    component is what the query leaves in ECX. *)
Definition __get_cpuid_max (ext : Z) : M (Z * Z) :=
  let* r := __cpuid ext 0 in
  ret (r_a r, r_c r).

(** [__get_cpuid] of [<cpuid.h>]: returns 0 and leaves the four outputs
    alone when the leaf is above the highest supported one; otherwise
    stores the query's result and returns 1.  Between the query of the
    base leaf and the query of [leaf] there is only the comparison: the
    second query runs with the ECX the first one left. *)
Definition __get_cpuid (leaf : Z) (abcd : cpuid_regs) : M (bool * cpuid_regs) :=
  let ext := Z.land leaf 0x80000000 in
  let* m := __get_cpuid_max ext in
  let maxlevel := fst m in
  let ecx := snd m in
  if (maxlevel =? 0) || (maxlevel <? leaf) then ret (false, abcd)
  else
    let* r := __cpuid leaf ecx in
    ret (true, r).

(** *** Per-core initialization sequencer: [cpu_init], cpu.c:104-187 *)

(** C truth of an integer expression. *)
Definition nonzero (x : Z) : bool := negb (x =? 0).

(** Lines 106-110: enable SSE/SSE2. *)
Definition cpu_init_cr0 : M unit :=
  let* cr0 := read_cr 0 in
  let cr0 := Z.land cr0 (u64 (Z.lnot (Z.shiftl 1 2))) in
  let cr0 := Z.lor cr0 (Z.shiftl 1 1) in
  write_cr 0 cr0.

(** Lines 112-115. *)
Definition cpu_init_cr4_fxsr : M unit :=
  let* cr4 := read_cr 4 in
  let cr4 := Z.lor cr4 (Z.shiftl 3 9) in
  write_cr 4 cr4.

(** Lines 118-120. *)
Definition cpu_init_cr4_tsd : M unit :=
  let* cr4 := read_cr 4 in
  let cr4 := Z.lor cr4 (Z.shiftl 1 2) in
  write_cr 4 cr4.

(** Lines 124-130. *)
Definition cpu_init_smep (abcd : cpuid_regs) : M cpuid_regs :=
  let* q := __get_cpuid 7 abcd in
  let abcd := snd q in
  if fst q then
    if nonzero (Z.land (r_b abcd) CPUID_SMEP) then
      let* cr4 := read_cr 4 in
      let cr4 := Z.lor cr4 (Z.shiftl 1 20) in
      write_cr 4 cr4;;
      ret abcd
    else ret abcd
  else ret abcd.

(** Lines 132-139. *)
Definition cpu_init_smap (abcd : cpuid_regs) : M cpuid_regs :=
  let* q := __get_cpuid 7 abcd in
  let abcd := snd q in
  if fst q then
    if nonzero (Z.land (r_b abcd) CPUID_SMAP) then
      let* cr4 := read_cr 4 in
      let cr4 := Z.lor cr4 (Z.shiftl 1 21) in
      write_cr 4 cr4;;
      clac;;
      ret abcd
    else ret abcd
  else ret abcd.

(** Lines 141-147. *)
Definition cpu_init_umip (abcd : cpuid_regs) : M cpuid_regs :=
  let* q := __get_cpuid 7 abcd in
  let abcd := snd q in
  if fst q then
    if nonzero (Z.land (r_c abcd) CPUID_UMIP) then
      let* cr4 := read_cr 4 in
      let cr4 := Z.lor cr4 (Z.shiftl 1 11) in
      write_cr 4 cr4;;
      ret abcd
    else ret abcd
  else ret abcd.

(** Lines 150-154: the page-attribute table. *)
Definition cpu_init_pat : M unit :=
  let* pat_msr := rdmsr 0x277 in
  let pat_msr := Z.land pat_msr 0xFFFFFFFF in
  let pat_msr := Z.lor pat_msr (u64 (Z.shiftl 0x0105 32)) in
  wrmsr 0x277 pat_msr.

(** Lines 162-176: the value handed to [wrxcr]; returns it together with
    the locals as the second leaf-7 query leaves them. *)
Definition cpu_init_xcr0 (abcd : cpuid_regs) : M (Z * cpuid_regs) :=
  let xcr0 := 0 in
  let xcr0 := Z.lor xcr0 (Z.shiftl 1 0) in
  let xcr0 := Z.lor xcr0 (Z.shiftl 1 1) in
  let xcr0 :=
    if nonzero (Z.land (r_c abcd) bit_AVX) then Z.lor xcr0 (Z.shiftl 1 2)
    else xcr0 in
  let* q := __get_cpuid 7 abcd in
  let abcd := snd q in
  let xcr0 :=
    if fst q then
      if nonzero (Z.land (r_b abcd) bit_AVX512F) then
        let xcr0 := Z.lor xcr0 (Z.shiftl 1 5) in
        let xcr0 := Z.lor xcr0 (Z.shiftl 1 6) in
        Z.lor xcr0 (Z.shiftl 1 7)
      else xcr0
    else xcr0 in
  ret (xcr0, abcd).

(** Lines 156-186: selection of the extended-state strategy. *)
Definition cpu_init_fpu (abcd : cpuid_regs) : M unit :=
  let* q := __get_cpuid 1 abcd in
  let abcd := snd q in
  if nonzero (Z.land (r_c abcd) bit_XSAVE) then
    let* cr4 := read_cr 4 in
    let cr4 := Z.lor cr4 (Z.shiftl 1 18) in
    write_cr 4 cr4;;
    let* x := cpu_init_xcr0 abcd in
    let xcr0 := fst x in
    let abcd := snd x in
    wrxcr 0 xcr0;;
    set_fpu (r_c abcd) xsave xrstor
  else
    set_fpu 512 fxsave fxrstor.

Definition cpu_init : M unit :=
  cpu_init_cr0;;
  cpu_init_cr4_fxsr;;
  cpu_init_cr4_tsd;;
  let abcd := mk_regs 0 0 0 0 in
  let* abcd := cpu_init_smep abcd in
  let* abcd := cpu_init_smap abcd in
  let* abcd := cpu_init_umip abcd in
  cpu_init_pat;;
  cpu_init_fpu abcd.

(** *** [cpu_init] cut at the SMAP block *)

(** The machine on entry to the SMAP block (line 132), and the locals
    [a], [b], [c], [d] at that point. *)
Definition before_smap : M cpuid_regs :=
  cpu_init_cr0;; cpu_init_cr4_fxsr;; cpu_init_cr4_tsd;;
  cpu_init_smep regs0.

(** What follows the SMAP block (lines 141-186). *)
Definition after_smap (abcd : cpuid_regs) : M unit :=
  let* abcd := cpu_init_umip abcd in
  cpu_init_pat;;
  cpu_init_fpu abcd.

(** *** What the queries of [cpu_init] see *)

(** Highest basic leaf the processor answers. *)
Definition max_leaf : Z := u32 (r_a (cpuid 0 0)).

(** A basic leaf can be queried when it is not above [max_leaf] (and
    [max_leaf] is not 0). *)
Definition leaf_supported (leaf : Z) : bool :=
  negb ((max_leaf =? 0) || (max_leaf <? leaf)).

(** ECX when [__get_cpuid] runs the query of a basic leaf: ECX of leaf 0,
    which on real processors is the last four characters of the vendor
    string. *)
Definition stale_ecx : Z := u32 (r_c (cpuid 0 0)).

(** The answer the query of a basic leaf gets from [__get_cpuid]: the
    one for sub-leaf [stale_ecx]. *)
Definition seen (leaf : Z) : cpuid_regs := cpuid leaf stale_ecx.

(** Supervisor-mode access prevention as the code's query sees it:
    leaf 7, EBX, mask [CPUID_SMAP]. *)
Definition smap_seen : bool :=
  leaf_supported 7 && nonzero (Z.land (u32 (r_b (seen 7))) CPUID_SMAP).

(** XSAVE: leaf 1, ECX bit 26.  AVX: leaf 1, ECX bit 28.  Leaf 1 has no
    sub-leaves, so what the query sees is what the processor has. *)
Definition xsave_present : bool :=
  leaf_supported 1 && Z.testbit (r_c (seen 1)) 26.

Definition avx_present : bool :=
  leaf_supported 1 && Z.testbit (r_c (seen 1)) 28.

(** AVX-512 foundation as the code's query sees it: leaf 7, EBX
    bit 16. *)
Definition avx512f_seen : bool :=
  leaf_supported 7 && Z.testbit (r_b (seen 7)) 16.

(** Supervisor-mode execution prevention and user-mode instruction
    prevention as the code's query sees them: leaf 7, EBX, mask
    [CPUID_SMEP]; leaf 7, ECX, mask [CPUID_UMIP]. *)
Definition smep_seen : bool :=
  leaf_supported 7 && nonzero (Z.land (u32 (r_b (seen 7))) CPUID_SMEP).

Definition umip_seen : bool :=
  leaf_supported 7 && nonzero (Z.land (u32 (r_c (seen 7))) CPUID_UMIP).

(** What the processor reports: leaf 7 has sub-leaves, and the feature
    bits [cpu_init] tests are those of sub-leaf 0. *)
Definition smap_reported : bool :=
  leaf_supported 7 && nonzero (Z.land (u32 (r_b (cpuid 7 0))) CPUID_SMAP).

Definition avx512f_reported : bool :=
  leaf_supported 7 && Z.testbit (r_b (cpuid 7 0)) 16.

(** *** What the locals and XCR0 hold, in terms of what the queries see *)

(** The result of one successful query, as [__cpuid] stores it. *)
Definition query (leaf : Z) : cpuid_regs :=
  mk_regs (u32 (r_a (seen leaf))) (u32 (r_b (seen leaf)))
          (u32 (r_c (seen leaf))) (u32 (r_d (seen leaf))).

(** After each of the three leaf-7 blocks the locals hold the leaf-7
    answer, or are still what they were when leaf 7 cannot be queried. *)
Definition locals_after_leaf7 (abcd : cpuid_regs) : cpuid_regs :=
  if leaf_supported 7 then query 7 else abcd.

(** The XCR0 value lines 162-175 build. *)
Definition xcr0_value : Z :=
  Z.lor (Z.lor (Z.lor (Z.shiftl 1 0) (Z.shiftl 1 1))
               (if avx_present then Z.shiftl 1 2 else 0))
        (if avx512f_seen
         then Z.lor (Z.lor (Z.shiftl 1 5) (Z.shiftl 1 6)) (Z.shiftl 1 7)
         else 0).

(** The locals when line 178 reads [c]: the second leaf-7 query has
    overwritten the leaf-1 answer whenever leaf 7 can be queried. *)
Definition size_source_leaf : Z := if leaf_supported 7 then 7 else 1.

(** The bits [cpu_init] ORs into CR4, by what its queries see. *)
Definition cr4_mask : Z :=
  Z.lor (Z.lor (Z.lor (Z.lor (Z.lor (Z.shiftl 3 9) (Z.shiftl 1 2))
                             (if smep_seen then Z.shiftl 1 20 else 0))
                      (if smap_seen then Z.shiftl 1 21 else 0))
               (if umip_seen then Z.shiftl 1 11 else 0))
        (if xsave_present then Z.shiftl 1 18 else 0).

End CpuInit.

(** *** Observations on machines and traces *)

(** A machine with cleared registers whose AC flag a previous task left
    set. *)
Definition machine0 : machine :=
  mk_machine (fun _ => 0) (fun _ => 0) (fun _ => 0) true 0 None None [].

(** The MSRs and the AC flag are the same in [s] and [s']. *)
Definition keeps_msr_ac (s s' : machine) : Prop :=
  msr s' = msr s /\ rflags_ac s' = rflags_ac s.

(** [bits_le a b]: every bit set in [a] is set in [b]. *)
Definition bits_le (a b : Z) : bool := Z.land a b =? a.

Arguments bits_le : simpl never.

(** The value of CR4 after the events [t], when it was [v] before. *)
Fixpoint cr4_after (v : Z) (t : list event) : Z :=
  match t with
  | [] => v
  | EvWriteCr n w :: t' => cr4_after (if n =? 4 then w else v) t'
  | _ :: t' => cr4_after v t'
  end.

(** The successive values written to CR4. *)
Fixpoint cr4_writes (t : list event) : list Z :=
  match t with
  | [] => []
  | EvWriteCr n w :: t' => if n =? 4 then w :: cr4_writes t' else cr4_writes t'
  | _ :: t' => cr4_writes t'
  end.

(** Every write to CR4 in [t] keeps the bits CR4 had just before it. *)
Fixpoint cr4_monotone (v : Z) (t : list event) : bool :=
  match t with
  | [] => true
  | EvWriteCr n w :: t' =>
      if n =? 4 then bits_le v w && cr4_monotone w t' else cr4_monotone v t'
  | _ :: t' => cr4_monotone v t'
  end.

(** [cr4_step s s']: the events added between [s] and [s'] update CR4
    monotonically and account for its value in [s']. *)
Definition cr4_step (s s' : machine) : Prop :=
  exists evs,
    trace s' = trace s ++ evs /\
    cr4_monotone (u64 (cr s 4)) evs = true /\
    cr4_after (u64 (cr s 4)) evs = u64 (cr s' 4).

(** The events [evs] hold a single write to CR4, and all of [bits] are
    set in the value written. *)
Definition single_cr4_update (bits : list Z) (evs : list event) : Prop :=
  exists w, cr4_writes evs = [w]
            /\ Forall (fun b => Z.testbit w b = true) bits.

(** The state components a value of XCR0 enables: the indices of its set
    bits. *)
Definition components (x : Z) : list Z :=
  filter (fun i => Is_true (Z.testbit x i)) (map Z.of_nat (seq 0 64)).

(** The privileged instructions [cpu_init] has in its text: CPUID leaves
    0, 1 and 7, control registers 0 and 4, MSR 0x277, XCR0, and [clac]. *)
Definition cpu_init_event (e : event) : bool :=
  match e with
  | EvCpuid leaf => (leaf =? 0) || (leaf =? 1) || (leaf =? 7)
  | EvReadCr n => (n =? 0) || (n =? 4)
  | EvWriteCr n _ => (n =? 0) || (n =? 4)
  | EvRdmsr i => i =? 0x277
  | EvWrmsr i _ => i =? 0x277
  | EvXsetbv i _ => i =? 0
  | EvClac => true
  end.

(** Between [s] and [s'] CR4 gained exactly the bits of [mask], no other
    control register and no XCR other than XCR0 changed, and only events
    of [cpu_init_event] were added. *)
Definition cr4_block (mask : Z) (s s' : machine) : Prop :=
  (forall n, n <> 4 -> cr s' n = cr s n)
  /\ u64 (cr s' 4) = Z.lor (u64 (cr s 4)) mask
  /\ (cr s' 4 = cr s 4 \/ cr s' 4 = u64 (cr s' 4))
  /\ (forall i, i <> 0 -> xcr s' i = xcr s i)
  /\ exists evs, trace s' = trace s ++ evs
                 /\ forallb cpu_init_event evs = true.

(** *** Concrete processors *)

(** The architectural positions of the three feature bits cpu.h names:
    SMEP is leaf 7 EBX bit 7, SMAP is leaf 7 EBX bit 20, UMIP is leaf 7
    ECX bit 2. *)
Definition smep_mask : Z := Z.shiftl 1 7.
Definition smap_mask : Z := Z.shiftl 1 20.
Definition umip_mask : Z := Z.shiftl 1 2.

(** A CPUID table: highest basic leaf, leaf 1 ECX, leaf 7 EBX and ECX
    (sub-leaf 0), leaf 13 ECX (sub-leaf 0: the size of the XSAVE area for
    everything the processor supports).  Every other output is 0, the
    vendor word in ECX of leaf 0 included, and so is every answer for
    another sub-leaf of leaves 7 and 13. *)
Definition cpuid_table (maxl ecx1 ebx7 ecx7 ecx13 : Z) (leaf subleaf : Z)
    : cpuid_regs :=
  if leaf =? 0 then mk_regs maxl 0 0 0
  else if leaf =? 1 then mk_regs 0 0 ecx1 0
  else if leaf =? 7 then
    if subleaf =? 0 then mk_regs 0 ebx7 ecx7 0 else mk_regs 0 0 0 0
  else if leaf =? 13 then
    if subleaf =? 0 then mk_regs 0 0 ecx13 0 else mk_regs 0 0 0 0
  else mk_regs 0 0 0 0.

(** The processor [table] with the vendor word [ecx0] in ECX of
    leaf 0. *)
Definition with_vendor (ecx0 : Z) (table : Z -> Z -> cpuid_regs)
    (leaf subleaf : Z) : cpuid_regs :=
  if leaf =? 0 then
    mk_regs (r_a (table 0 subleaf)) (r_b (table 0 subleaf)) ecx0
            (r_d (table 0 subleaf))
  else table leaf subleaf.

(** ECX of leaf 0 on a processor whose vendor string is "GenuineIntel":
    the characters "ntel". *)
Definition vendor_intel : Z := 0x6C65746E.

(** XSAVE and AVX; leaf 7 ECX reports VAES (bit 9) alone; the XSAVE area
    for x87, SSE and AVX state takes 832 bytes. *)
Definition cpu_avx_vaes : Z -> Z -> cpuid_regs :=
  cpuid_table 13 (Z.lor bit_XSAVE bit_AVX) 0 (Z.shiftl 1 9) 832.

(** XSAVE without AVX and without AVX-512 (x87 and SSE state: 576
    bytes). *)
Definition cpu_xsave_only : Z -> Z -> cpuid_regs :=
  cpuid_table 13 bit_XSAVE 0 0 576.

(** No XSAVE at all. *)
Definition cpu_legacy : Z -> Z -> cpuid_regs :=
  cpuid_table 13 0 0 0 0.

(** XSAVE, AVX, AVX-512 foundation and SMAP. *)
Definition cpu_avx512 : Z -> Z -> cpuid_regs :=
  cpuid_table 13 (Z.lor bit_XSAVE bit_AVX) (Z.lor bit_AVX512F smap_mask) 0 2696.

(** The same capabilities on a processor that names its vendor. *)
Definition cpu_avx512_intel : Z -> Z -> cpuid_regs :=
  with_vendor vendor_intel cpu_avx512.

Definition boot (cpuid : Z -> Z -> cpuid_regs) : machine :=
  exec (cpu_init smep_mask smap_mask umip_mask cpuid) machine0.

End Cpu.

(** ** Multiprocessor bootstrap coordinator: [smp_init], cpu.c:92-102 *)

Module Smp.

(** The fields of the boot protocol's per-core record that cpu.c uses. *)
Record stivale2_smp_info := mk_smp_info {
  processor_id : Z;
  lapic_id : Z;
  target_stack : Z;
  goto_address : Z
}.

Record stivale2_struct_tag_smp := mk_smp_tag {
  cpu_count : Z;
  smp_info : list stivale2_smp_info
}.

Inductive event :=
| EvPrintCount (n : Z)          (* "CPU: Total processor count: %d" *)
| EvPrintOnline (lapic : Z)     (* "CPU: Processor %d online!" *)
| EvAlloc (size base : Z)       (* alloc(size) returned base *)
| EvUsleep (us : Z).            (* hpet_usleep(us) *)

(** [sizeof(stack)] at line 97: [stack] is declared [uint8_t *], and a
    pointer takes 8 bytes on x86_64. *)
Definition sizeof_stack : Z := 8.

(** Assignments to a field of one [smp_info] entry. *)
Definition set_target_stack (v : Z) (c : stivale2_smp_info) : stivale2_smp_info :=
  mk_smp_info (processor_id c) (lapic_id c) v (goto_address c).

Definition set_goto_address (v : Z) (c : stivale2_smp_info) : stivale2_smp_info :=
  mk_smp_info (processor_id c) (lapic_id c) (target_stack c) v.

Section SmpInit.

(** The allocator of klibc/alloc.h: some heap state, and a function that
    returns the base address of a fresh region. *)
Variable heap : Type.
Variable alloc : Z -> heap -> Z * heap.

(** The address of [cpu_start]. *)
Variable cpu_start : Z.

Record state := mk_state {
  st_heap : heap;
  st_tag : stivale2_struct_tag_smp;
  st_log : list event
}.

(** Lines 96-98, the body of the loop for index [i].  An index outside
    the array would be an out-of-bounds store in C; the boot protocol
    guarantees [cpu_count] entries, and the theorems assume it. *)
Definition smp_init_body (i : nat) (st : state) : state :=
  let (stack, h) := alloc 32768 (st_heap st) in
  let infos := smp_info (st_tag st) in
  let infos := alter (set_target_stack (u64 (stack + sizeof_stack))) i infos in
  let infos := alter (set_goto_address cpu_start) i infos in
  mk_state h (mk_smp_tag (cpu_count (st_tag st)) infos)
    (st_log st ++ [EvAlloc 32768 stack]).

(** Line 95: [for (size_t i = 0; i < smp_tag->cpu_count; ++i)], with
    [todo] the number of iterations still to run. *)
Fixpoint smp_init_loop (todo : nat) (i : nat) (st : state) : state :=
  match todo with
  | O => st
  | S todo' => smp_init_loop todo' (S i) (smp_init_body i st)
  end.

Definition smp_init (h : heap) (smp_tag : stivale2_struct_tag_smp) : state :=
  let log := [EvPrintCount (cpu_count smp_tag)] in
  let log := log ++ [EvPrintOnline
                       (match smp_info smp_tag !! 0%nat with
                        | Some c => lapic_id c
                        | None => 0
                        end)] in
  let st := smp_init_loop (Z.to_nat (cpu_count smp_tag)) 0
              (mk_state h smp_tag log) in
  mk_state (st_heap st) (st_tag st) (st_log st ++ [EvUsleep 50000]).

(** The bases of [n] successive stack allocations. *)
Fixpoint stack_bases (n : nat) (h : heap) : list Z :=
  match n with
  | O => []
  | S n' => let (b, h') := alloc 32768 h in b :: stack_bases n' h'
  end.

(** What the loop publishes for a core whose stack was allocated at
    [base]. *)
Definition published (base : Z) (c : stivale2_smp_info) : stivale2_smp_info :=
  mk_smp_info (processor_id c) (lapic_id c) (u64 (base + sizeof_stack)) cpu_start.

End SmpInit.

Arguments mk_state {heap}.
Arguments st_heap {heap}.
Arguments st_tag {heap}.
Arguments st_log {heap}.
Arguments smp_init_body {heap}.
Arguments smp_init_loop {heap}.
Arguments smp_init {heap}.
Arguments stack_bases {heap}.

(** *** A concrete hand-off *)

(** A bump allocator: the heap is the next free address. *)
Definition bump (size : Z) (next : Z) : Z * Z := (next, next + size).

Definition two_cores : stivale2_struct_tag_smp :=
  mk_smp_tag 2 [mk_smp_info 0 0 0 0; mk_smp_info 1 1 0 0].

Definition cpu_start_address : Z := 0xFFFFFFFF80201000.

End Smp.

(** ** The secondary-core trampoline: [cpu_start], cpu.c:79-90 *)

Module Trampoline.

(** Program points of one core running [cpu_start]. *)
Inductive pc :=
| AtLock          (* line 80: LOCK(cpu_lock), not yet acquired *)
| AtReadInfo      (* lines 81-83 *)
| AtCpuInit       (* line 84 *)
| AtLapicInit     (* line 85 *)
| AtPrintf        (* line 86 *)
| AtUnlock        (* line 87: UNLOCK(cpu_lock) *)
| Halted.         (* lines 88-89: for (;;) hlt *)

(** The region between LOCK and UNLOCK. *)
Definition in_region (p : pc) : bool :=
  match p with
  | AtReadInfo | AtCpuInit | AtLapicInit | AtPrintf | AtUnlock => true
  | AtLock | Halted => false
  end.

(** Modelled from the spec: the macros LOCK and UNLOCK of klibc/lock.h,
    which the sources at hand do not include.  The design document calls
    [cpu_lock] "a single process-wide mutual-exclusion primitive" acquired
    by each core in turn, with no fairness guarantee; it is modelled as a
    spin lock on one flag: one attempt of LOCK atomically sets the flag
    and succeeds when it was clear, UNLOCK clears it. *)
Definition LOCK (flag : bool) : bool * bool := (negb flag, true).

Definition UNLOCK (flag : bool) : bool := false.

(** One atomic step of a core; the lock flag is the only state the region
    boundaries depend on. *)
Definition cpu_start_step (p : pc) (flag : bool) : pc * bool :=
  match p with
  | AtLock =>
      let (acquired, flag') := LOCK flag in
      (if acquired then AtReadInfo else AtLock, flag')
  | AtReadInfo => (AtCpuInit, flag)
  | AtCpuInit => (AtLapicInit, flag)
  | AtLapicInit => (AtPrintf, flag)
  | AtPrintf => (AtUnlock, flag)
  | AtUnlock => (Halted, UNLOCK flag)
  | Halted => (Halted, flag)
  end.

Record system := mk_system {
  cpu_lock : bool;          (* lock_t cpu_lock, zero-initialised *)
  cores : list pc
}.

(** Core [i] takes one step; a core that does not exist takes none. *)
Definition step (i : nat) (s : system) : system :=
  match cores s !! i with
  | Some p =>
      let (p', flag') := cpu_start_step p (cpu_lock s) in
      mk_system flag' (<[i := p']> (cores s))
  | None => s
  end.

(** An interleaving is the list of cores in the order they step. *)
Definition run (schedule : list nat) (s : system) : system :=
  fold_left (fun s i => step i s) schedule s.

(** [n] cores released into the trampoline, the lock free. *)
Definition init (n : nat) : system := mk_system false (replicate n AtLock).

(** At most one core is in the region, and none when the lock is free. *)
Definition exclusive (s : system) : Prop :=
  (cpu_lock s = false ->
   forall i p, cores s !! i = Some p -> in_region p = false)
  /\ (forall i j p q,
        cores s !! i = Some p -> cores s !! j = Some q ->
        in_region p = true -> in_region q = true -> i = j).

(** The lock is held only while some core is in the region. *)
Definition occupied (s : system) : Prop :=
  cpu_lock s = true ->
  exists i p, cores s !! i = Some p /\ in_region p = true.

(** Steps a core still has to take before it halts (an acquisition counts
    once). *)
Definition remaining (p : pc) : nat :=
  match p with
  | AtLock => 6
  | AtReadInfo => 5
  | AtCpuInit => 4
  | AtLapicInit => 3
  | AtPrintf => 2
  | AtUnlock => 1
  | Halted => 0
  end.

Definition work (s : system) : nat := sum_list (map remaining (cores s)).

End Trampoline.

(** ** The device filesystem: [devtmpfs_write], devtmpfs.c:73-90 *)

Module Devtmpfs.

(** Conversion of a 64-bit pattern to a signed 64-bit integer
    ([ssize_t], [off_t]). *)
Definition s64 (x : Z) : Z := (x + 2 ^ 63) mod 2 ^ 64 - 2 ^ 63.

(** [struct tmpfs_resource], with the one field of the embedded
    [struct resource] that [devtmpfs_write] changes.  [data] is the heap
    block [data] points to; its length is the size it was allocated
    with. *)
Record tmpfs_resource := mk_tmpfs {
  st_size : Z;
  allocated_size : Z;
  data : list Byte.byte
}.

(** How one call ends. *)
Inductive outcome :=
| Returned (ret : Z) (this : tmpfs_resource)
| OutOfBounds       (* the copy leaves the block [data] points to *)
| Spinning.         (* the growth loop is still running when fuel ends *)

Section Write.

(** [krealloc] is the allocator's (liballoc, not among the sources at
    hand): the block it returns for an old block and a new size.  NULL is
    written as the block of no bytes - every access through it leaves the
    block.  What the theorems need of it is stated where they need it. *)
Variable krealloc : list Byte.byte -> Z -> list Byte.byte.

(** The copy at line 85 stays inside the block of [size] bytes. *)
Definition copy_in_bounds (off count size : Z) : bool :=
  (0 <=? off) && (off + count <=? size).

(** [memcpy(this->data + off, buf, count)]. *)
Definition memcpy_at (block : list Byte.byte) (off : Z) (buf : list Byte.byte)
    (count : Z) : option (list Byte.byte) :=
  if copy_in_bounds off count (Z.of_nat (length block))
     && (count <=? Z.of_nat (length buf))
  then Some (take (Z.to_nat off) block
             ++ take (Z.to_nat count) buf
             ++ drop (Z.to_nat (off + count)) block)
  else None.

(** Lines 79-80: [while (off + count > allocated_size) allocated_size *= 2],
    with [need] the value of [off + count]. *)
Fixpoint growth_loop (fuel : nat) (need size : Z) : option Z :=
  match fuel with
  | O => None
  | S fuel' =>
      if need >? size then growth_loop fuel' need (u64 (size * 2))
      else Some size
  end.

(** [off + count] as C computes it: [off] is converted to [size_t] and
    the sum wraps. *)
Definition off_plus_count (off count : Z) : Z := u64 (u64 off + count).

(** The size [krealloc] is called with at line 82, when the call is
    made. *)
Definition krealloc_request (fuel : nat) (allocated_size off count : Z)
    : option Z :=
  if off_plus_count off count >? allocated_size
  then growth_loop fuel (off_plus_count off count) allocated_size
  else None.

(** Lines 78-83; the result of [krealloc] is stored unchecked. *)
Definition devtmpfs_grow (fuel : nat) (this : tmpfs_resource) (off count : Z)
    : option tmpfs_resource :=
  if off_plus_count off count >? allocated_size this then
    match growth_loop fuel (off_plus_count off count) (allocated_size this) with
    | Some size =>
        Some (mk_tmpfs (st_size this) size (krealloc (data this) size))
    | None => None
    end
  else Some this.

Definition devtmpfs_write (fuel : nat) (this : tmpfs_resource)
    (buf : list Byte.byte) (off count : Z) : outcome :=
  match devtmpfs_grow fuel this off count with
  | None => Spinning
  | Some this =>
      match memcpy_at (data this) off buf count with
      | None => OutOfBounds
      | Some block =>
          Returned (s64 count)
            (mk_tmpfs (s64 (u64 (st_size this) + count))
               (allocated_size this) block)
      end
  end.

End Write.

(** A [krealloc] in the manner of C's [realloc] with [limit] bytes to
    give: a block of the new size that keeps the old contents, its new
    bytes being [junk]; NULL for a size above [limit]. *)
Definition realloc_up_to (junk : Byte.byte) (limit : Z)
    (block : list Byte.byte) (size : Z) : list Byte.byte :=
  if size <=? limit then
    take (Z.to_nat size) block
    ++ replicate (Z.to_nat size - length block) junk
  else [].

(** One with a mebibyte to give. *)
Definition small_heap : list Byte.byte -> Z -> list Byte.byte :=
  realloc_up_to Byte.x00 0x100000.

(** The resource [devtmpfs_open] creates (lines 105-110): 4096 bytes. *)
Definition fresh_resource : tmpfs_resource :=
  mk_tmpfs 0 4096 (replicate 4096 Byte.x00).

(** *** [devtmpfs_read], devtmpfs.c:60-71 *)

(** How one read ends: the value returned together with the caller's
    buffer after the copy, or a copy that leaves a block. *)
Inductive read_outcome :=
| ReadReturned (ret : Z) (buf : list Byte.byte)
| ReadOutOfBounds.

(** [memcpy(buf, this->data + off, count)]. *)
Definition memcpy_from (block : list Byte.byte) (off : Z) (buf : list Byte.byte)
    (count : Z) : option (list Byte.byte) :=
  if copy_in_bounds off count (Z.of_nat (length block))
     && (count <=? Z.of_nat (length buf))
  then Some (take (Z.to_nat count) (drop (Z.to_nat off) block)
             ++ drop (Z.to_nat count) buf)
  else None.

(** Lines 65-66: [count] after the clipping; [st_size] is converted to
    [size_t] and the subtractions wrap. *)
Definition clipped_count (this : tmpfs_resource) (off count : Z) : Z :=
  if off_plus_count off count >? u64 (st_size this)
  then u64 (count - u64 (off_plus_count off count - u64 (st_size this)))
  else count.

Definition devtmpfs_read (this : tmpfs_resource) (buf : list Byte.byte)
    (off count : Z) : read_outcome :=
  let count := clipped_count this off count in
  match memcpy_from (data this) off buf count with
  | None => ReadOutOfBounds
  | Some buf => ReadReturned (s64 count) buf
  end.

(** *** [devtmpfs_open] and [devtmpfs_mkdir], devtmpfs.c:100-135 *)

(** The fields of [struct stat] the two functions assign, [st_size]
    apart. *)
Record stat := mk_stat {
  st_dev : Z;
  st_ino : Z;
  st_mode : Z;
  st_nlink : Z;
  st_blksize : Z;
  st_blocks : Z
}.

(** The three operations [devtmpfs_open] installs in a resource. *)
Inductive resource_op := op_close | op_read | op_write.

(** What [devtmpfs_open] returns: the assigned part of the resource. *)
Record file_resource := mk_file {
  f_stat : stat;
  f_file : tmpfs_resource;
  f_close : resource_op;
  f_read : resource_op;
  f_write : resource_op
}.

(** What [devtmpfs_mkdir] returns. *)
Record dir_resource := mk_dir {
  d_stat : stat;
  d_st_size : Z
}.

Section Open.

(** [S_IFMT], [S_IFREG] and [S_IFDIR], and the widths of [mode_t] and
    [ino_t], come from headers the sources at hand do not include. *)
Variables S_IFMT S_IFREG S_IFDIR : Z.
Variables mode_bits ino_bits : Z.

(** What [kmalloc] returns is not initialised. *)
Variable junk : Byte.byte.

(** [(mode & ~S_IFMT) | type], in [mode_t]. *)
Definition file_mode (mode type : Z) : Z :=
  (Z.lor (Z.land mode (Z.lnot S_IFMT)) type) mod 2 ^ mode_bits.

(** [inode_counter++]: the value used and the counter afterwards. *)
Definition next_inode (inode_counter : Z) : Z * Z :=
  (inode_counter, (inode_counter + 1) mod 2 ^ ino_bits).

(** Lines 100-121; [backing_dev_id] is the field of [node] that is read,
    the second component is [inode_counter] afterwards.  The results of
    [resource_create] and [kmalloc] are used unchecked: what is described
    is a call in which both return a block. *)
Definition devtmpfs_open (backing_dev_id : Z) (create : bool) (mode : Z)
    (inode_counter : Z) : option file_resource * Z :=
  if negb create then (None, inode_counter)
  else
    let allocated_size := 4096 in
    let data := replicate (Z.to_nat allocated_size) junk in
    let (ino, inode_counter) := next_inode inode_counter in
    (Some (mk_file
             (mk_stat backing_dev_id ino (file_mode mode S_IFREG) 1 512 0)
             (mk_tmpfs 0 allocated_size data)
             op_close op_read op_write),
     inode_counter).

(** Lines 123-135. *)
Definition devtmpfs_mkdir (backing_dev_id : Z) (mode : Z) (inode_counter : Z)
    : dir_resource * Z :=
  let (ino, inode_counter) := next_inode inode_counter in
  (mk_dir (mk_stat backing_dev_id ino (file_mode mode S_IFDIR) 1 512 0) 0,
   inode_counter).

(** A sequence of calls on the filesystem, and the inode numbers it hands
    out, in order. *)
Inductive request :=
| ReqOpen (backing_dev_id : Z) (create : bool) (mode : Z)
| ReqMkdir (backing_dev_id : Z) (mode : Z).

Fixpoint serve (requests : list request) (inode_counter : Z) : list Z * Z :=
  match requests with
  | [] => ([], inode_counter)
  | ReqOpen dev create mode :: rest =>
      let (r, c) := devtmpfs_open dev create mode inode_counter in
      let (inos, c') := serve rest c in
      (match r with
       | Some f => st_ino (f_stat f) :: inos
       | None => inos
       end, c')
  | ReqMkdir dev mode :: rest =>
      let (d, c) := devtmpfs_mkdir dev mode inode_counter in
      let (inos, c') := serve rest c in
      (st_ino (d_stat d) :: inos, c')
  end.

End Open.

End Devtmpfs.

(** ** Boot hand-off tags: [stivale2_get_tag], kernel.c:35-49 *)

Module Kernel.

(** [struct stivale2_tag]: the header every tag of the boot protocol
    starts with. *)
Record stivale2_tag := mk_tag {
  identifier : Z;
  next : Z
}.

(** The field of [struct stivale2_struct] that [stivale2_get_tag]
    reads. *)
Record stivale2_struct := mk_struct {
  tags : Z
}.

(** Memory, as far as the walk sees it: the tag header stored at an
    address, if there is one. *)
Definition memory : Type := Z -> option stivale2_tag.

(** How a walk ends. *)
Inductive lookup :=
| Returned (p : Z)   (* the pointer returned; 0 is NULL *)
| BadPointer.        (* [current_tag] pointed at no tag when dereferenced *)

(** Lines 37-48: the [for (;;)] loop, with [fuel] bounding the number of
    iterations; [None] when the loop is still running at the end of the
    fuel. *)
Fixpoint get_tag_loop (fuel : nat) (mem : memory) (current_tag id : Z)
    : option lookup :=
  match fuel with
  | O => None
  | S fuel' =>
      if current_tag =? 0 then Some (Returned 0)
      else
        match mem current_tag with
        | None => Some BadPointer
        | Some t =>
            if identifier t =? id then Some (Returned current_tag)
            else get_tag_loop fuel' mem (next t) id
        end
  end.

Definition stivale2_get_tag (fuel : nat) (mem : memory)
    (stivale2_struct : stivale2_struct) (id : Z) : option lookup :=
  get_tag_loop fuel mem (tags stivale2_struct) id.

(** The tags [l], each with its address, form a NULL-terminated list in
    memory that starts at [p]. *)
Fixpoint tag_chain (mem : memory) (p : Z) (l : list (Z * stivale2_tag)) : Prop :=
  match l with
  | [] => p = 0
  | (a, t) :: l' =>
      p = a /\ a <> 0 /\ mem a = Some t /\ tag_chain mem (next t) l'
  end.

(** The address of the first tag of [l] with identifier [id], NULL when
    there is none. *)
Fixpoint first_with (id : Z) (l : list (Z * stivale2_tag)) : Z :=
  match l with
  | [] => 0
  | (a, t) :: l' => if identifier t =? id then a else first_with id l'
  end.

(** A hand-off with three tags, and one whose two tags point at each
    other. *)
Definition three_tags : memory := fun a =>
  if a =? 0x1000 then Some (mk_tag 0x11 0x2000)
  else if a =? 0x2000 then Some (mk_tag 0x22 0x3000)
  else if a =? 0x3000 then Some (mk_tag 0x22 0)
  else None.

Definition three_tags_list : list (Z * stivale2_tag) :=
  [(0x1000, mk_tag 0x11 0x2000); (0x2000, mk_tag 0x22 0x3000);
   (0x3000, mk_tag 0x22 0)].

Definition two_tags_cycle : memory := fun a =>
  if a =? 0x1000 then Some (mk_tag 0x11 0x2000)
  else if a =? 0x2000 then Some (mk_tag 0x22 0x1000)
  else None.

End Kernel.

(** * Part II.  Properties *)

(** ** Machine integers *)

Lemma u32_range x : 0 <= u32 x < 2 ^ 32.
Proof. unfold u32. apply Z.mod_pos_bound. lia. Qed.

Lemma u64_range x : 0 <= u64 x < 2 ^ 64.
Proof. unfold u64. apply Z.mod_pos_bound. lia. Qed.

Lemma u64_small x : 0 <= x < 2 ^ 64 -> u64 x = x.
Proof. intros. unfold u64. apply Z.mod_small. lia. Qed.

Lemma u32_testbit x i : 0 <= i < 32 -> Z.testbit (u32 x) i = Z.testbit x i.
Proof. intros. unfold u32. apply Z.mod_pow2_bits_low. lia. Qed.

Lemma u32_testbit_high x i : 32 <= i -> Z.testbit (u32 x) i = false.
Proof. intros. unfold u32. apply Z.mod_pow2_bits_high. lia. Qed.

Lemma u64_testbit x i : 0 <= i < 64 -> Z.testbit (u64 x) i = Z.testbit x i.
Proof. intros. unfold u64. apply Z.mod_pow2_bits_low. lia. Qed.

Lemma u64_testbit_high x i : 64 <= i -> Z.testbit (u64 x) i = false.
Proof. intros. unfold u64. apply Z.mod_pow2_bits_high. lia. Qed.

(** A mask test [x & (1 << k)] is non-zero exactly when bit [k] of [x] is
    set. *)
Lemma land_bit_nonzero x k :
  0 <= k -> (Z.land x (Z.shiftl 1 k) =? 0) = negb (Z.testbit x k).
Proof.
  intros Hk. rewrite Z.shiftl_1_l.
  destruct (Z.testbit x k) eqn:Hb; simpl.
  - apply Z.eqb_neq. intros H0.
    assert (Hc : Z.testbit (Z.land x (2 ^ k)) k = true).
    { rewrite Z.land_spec, Hb, Z.pow2_bits_true by lia. reflexivity. }
    rewrite H0, Z.bits_0 in Hc. discriminate.
  - apply Z.eqb_eq. apply Z.bits_inj'. intros n Hn.
    rewrite Z.land_spec, Z.bits_0.
    destruct (Z.eq_dec n k) as [->|Hne].
    + rewrite Hb. reflexivity.
    + rewrite Z.pow2_bits_false by lia. apply andb_false_r.
Qed.

(** ** Processor bring-up *)

Module CpuFacts.

Import Cpu.

Lemma upd_same f k v : upd f k v k = v.
Proof. unfold upd. rewrite Z.eqb_refl. reflexivity. Qed.

Lemma upd_other f k v k' : k' <> k -> upd f k v k' = f k'.
Proof. intros H. unfold upd. apply Z.eqb_neq in H. rewrite H. reflexivity. Qed.

(** *** Sequencing *)

Lemma exec_bind {A B} (m : M A) (k : A -> M B) s :
  exec (bind m k) s = exec (k (fst (m s))) (exec m s).
Proof. unfold exec, bind. destruct (m s); reflexivity. Qed.

Lemma fst_bind {A B} (m : M A) (k : A -> M B) s :
  fst (bind m k s) = fst (k (fst (m s)) (exec m s)).
Proof. unfold exec, bind. destruct (m s); reflexivity. Qed.

(** *** The history of CR4 along a trace *)

Lemma bits_le_spec a b :
  bits_le a b = true <-> (forall i, Z.testbit a i = true -> Z.testbit b i = true).
Proof.
  unfold bits_le. rewrite Z.eqb_eq. split.
  - intros H i Ha. rewrite <- H in Ha. rewrite Z.land_spec in Ha.
    apply andb_true_iff in Ha. tauto.
  - intros H. apply Z.bits_inj'. intros i _. rewrite Z.land_spec.
    destruct (Z.testbit a i) eqn:Ha; [|reflexivity].
    rewrite (H i Ha). reflexivity.
Qed.

Lemma bits_le_refl a : bits_le a a = true.
Proof. apply bits_le_spec. auto. Qed.

Lemma bits_le_trans a b c :
  bits_le a b = true -> bits_le b c = true -> bits_le a c = true.
Proof. rewrite !bits_le_spec. auto. Qed.

(** The shape of every CR4 update of cpu.c: read, OR, write back. *)
Lemma bits_le_or_u64 c m : bits_le (u64 c) (u64 (Z.lor (u64 c) m)) = true.
Proof.
  apply bits_le_spec. intros i Hi.
  destruct (Z.ltb_spec i 0) as [Hneg|Hpos].
  { rewrite Z.testbit_neg_r in Hi by lia. discriminate. }
  destruct (Z.ltb_spec i 64) as [Hlo|Hhi].
  - rewrite u64_testbit, Z.lor_spec, Hi by lia. reflexivity.
  - rewrite u64_testbit_high in Hi by lia. discriminate.
Qed.

Lemma cr4_after_app v t1 t2 :
  cr4_after v (t1 ++ t2) = cr4_after (cr4_after v t1) t2.
Proof.
  revert v. induction t1 as [|e t1 IH]; intros v; [reflexivity|].
  destruct e; simpl; auto.
Qed.

Lemma cr4_writes_app t1 t2 : cr4_writes (t1 ++ t2) = cr4_writes t1 ++ cr4_writes t2.
Proof.
  induction t1 as [|e t1 IH]; [reflexivity|].
  destruct e; simpl; auto. destruct (n =? 4); simpl; congruence.
Qed.

Lemma cr4_monotone_app v t1 t2 :
  cr4_monotone v (t1 ++ t2)
  = cr4_monotone v t1 && cr4_monotone (cr4_after v t1) t2.
Proof.
  revert v. induction t1 as [|e t1 IH]; intros v; [reflexivity|].
  destruct e; simpl; auto.
  destruct (n =? 4); auto. rewrite IH, andb_assoc. reflexivity.
Qed.

(** Along a monotone trace every value CR4 ever held is contained in the
    last one. *)
Lemma cr4_monotone_final v t :
  cr4_monotone v t = true ->
  Forall (fun w => bits_le w (cr4_after v t) = true) (v :: cr4_writes t).
Proof.
  revert v. induction t as [|e t IH]; intros v Hm.
  - simpl. repeat constructor. apply bits_le_refl.
  - destruct e; simpl in *; auto.
    destruct (n =? 4); auto.
    apply andb_true_iff in Hm as [Hvw Hm].
    specialize (IH _ Hm). constructor; [|exact IH].
    inversion IH; subst. eapply bits_le_trans; eassumption.
Qed.

Lemma u64_idem x : u64 (u64 x) = u64 x.
Proof. apply u64_small, u64_range. Qed.

Lemma cr4_step_refl s : cr4_step s s.
Proof. exists []. rewrite app_nil_r. auto. Qed.

Lemma cr4_step_trans s1 s2 s3 : cr4_step s1 s2 -> cr4_step s2 s3 -> cr4_step s1 s3.
Proof.
  intros (e1 & Ht1 & Hm1 & Ha1) (e2 & Ht2 & Hm2 & Ha2).
  exists (e1 ++ e2). repeat split.
  - rewrite Ht2, Ht1, app_assoc. reflexivity.
  - rewrite cr4_monotone_app, Hm1, Ha1, Hm2. reflexivity.
  - rewrite cr4_after_app, Ha1, Ha2. reflexivity.
Qed.

(** *** Symbolic execution of the blocks *)

Ltac cpu_unfold :=
  unfold exec, cpu_init, cpu_init_cr0, cpu_init_cr4_fxsr, cpu_init_cr4_tsd,
    cpu_init_smep, cpu_init_smap, cpu_init_umip, cpu_init_pat, cpu_init_fpu,
    cpu_init_xcr0, __get_cpuid, __get_cpuid_max, __cpuid, read_cr, write_cr,
    rdmsr, wrmsr, wrxcr, clac, set_fpu, emit, bind, ret;
  change (Z.land 7 0x80000000) with 0;
  change (Z.land 1 0x80000000) with 0.

Ltac cpu_cases :=
  repeat match goal with
         | |- context [if ?b then _ else _] => destruct b eqn:?; cbn
         end.

(** Closes a [cr4_step] goal once the block has been run symbolically. *)
Ltac cr4_step_tac :=
  eexists; split;
  [ cbn; rewrite <- ?app_assoc; cbn; reflexivity
  | cbn; rewrite ?bits_le_or_u64, ?u64_idem; auto ].

Section CpuInitFacts.

Variables CPUID_SMEP CPUID_SMAP CPUID_UMIP : Z.
Variable cpuid : Z -> Z -> cpuid_regs.

Abbreviation cpu_init' := (cpu_init CPUID_SMEP CPUID_SMAP CPUID_UMIP cpuid).
Abbreviation cpu_init_smep' := (cpu_init_smep CPUID_SMEP cpuid).
Abbreviation cpu_init_smap' := (cpu_init_smap CPUID_SMAP cpuid).
Abbreviation cpu_init_umip' := (cpu_init_umip CPUID_UMIP cpuid).
Abbreviation cpu_init_fpu' := (cpu_init_fpu cpuid).
Abbreviation before_smap := (Cpu.before_smap CPUID_SMEP cpuid).
Abbreviation after_smap := (Cpu.after_smap CPUID_UMIP cpuid).
Abbreviation max_leaf := (Cpu.max_leaf cpuid).
Abbreviation leaf_supported := (Cpu.leaf_supported cpuid).
Abbreviation seen := (Cpu.seen cpuid).
Abbreviation smap_seen := (Cpu.smap_seen CPUID_SMAP cpuid).
Abbreviation xsave_present := (Cpu.xsave_present cpuid).
Abbreviation avx_present := (Cpu.avx_present cpuid).
Abbreviation avx512f_seen := (Cpu.avx512f_seen cpuid).
Abbreviation query := (Cpu.query cpuid).
Abbreviation locals_after_leaf7 := (Cpu.locals_after_leaf7 cpuid).
Abbreviation xcr0_value := (Cpu.xcr0_value cpuid).
Abbreviation size_source_leaf := (Cpu.size_source_leaf cpuid).

(** *** What each block leaves alone *)

Lemma cpu_init_cr0_step s :
  cr4_step s (exec cpu_init_cr0 s) /\ keeps_msr_ac s (exec cpu_init_cr0 s).
Proof. split; [cr4_step_tac | split; reflexivity]. Qed.

Lemma cpu_init_cr4_fxsr_step s :
  cr4_step s (exec cpu_init_cr4_fxsr s)
  /\ keeps_msr_ac s (exec cpu_init_cr4_fxsr s).
Proof. split; [cr4_step_tac | split; reflexivity]. Qed.

Lemma cpu_init_cr4_tsd_step s :
  cr4_step s (exec cpu_init_cr4_tsd s)
  /\ keeps_msr_ac s (exec cpu_init_cr4_tsd s).
Proof. split; [cr4_step_tac | split; reflexivity]. Qed.

Lemma cpu_init_smep_step abcd s :
  cr4_step s (exec (cpu_init_smep' abcd) s)
  /\ keeps_msr_ac s (exec (cpu_init_smep' abcd) s).
Proof.
  cpu_unfold. cbn. cpu_cases; (split; [cr4_step_tac | split; reflexivity]).
Qed.

Lemma cpu_init_umip_step abcd s :
  cr4_step s (exec (cpu_init_umip' abcd) s)
  /\ keeps_msr_ac s (exec (cpu_init_umip' abcd) s).
Proof.
  cpu_unfold. cbn. cpu_cases; (split; [cr4_step_tac | split; reflexivity]).
Qed.

Lemma cpu_init_smap_step abcd s :
  cr4_step s (exec (cpu_init_smap' abcd) s)
  /\ msr (exec (cpu_init_smap' abcd) s) = msr s.
Proof.
  cpu_unfold. cbn. cpu_cases; (split; [cr4_step_tac | reflexivity]).
Qed.

Lemma cpu_init_pat_step s :
  cr4_step s (exec cpu_init_pat s)
  /\ rflags_ac (exec cpu_init_pat s) = rflags_ac s.
Proof. split; [cr4_step_tac | reflexivity]. Qed.

Lemma cpu_init_fpu_step abcd s :
  cr4_step s (exec (cpu_init_fpu' abcd) s)
  /\ keeps_msr_ac s (exec (cpu_init_fpu' abcd) s).
Proof.
  cpu_unfold. cbn. cpu_cases; (split; [cr4_step_tac | split; reflexivity]).
Qed.

(** *** [cpu_init] as the sequence of its blocks *)

Lemma cpu_init_blocks s :
  let r1 := fst (before_smap s) in
  let s4 := exec before_smap s in
  let r2 := fst (cpu_init_smap' r1 s4) in
  let s5 := exec (cpu_init_smap' r1) s4 in
  exec cpu_init' s = exec (after_smap r2) s5.
Proof.
  unfold before_smap, after_smap, cpu_init. cbv zeta.
  rewrite !exec_bind, !fst_bind. reflexivity.
Qed.

Lemma before_smap_step s :
  cr4_step s (exec before_smap s) /\ keeps_msr_ac s (exec before_smap s).
Proof.
  unfold before_smap.
  rewrite !exec_bind.
  set (s1 := exec cpu_init_cr0 s).
  set (s2 := exec cpu_init_cr4_fxsr s1).
  set (s3 := exec cpu_init_cr4_tsd s2).
  destruct (cpu_init_cr0_step s) as [A1 [B1 C1]].
  destruct (cpu_init_cr4_fxsr_step s1) as [A2 [B2 C2]].
  destruct (cpu_init_cr4_tsd_step s2) as [A3 [B3 C3]].
  destruct (cpu_init_smep_step regs0 s3) as [A4 [B4 C4]].
  fold s1 in A1, B1, C1. fold s2 in A2, B2, C2. fold s3 in A3, B3, C3.
  split; [|split].
  - eauto using cr4_step_trans.
  - congruence.
  - congruence.
Qed.

Lemma after_smap_step abcd s :
  cr4_step s (exec (after_smap abcd) s)
  /\ rflags_ac (exec (after_smap abcd) s) = rflags_ac s
  /\ (forall i, i <> 0x277 ->
        msr (exec (after_smap abcd) s) i = msr s i)
  /\ msr (exec (after_smap abcd) s) 0x277
     = msr (exec cpu_init_pat s) 0x277.
Proof.
  unfold after_smap. rewrite !exec_bind.
  set (r := fst (cpu_init_umip' abcd s)).
  set (s1 := exec (cpu_init_umip' abcd) s).
  set (s2 := exec cpu_init_pat s1).
  destruct (cpu_init_umip_step abcd s) as [A1 [B1 C1]].
  destruct (cpu_init_pat_step s1) as [A2 C2].
  destruct (cpu_init_fpu_step r s2) as [A3 [B3 C3]].
  fold s1 in A1, B1, C1. fold s2 in A2, C2.
  split; [|split; [|split]].
  - eauto using cr4_step_trans.
  - congruence.
  - intros i Hi. rewrite B3. subst s2. unfold cpu_init_pat, exec, bind, rdmsr, wrmsr.
    cbn. rewrite upd_other by exact Hi. rewrite B1. reflexivity.
  - rewrite B3. subst s2. unfold cpu_init_pat, exec, bind, rdmsr, wrmsr.
    cbn. rewrite B1. reflexivity.
Qed.

(** *** The page-attribute table *)

(** EDX:EAX recomposed: the low half comes from EAX, the high half from
    EDX. *)
Lemma edx_eax_low hi lo i :
  0 <= i < 32 -> Z.testbit (Z.lor (Z.shiftl hi 32) (u32 lo)) i = Z.testbit lo i.
Proof.
  intros Hi. rewrite Z.lor_spec, Z.shiftl_spec_low, u32_testbit by lia.
  reflexivity.
Qed.

Lemma edx_eax_high hi lo i :
  32 <= i ->
  Z.testbit (Z.lor (Z.shiftl hi 32) (u32 lo)) i = Z.testbit hi (i - 32).
Proof.
  intros Hi. rewrite Z.lor_spec, Z.shiftl_spec, u32_testbit_high by lia.
  apply orb_false_r.
Qed.

Lemma pat_encoding_low i : 0 <= i < 32 -> Z.testbit (u64 (Z.shiftl 0x0105 32)) i = false.
Proof.
  intros Hi. rewrite u64_testbit, Z.shiftl_spec_low by lia. reflexivity.
Qed.

Lemma ones32_low i : 0 <= i < 32 -> Z.testbit 0xFFFFFFFF i = true.
Proof. intros Hi. change 0xFFFFFFFF with (Z.ones 32). apply Z.ones_spec_low. lia. Qed.

Lemma ones32_high i : 32 <= i -> Z.testbit 0xFFFFFFFF i = false.
Proof. intros Hi. change 0xFFFFFFFF with (Z.ones 32). apply Z.ones_spec_high. lia. Qed.

(** The value [cpu_init_pat] leaves in MSR 0x277, bit by bit. *)
Lemma cpu_init_pat_bits s i :
  0 <= i ->
  Z.testbit (msr (exec cpu_init_pat s) 0x277) i
  = if i <? 32 then Z.testbit (msr s 0x277) i
    else Z.testbit 0x0105 (i - 32).
Proof.
  intros Hi. unfold cpu_init_pat, exec, bind, rdmsr, wrmsr. cbn [snd fst emit msr].
  rewrite upd_same.
  destruct (Z.ltb_spec i 32) as [Hlo|Hhi].
  - rewrite edx_eax_low, Z.lor_spec, Z.land_spec, edx_eax_low by lia.
    rewrite ones32_low, pat_encoding_low by lia.
    rewrite andb_true_r, orb_false_r. reflexivity.
  - rewrite edx_eax_high by lia.
    destruct (Z.ltb_spec i 64) as [Hlo|Hhi'].
    + rewrite u32_testbit, Z.shiftr_spec by lia.
      replace (i - 32 + 32) with i by lia.
      rewrite Z.lor_spec, Z.land_spec, ones32_high by lia.
      rewrite andb_false_r, u64_testbit, Z.shiftl_spec by lia. reflexivity.
    + rewrite u32_testbit_high by lia.
      symmetry. apply (Z.bits_above_log2 0x0105); [lia|].
      change (Z.log2 0x0105) with 8. lia.
Qed.

(** C4.  The page-attribute-table step of [cpu_init] (cpu.c:150-154)
    leaves the low 32 bits of MSR 0x277 exactly as they were and makes its
    high 32 bits the write-protect / write-combining encoding 0x00000105;
    no other step of [cpu_init] writes the register, so the same holds
    between entry to and return from [cpu_init]. *)
Theorem cpu_init_pat_low_kept_high_fixed s :
  (Z.land (msr (exec cpu_init_pat s) 0x277) 0xFFFFFFFF
   = Z.land (msr s 0x277) 0xFFFFFFFF
   /\ Z.shiftr (msr (exec cpu_init_pat s) 0x277) 32 = 0x00000105)
  /\ (Z.land (msr (exec cpu_init' s) 0x277) 0xFFFFFFFF
      = Z.land (msr s 0x277) 0xFFFFFFFF
      /\ Z.shiftr (msr (exec cpu_init' s) 0x277) 32 = 0x00000105).
Proof.
  assert (Hstep : forall t,
    Z.land (msr (exec cpu_init_pat t) 0x277) 0xFFFFFFFF
    = Z.land (msr t 0x277) 0xFFFFFFFF
    /\ Z.shiftr (msr (exec cpu_init_pat t) 0x277) 32 = 0x00000105).
  { intros t. split; apply Z.bits_inj'; intros i Hi.
    - rewrite !Z.land_spec, cpu_init_pat_bits by lia.
      destruct (Z.ltb_spec i 32); [reflexivity|].
      rewrite ones32_high by lia. rewrite !andb_false_r. reflexivity.
    - rewrite Z.shiftr_spec, cpu_init_pat_bits by lia.
      destruct (Z.ltb_spec (i + 32) 32); [lia|].
      replace (i + 32 - 32) with i by lia. reflexivity. }
  split; [apply Hstep|].
  pose proof (cpu_init_blocks s) as Hb. cbv zeta in Hb. rewrite Hb.
  set (s4 := exec before_smap s).
  set (r1 := fst (before_smap s)).
  set (s5 := exec (cpu_init_smap' r1) s4).
  destruct (after_smap_step (fst (cpu_init_smap' r1 s4)) s5) as (_ & _ & _ & Hpat).
  rewrite Hpat.
  destruct (Hstep s5) as [Hl Hh]. rewrite Hl, Hh.
  destruct (cpu_init_smap_step r1 s4) as [_ Hm5].
  destruct (before_smap_step s) as [_ [Hm4 _]].
  fold s5 in Hm5. fold s4 in Hm4. rewrite Hm5, Hm4. auto.
Qed.

(** *** Control register CR4 *)

Lemma u64_testbit_true x i : Z.testbit (u64 x) i = true -> Z.testbit x i = true.
Proof.
  intros H. destruct (Z.ltb_spec i 0) as [Hn|Hp].
  { rewrite Z.testbit_neg_r in H by lia. discriminate. }
  destruct (Z.ltb_spec i 64).
  - rewrite u64_testbit in H by lia. exact H.
  - rewrite u64_testbit_high in H by lia. discriminate.
Qed.

Lemma u64_lor_u64 x m : 0 <= m < 2 ^ 64 -> u64 (Z.lor (u64 x) m) = Z.lor (u64 x) m.
Proof.
  intros Hm. rewrite <- (u64_small m Hm). apply Z.bits_inj'. intros i Hi.
  destruct (Z.ltb_spec i 64).
  - rewrite u64_testbit by lia. reflexivity.
  - rewrite Z.lor_spec, !u64_testbit_high by lia. reflexivity.
Qed.

(** C9.  Every write [cpu_init] makes to CR4 contains the bits CR4 held
    just before that write ([cr4_monotone]), so each value CR4 holds at
    any point of [cpu_init] - the one on entry and every one written - is
    contained, bit for bit, in the value CR4 has when [cpu_init] returns. *)
Theorem cpu_init_cr4_only_gains_bits s :
  exists evs,
    trace (exec cpu_init' s) = trace s ++ evs
    /\ cr4_monotone (u64 (cr s 4)) evs = true
    /\ Forall (fun v => forall i, Z.testbit v i = true ->
                        Z.testbit (cr (exec cpu_init' s) 4) i = true)
         (u64 (cr s 4) :: cr4_writes evs).
Proof.
  pose proof (cpu_init_blocks s) as Hb. cbv zeta in Hb.
  set (s4 := exec before_smap s) in *.
  set (r1 := fst (before_smap s)) in *.
  set (s5 := exec (cpu_init_smap' r1) s4) in *.
  set (r2 := fst (cpu_init_smap' r1 s4)) in *.
  assert (Hstep : cr4_step s (exec cpu_init' s)).
  { rewrite Hb.
    apply (cr4_step_trans _ s4); [apply before_smap_step|].
    apply (cr4_step_trans _ s5); [apply cpu_init_smap_step|].
    apply after_smap_step. }
  destruct Hstep as (evs & Ht & Hm & Ha).
  exists evs. repeat split; try assumption.
  pose proof (cr4_monotone_final _ _ Hm) as Hall. rewrite Ha in Hall.
  eapply Forall_impl; [exact Hall|].
  intros v Hv i Hi. cbn in Hv. apply u64_testbit_true.
  apply (proj1 (bits_le_spec _ _) Hv). exact Hi.
Qed.

(** C7, as the code has it.  Lines 112-120 update CR4 twice: a first
    read-modify-write ORs in bits 9 and 10 ([3 << 9]), a second one ORs in
    the time-stamp restriction bit 2; no other bit changes, so the
    global-page bit 7 is left as it was. *)
Theorem cpu_init_cr4_step2_two_writes s :
  let v := u64 (cr s 4) in
  let s' := exec (cpu_init_cr4_fxsr;; cpu_init_cr4_tsd) s in
  trace s' = trace s ++ [EvReadCr 4; EvWriteCr 4 (Z.lor v (Z.shiftl 3 9));
                         EvReadCr 4;
                         EvWriteCr 4 (Z.lor (Z.lor v (Z.shiftl 3 9)) (Z.shiftl 1 2))]
  /\ cr s' 4 = Z.lor (Z.lor v (Z.shiftl 3 9)) (Z.shiftl 1 2)
  /\ (forall i, Z.testbit (cr s' 4) i
                = Z.testbit v i || (i =? 9) || (i =? 10) || (i =? 2))
  /\ Z.testbit (cr s' 4) 7 = Z.testbit v 7.
Proof.
  intros v s'.
  assert (Hcr : cr s' 4 = Z.lor (Z.lor v (Z.shiftl 3 9)) (Z.shiftl 1 2)).
  { subst s' v. cbn. rewrite u64_idem.
    rewrite (u64_lor_u64 _ (Z.shiftl 3 9)) by (change (Z.shiftl 3 9) with 1536; lia).
    rewrite <- Z.lor_assoc.
    apply u64_lor_u64. change (Z.lor (Z.shiftl 3 9) (Z.shiftl 1 2)) with 1540. lia. }
  assert (Hbits : forall i, Z.testbit (cr s' 4) i
                = Z.testbit v i || (i =? 9) || (i =? 10) || (i =? 2)).
  { intros i. rewrite Hcr, !Z.lor_spec.
    destruct (Z.ltb_spec i 0) as [Hn|Hp].
    { rewrite !Z.testbit_neg_r by lia.
      destruct (Z.eqb_spec i 9), (Z.eqb_spec i 10), (Z.eqb_spec i 2);
        try lia; reflexivity. }
    change (Z.shiftl 3 9) with (Z.lor (2 ^ 9) (2 ^ 10)).
    change (Z.shiftl 1 2) with (2 ^ 2).
    rewrite Z.lor_spec, !Z.pow2_bits_eqb by lia.
    rewrite (Z.eqb_sym 9), (Z.eqb_sym 10), (Z.eqb_sym 2).
    rewrite !orb_assoc. reflexivity. }
  split; [|split; [exact Hcr|split; [exact Hbits|]]].
  - subst s' v. cbn. rewrite <- !app_assoc. cbn. rewrite u64_idem.
    rewrite (u64_lor_u64 _ (Z.shiftl 3 9)) by (change (Z.shiftl 3 9) with 1536; lia).
    rewrite <- (Z.lor_assoc _ (Z.shiftl 3 9) (Z.shiftl 1 2)).
    rewrite u64_lor_u64
      by (change (Z.lor (Z.shiftl 3 9) (Z.shiftl 1 2)) with 1540; lia).
    reflexivity.
  - rewrite Hbits. cbn. rewrite !orb_false_r. reflexivity.
Qed.

(** *** Supervisor-mode access prevention *)

Lemma cr4_step_bits s s' i :
  cr4_step s s' ->
  Z.testbit (u64 (cr s 4)) i = true -> Z.testbit (cr s' 4) i = true.
Proof.
  intros (evs & _ & Hm & Ha) Hi.
  pose proof (cr4_monotone_final _ _ Hm) as Hall. rewrite Ha in Hall.
  inversion Hall as [|? ? Hhd _]; subst.
  apply u64_testbit_true. apply (proj1 (bits_le_spec _ _) Hhd). exact Hi.
Qed.

Lemma cpu_init_smap_run abcd s :
  smap_seen = true ->
  let s' := exec (cpu_init_smap' abcd) s in
  trace s' = trace s ++
      [EvCpuid 0; EvCpuid 7; EvReadCr 4;
       EvWriteCr 4 (u64 (Z.lor (u64 (cr s 4)) (Z.shiftl 1 21))); EvClac]
  /\ Z.testbit (cr s' 4) 21 = true
  /\ rflags_ac s' = false.
Proof.
  unfold smap_seen, leaf_supported, max_leaf, seen, stale_ecx. intros H.
  apply andb_true_iff in H as [H1 H2]. apply negb_true_iff in H1.
  cpu_unfold. cbn -[Z.testbit]. rewrite H1. cbn -[Z.testbit].
  rewrite H2. cbn -[Z.testbit].
  rewrite <- !app_assoc. split; [reflexivity|split; [|reflexivity]].
  rewrite u64_testbit, Z.lor_spec by lia.
  change (Z.shiftl 1 21) with (2 ^ 21).
  rewrite Z.pow2_bits_true by lia. apply orb_true_r.
Qed.

(** cpu.c:132-139.  When the leaf-7 query of the SMAP block - run with
    the ECX that the leaf-0 query left - returns the SMAP bit, the block,
    from whatever state it is entered in, writes CR4 with bit 21 set and
    the very next event is [clac]; the access-allowed flag is false right
    after the block.  Within a whole [cpu_init] the trace contains that
    write immediately followed by [clac], and on return the flag is false
    and CR4 bit 21 is set. *)
Theorem cpu_init_smap_then_clac :
  smap_seen = true ->
  (forall abcd s,
      let s' := exec (cpu_init_smap' abcd) s in
      trace s' = trace s ++
          [EvCpuid 0; EvCpuid 7; EvReadCr 4;
           EvWriteCr 4 (u64 (Z.lor (u64 (cr s 4)) (Z.shiftl 1 21))); EvClac]
      /\ Z.testbit (cr s' 4) 21 = true
      /\ rflags_ac s' = false)
  /\ (forall s,
        (exists pre v post,
            trace (exec cpu_init' s) = pre ++ EvWriteCr 4 v :: EvClac :: post
            /\ Z.testbit v 21 = true)
        /\ rflags_ac (exec cpu_init' s) = false
        /\ Z.testbit (cr (exec cpu_init' s) 4) 21 = true).
Proof.
  intros Hsmap. split; [intros abcd s; apply cpu_init_smap_run, Hsmap|].
  intros s.
  pose proof (cpu_init_blocks s) as Hb. cbv zeta in Hb.
  set (s4 := exec before_smap s) in *.
  set (r1 := fst (before_smap s)) in *.
  set (s5 := exec (cpu_init_smap' r1) s4) in *.
  set (r2 := fst (cpu_init_smap' r1 s4)) in *.
  destruct (cpu_init_smap_run r1 s4 Hsmap) as (Ht5 & Hb5 & Hac5).
  fold s5 in Ht5, Hb5, Hac5.
  destruct (after_smap_step r2 s5) as (Hstep & Hac & _).
  rewrite Hb. split; [|split].
  - destruct Hstep as (post & Htr & _).
    exists (trace s4 ++ [EvCpuid 0; EvCpuid 7; EvReadCr 4]),
      (u64 (Z.lor (u64 (cr s4 4)) (Z.shiftl 1 21))), post.
    split.
    + rewrite Htr, Ht5, <- !app_assoc. reflexivity.
    + rewrite u64_testbit, Z.lor_spec by lia.
      change (Z.shiftl 1 21) with (2 ^ 21).
      rewrite Z.pow2_bits_true by lia. apply orb_true_r.
  - congruence.
  - apply (cr4_step_bits s5); [exact Hstep|].
    rewrite u64_testbit by lia. exact Hb5.
Qed.

(** *** The feature probe, and the locals [a], [b], [c], [d] *)

Lemma get_cpuid_eq leaf abcd s :
  Z.land leaf 0x80000000 = 0 ->
  __get_cpuid cpuid leaf abcd s
  = if leaf_supported leaf
    then ((true, query leaf), log_events [EvCpuid 0; EvCpuid leaf] s)
    else ((false, abcd), log_events [EvCpuid 0] s).
Proof.
  intros Hext. unfold __get_cpuid, __get_cpuid_max, __cpuid, bind, ret, emit.
  rewrite Hext. cbn -[Z.land]. unfold leaf_supported, max_leaf.
  destruct ((u32 (r_a (cpuid 0 0)) =? 0) || (u32 (r_a (cpuid 0 0)) <? leaf));
    cbn; unfold log_events; cbn; rewrite <- ?app_assoc; reflexivity.
Qed.

Lemma leaf_1_of_7 : leaf_supported 7 = true -> leaf_supported 1 = true.
Proof.
  unfold leaf_supported. rewrite !negb_true_iff, !orb_false_iff.
  rewrite !Z.ltb_ge. intros [H0 H7]. split; [exact H0|lia].
Qed.

Lemma no_leaf_7_without_1 : leaf_supported 1 = false -> leaf_supported 7 = false.
Proof.
  intros H1. destruct (leaf_supported 7) eqn:H7; [|reflexivity].
  rewrite (leaf_1_of_7 H7) in H1. discriminate.
Qed.

Lemma cpu_init_smep_locals abcd s :
  fst (cpu_init_smep' abcd s) = locals_after_leaf7 abcd.
Proof.
  unfold cpu_init_smep, locals_after_leaf7, bind.
  rewrite get_cpuid_eq by reflexivity.
  destruct (leaf_supported 7); cbn -[query]; [|reflexivity].
  destruct (nonzero _); reflexivity.
Qed.

Lemma cpu_init_smap_locals abcd s :
  fst (cpu_init_smap' abcd s) = locals_after_leaf7 abcd.
Proof.
  unfold cpu_init_smap, locals_after_leaf7, bind.
  rewrite get_cpuid_eq by reflexivity.
  destruct (leaf_supported 7); cbn -[query]; [|reflexivity].
  destruct (nonzero _); reflexivity.
Qed.

Lemma cpu_init_umip_locals abcd s :
  fst (cpu_init_umip' abcd s) = locals_after_leaf7 abcd.
Proof.
  unfold cpu_init_umip, locals_after_leaf7, bind.
  rewrite get_cpuid_eq by reflexivity.
  destruct (leaf_supported 7); cbn -[query]; [|reflexivity].
  destruct (nonzero _); reflexivity.
Qed.

(** [cpu_init] ends with the strategy selection, entered with the locals
    the leaf-7 blocks left. *)
Lemma cpu_init_ends_with_fpu s :
  exists s7, exec cpu_init' s = exec (cpu_init_fpu' (locals_after_leaf7 regs0)) s7.
Proof.
  pose proof (cpu_init_blocks s) as Hb. cbv zeta in Hb. rewrite Hb.
  unfold after_smap. rewrite !exec_bind.
  rewrite cpu_init_umip_locals, cpu_init_smap_locals.
  unfold before_smap. rewrite !fst_bind, cpu_init_smep_locals.
  eexists.
  replace (locals_after_leaf7 (locals_after_leaf7 (locals_after_leaf7 regs0)))
    with (locals_after_leaf7 regs0); [reflexivity|].
  unfold locals_after_leaf7. destruct (leaf_supported 7); reflexivity.
Qed.

(** *** Selection of the extended-state strategy *)

Lemma nonzero_mask x k :
  0 <= k < 32 -> nonzero (Z.land (u32 x) (Z.shiftl 1 k)) = Z.testbit x k.
Proof.
  intros Hk. unfold nonzero.
  rewrite land_bit_nonzero, negb_involutive, u32_testbit by lia. reflexivity.
Qed.

Lemma cpu_init_fpu_modern_state abcd s :
  xsave_present = true ->
  exists c4 pre,
    exec (cpu_init_fpu' abcd) s
    = mk_machine c4 (msr s) (upd (xcr s) 0 xcr0_value) (rflags_ac s)
        (u32 (r_c (seen size_source_leaf))) (Some xsave) (Some xrstor)
        (pre ++ [EvXsetbv 0 xcr0_value]).
Proof.
  unfold xsave_present, xcr0_value, avx_present, avx512f_seen,
    size_source_leaf.
  intros H. apply andb_true_iff in H as [H1 Hx]. rewrite H1.
  unfold cpu_init_fpu, cpu_init_xcr0, exec, bind.
  rewrite get_cpuid_eq by reflexivity. rewrite H1.
  cbn [fst snd query r_c r_b]. unfold bit_XSAVE, bit_AVX, bit_AVX512F.
  rewrite !nonzero_mask by lia. rewrite Hx.
  cbn [read_cr write_cr emit snd fst].
  rewrite get_cpuid_eq by reflexivity.
  destruct (leaf_supported 7) eqn:H7;
    cbn [fst snd query r_c r_b ret];
    rewrite ?nonzero_mask by lia;
    destruct (Z.testbit (r_c (seen 1)) 28);
    try destruct (Z.testbit (r_b (seen 7)) 16);
    cbn [wrxcr set_fpu emit fst snd log_events
      cr msr xcr rflags_ac cpu_fpu_storage_size cpu_fpu_save cpu_fpu_restore
      trace andb];
    do 2 eexists; reflexivity.
Qed.

Lemma cpu_init_fpu_modern abcd s :
  xsave_present = true ->
  let s' := exec (cpu_init_fpu' abcd) s in
  cpu_fpu_storage_size s' = u32 (r_c (seen size_source_leaf))
  /\ cpu_fpu_save s' = Some xsave
  /\ cpu_fpu_restore s' = Some xrstor
  /\ xcr s' 0 = xcr0_value
  /\ exists pre, trace s' = pre ++ [EvXsetbv 0 xcr0_value].
Proof.
  intros H s'. destruct (cpu_init_fpu_modern_state abcd s H) as (c4 & pre & Hs).
  subst s'. rewrite Hs. cbn [cpu_fpu_storage_size cpu_fpu_save cpu_fpu_restore xcr trace].
  rewrite upd_same. repeat split. exists pre. reflexivity.
Qed.

Lemma cpu_init_fpu_legacy abcd s :
  xsave_present = false ->
  (leaf_supported 1 = false -> r_c abcd = 0) ->
  let s' := exec (cpu_init_fpu' abcd) s in
  cpu_fpu_storage_size s' = 512
  /\ cpu_fpu_save s' = Some fxsave
  /\ cpu_fpu_restore s' = Some fxrstor
  /\ xcr s' = xcr s.
Proof.
  unfold xsave_present. intros H Habcd.
  unfold cpu_init_fpu, exec, bind.
  rewrite get_cpuid_eq by reflexivity.
  destruct (leaf_supported 1) eqn:H1; cbn [fst snd query r_c].
  - unfold bit_XSAVE. rewrite nonzero_mask by lia.
    rewrite ?H1 in H. cbn [andb] in H. rewrite H. cbn. auto.
  - rewrite Habcd by reflexivity. cbn. auto.
Qed.

(** The size [cpu_init] installs on the XSAVE path is the ECX word of its
    last feature query: leaf 7 when that leaf can be queried, leaf 1
    otherwise.  No sizing leaf is ever queried. *)
Lemma cpu_init_modern_size s :
  xsave_present = true ->
  cpu_fpu_storage_size (exec cpu_init' s) = u32 (r_c (seen size_source_leaf))
  /\ cpu_fpu_save (exec cpu_init' s) = Some xsave
  /\ cpu_fpu_restore (exec cpu_init' s) = Some xrstor.
Proof.
  intros H. destruct (cpu_init_ends_with_fpu s) as [s7 ->].
  destruct (cpu_init_fpu_modern (locals_after_leaf7 regs0) s7 H) as (A & B & C & _).
  auto.
Qed.

(** C2, as the code has it.  The branch at line 157 tests the XSAVE bit:
    for every capability set in which XSAVE is absent, [cpu_init] installs
    buffer size 512, [fxsave] as [cpu_fpu_save] and [fxrstor] as
    [cpu_fpu_restore]. *)
Theorem cpu_init_legacy_when_no_xsave s :
  xsave_present = false ->
  cpu_fpu_storage_size (exec cpu_init' s) = 512
  /\ cpu_fpu_save (exec cpu_init' s) = Some fxsave
  /\ cpu_fpu_restore (exec cpu_init' s) = Some fxrstor.
Proof.
  intros H. destruct (cpu_init_ends_with_fpu s) as [s7 ->].
  destruct (cpu_init_fpu_legacy (locals_after_leaf7 regs0) s7 H) as (A & B & C & _).
  - intros H1. unfold locals_after_leaf7.
    rewrite (no_leaf_7_without_1 H1). reflexivity.
  - auto.
Qed.

(** cpu.c:162-176.  When XSAVE is available the value written to XCR0
    always has components 0 (x87) and 1 (SSE), has component 2 (AVX)
    exactly when the AVX bit is present, and has the three components 5, 6
    and 7 (opmask, upper halves of ZMM0-15, ZMM16-31) exactly when the
    leaf-7 query - run with the ECX that the leaf-0 query left - returns
    the AVX-512 foundation bit; nothing else is enabled.  The write is the
    last privileged instruction of [cpu_init]. *)
Theorem cpu_init_xcr0_components s :
  xsave_present = true ->
  let x := xcr (exec cpu_init' s) 0 in
  x = xcr0_value
  /\ components x
     = [0; 1] ++ (if avx_present then [2] else [])
              ++ (if avx512f_seen then [5; 6; 7] else [])
  /\ exists pre, trace (exec cpu_init' s) = pre ++ [EvXsetbv 0 x].
Proof.
  intros H. destruct (cpu_init_ends_with_fpu s) as [s7 ->].
  destruct (cpu_init_fpu_modern (locals_after_leaf7 regs0) s7 H)
    as (_ & _ & _ & Hx & Ht).
  cbv zeta. rewrite Hx. split; [reflexivity|split; [|exact Ht]].
  unfold xcr0_value.
  destruct avx_present, avx512f_seen; vm_compute; reflexivity.
Qed.

End CpuInitFacts.

(** *** On concrete processors *)

(** C1, at a failing input.  On [cpu_avx_vaes] XSAVE is present and the
    processor reports 832 bytes in the sizing leaf, yet [cpu_init] installs
    the modern pair with size 512: the ECX word of its last feature query
    (leaf 7), which here also equals the legacy size. *)
Theorem cpu_init_size_is_feature_word :
  xsave_present cpu_avx_vaes = true
  /\ r_c (cpu_avx_vaes 13 0) = 832
  /\ cpu_fpu_storage_size (boot cpu_avx_vaes) = r_c (cpu_avx_vaes 7 0)
  /\ cpu_fpu_storage_size (boot cpu_avx_vaes) = 512
  /\ cpu_fpu_save (boot cpu_avx_vaes) = Some xsave
  /\ cpu_fpu_restore (boot cpu_avx_vaes) = Some xrstor.
Proof. vm_compute. repeat split. Qed.

(** C2, as stated, fails: on [cpu_xsave_only] neither the 256-bit nor the
    512-bit vector extension is present, yet the modern pair is installed
    and the size is not 512. *)
Lemma cpu_init_modern_without_wide_vectors :
  avx_present cpu_xsave_only = false
  /\ avx512f_reported cpu_xsave_only = false
  /\ ~ (cpu_fpu_storage_size (boot cpu_xsave_only) = 512
        /\ cpu_fpu_save (boot cpu_xsave_only) = Some fxsave
        /\ cpu_fpu_restore (boot cpu_xsave_only) = Some fxrstor).
Proof.
  split; [reflexivity|split; [reflexivity|]].
  intros (_ & H & _). vm_compute in H. discriminate.
Qed.

Lemma cpu_init_legacy_when_no_xsave_witness :
  xsave_present cpu_legacy = false
  /\ cpu_fpu_storage_size (boot cpu_legacy) = 512
  /\ cpu_fpu_save (boot cpu_legacy) = Some fxsave
  /\ cpu_fpu_restore (boot cpu_legacy) = Some fxrstor.
Proof.
  split; [reflexivity|].
  apply (cpu_init_legacy_when_no_xsave smep_mask smap_mask umip_mask
           cpu_legacy machine0).
  reflexivity.
Defined.

Lemma cpu_init_smap_then_clac_witness :
  smap_seen smap_mask cpu_avx512 = true
  /\ rflags_ac machine0 = true
  /\ rflags_ac (boot cpu_avx512) = false
  /\ Z.testbit (cr (boot cpu_avx512) 4) 21 = true.
Proof.
  split; [reflexivity|split; [reflexivity|]].
  apply (proj2 (cpu_init_smap_then_clac smep_mask smap_mask umip_mask
                  cpu_avx512 eq_refl) machine0).
Defined.

(** When the query does see AVX-512, the value written to XCR0 enables
    three components beyond x87, SSE and AVX, not two. *)
Lemma cpu_init_xcr0_avx512_three_components :
  avx512f_seen cpu_avx512 = true
  /\ components (xcr (boot cpu_avx512) 0) = [0; 1; 2; 5; 6; 7]
  /\ length (filter (fun i => 3 <= i) (components (xcr (boot cpu_avx512) 0)))
     <> 2%nat.
Proof.
  split; [reflexivity|split; [vm_compute; reflexivity|]].
  vm_compute. discriminate.
Qed.

Lemma cpu_init_xcr0_components_witness :
  xsave_present cpu_avx512 = true
  /\ xcr (boot cpu_avx512) 0 = 0xE7
  /\ components (xcr (boot cpu_avx512) 0) = [0; 1; 2; 5; 6; 7].
Proof.
  split; [reflexivity|].
  destruct (cpu_init_xcr0_components smep_mask smap_mask umip_mask
              cpu_avx512 machine0 eq_refl) as (Hx & Hc & _).
  split; [exact Hx | exact Hc].
Defined.

(** C5, at a failing input.  [cpu_avx512_intel] reports supervisor-mode
    access prevention (leaf 7, sub-leaf 0, EBX bit 20).  The leaf-7 query
    of [cpu_init] runs with ECX still holding the vendor word of leaf 0, a
    sub-leaf this processor answers with zeros, so the SMAP block sees no
    such bit: CR4 bit 21 is never set, no [clac] is executed, and the
    access-allowed flag a previous task left set is still set on
    return. *)
Theorem cpu_init_smap_reported_not_enabled :
  smap_reported smap_mask cpu_avx512_intel = true
  /\ stale_ecx cpu_avx512_intel = vendor_intel
  /\ smap_seen smap_mask cpu_avx512_intel = false
  /\ trace (boot cpu_avx512_intel)
     = [EvReadCr 0; EvWriteCr 0 2; EvReadCr 4; EvWriteCr 4 0x600;
        EvReadCr 4; EvWriteCr 4 0x604; EvCpuid 0; EvCpuid 7;
        EvCpuid 0; EvCpuid 7; EvCpuid 0; EvCpuid 7;
        EvRdmsr 0x277; EvWrmsr 0x277 0x10500000000; EvCpuid 0;
        EvCpuid 1; EvReadCr 4; EvWriteCr 4 0x40604;
        EvCpuid 0; EvCpuid 7; EvXsetbv 0 7]
  /\ ~ In EvClac (trace (boot cpu_avx512_intel))
  /\ Z.testbit (cr (boot cpu_avx512_intel) 4) 21 = false
  /\ rflags_ac machine0 = true
  /\ rflags_ac (boot cpu_avx512_intel) = true.
Proof.
  assert (Ht : trace (boot cpu_avx512_intel)
     = [EvReadCr 0; EvWriteCr 0 2; EvReadCr 4; EvWriteCr 4 0x600;
        EvReadCr 4; EvWriteCr 4 0x604; EvCpuid 0; EvCpuid 7;
        EvCpuid 0; EvCpuid 7; EvCpuid 0; EvCpuid 7;
        EvRdmsr 0x277; EvWrmsr 0x277 0x10500000000; EvCpuid 0;
        EvCpuid 1; EvReadCr 4; EvWriteCr 4 0x40604;
        EvCpuid 0; EvCpuid 7; EvXsetbv 0 7])
    by (vm_compute; reflexivity).
  split; [vm_compute; reflexivity|]. split; [vm_compute; reflexivity|].
  split; [vm_compute; reflexivity|]. split; [exact Ht|].
  split.
  - rewrite Ht. intros H. cbn [In] in H.
    repeat (destruct H as [H|H]; [discriminate H|]). exact H.
  - split; [vm_compute; reflexivity|].
    split; vm_compute; reflexivity.
Qed.

(** C6, at a failing input.  [cpu_avx512_intel] has XSAVE and AVX and
    reports the AVX-512 foundation (leaf 7, sub-leaf 0, EBX bit 16).  The
    leaf-7 query of line 169 runs with ECX still holding the vendor word
    of leaf 0 and is answered with zeros: the value written to XCR0 is 7,
    the x87, SSE and AVX components, with no AVX-512 component at all. *)
Theorem cpu_init_xcr0_avx512_reported_not_enabled :
  xsave_present cpu_avx512_intel = true
  /\ avx_present cpu_avx512_intel = true
  /\ avx512f_reported cpu_avx512_intel = true
  /\ stale_ecx cpu_avx512_intel = vendor_intel
  /\ avx512f_seen cpu_avx512_intel = false
  /\ xcr (boot cpu_avx512_intel) 0 = 7
  /\ components (xcr (boot cpu_avx512_intel) 0) = [0; 1; 2].
Proof.
  split; [vm_compute; reflexivity|]. split; [vm_compute; reflexivity|].
  split; [vm_compute; reflexivity|]. split; [vm_compute; reflexivity|].
  split; [vm_compute; reflexivity|].
  split; vm_compute; reflexivity.
Qed.

(** C7, as stated, fails: from CR4 = 0 the second step writes CR4 twice
    (0x600, then 0x604), neither value enabling the global-page bit 7,
    which is still clear afterwards. *)
Lemma cpu_init_cr4_step2_not_single_update :
  let s' := exec (cpu_init_cr4_fxsr;; cpu_init_cr4_tsd) machine0 in
  cr4_writes (trace s') = [0x600; 0x604]
  /\ ~ single_cr4_update [7; 9; 10; 2] (trace s')
  /\ Z.testbit (cr s' 4) 7 = false.
Proof.
  cbv zeta. split; [reflexivity|split; [|reflexivity]].
  intros (w & Hw & _). vm_compute in Hw. discriminate.
Qed.

(** *** What [cpu_init] changes, and what it leaves alone *)

(** EDX:EAX split and recomposed is the low 64 bits of the value. *)
Lemma edx_eax_u64 x : Z.lor (Z.shiftl (u32 (Z.shiftr x 32)) 32) (u32 x) = u64 x.
Proof.
  apply Z.bits_inj'. intros i Hi.
  destruct (Z.ltb_spec i 32) as [Hlo|Hhi].
  - rewrite edx_eax_low, u64_testbit by lia. reflexivity.
  - rewrite edx_eax_high by lia.
    destruct (Z.ltb_spec i 64) as [Hlo|Hhi'].
    + rewrite u32_testbit, Z.shiftr_spec, u64_testbit by lia.
      f_equal. lia.
    + rewrite u32_testbit_high, u64_testbit_high by lia. reflexivity.
Qed.

(** cpu.c:38-48.  [rdmsr] after [wrmsr] on the same register returns the
    low 64 bits of the value written, and [wrmsr] changes no other
    model-specific register. *)
Theorem wrmsr_then_rdmsr i value s :
  fst (rdmsr i (exec (wrmsr i value) s)) = u64 value
  /\ (forall j, j <> i -> msr (exec (wrmsr i value) s) j = msr s j)
  /\ msr (exec (rdmsr i) (exec (wrmsr i value) s))
     = msr (exec (wrmsr i value) s).
Proof.
  unfold rdmsr, wrmsr, exec, emit. cbn [fst snd msr].
  rewrite upd_same, !edx_eax_u64, u64_idem.
  split; [reflexivity|split; [|reflexivity]].
  intros j Hj. apply upd_other, Hj.
Qed.

Ltac in_u64 := split; [apply Z.leb_le | apply Z.ltb_lt]; reflexivity.

Lemma cr4_block_trans m1 m2 s1 s2 s3 :
  cr4_block m1 s1 s2 -> cr4_block m2 s2 s3 -> cr4_block (Z.lor m1 m2) s1 s3.
Proof.
  intros (Hc1 & Hv1 & Hr1 & Hx1 & e1 & Ht1 & He1)
         (Hc2 & Hv2 & Hr2 & Hx2 & e2 & Ht2 & He2).
  split; [|split; [|split; [|split]]].
  - intros n Hn. rewrite Hc2, Hc1 by exact Hn. reflexivity.
  - rewrite Hv2, Hv1, Z.lor_assoc. reflexivity.
  - destruct Hr2 as [->|Hr2]; [exact Hr1|right; exact Hr2].
  - intros i Hi. rewrite Hx2, Hx1 by exact Hi. reflexivity.
  - exists (e1 ++ e2). split.
    + rewrite Ht2, Ht1, app_assoc. reflexivity.
    + rewrite forallb_app, He1, He2. reflexivity.
Qed.

(** The shape of every CR4 update: read, OR a constant in, write back. *)
Lemma cr4_block_or m s :
  0 <= m < 2 ^ 64 ->
  cr4_block m s (exec (let* cr4 := read_cr 4 in write_cr 4 (Z.lor cr4 m)) s).
Proof.
  intros Hm. unfold cr4_block, exec, bind, read_cr, write_cr, emit.
  cbn [fst snd cr xcr trace].
  split; [|split; [|split; [|split]]].
  - intros n Hn. apply upd_other, Hn.
  - rewrite upd_same, u64_idem. apply u64_lor_u64, Hm.
  - right. rewrite upd_same, u64_idem. reflexivity.
  - reflexivity.
  - eexists. split; [rewrite <- app_assoc; reflexivity|reflexivity].
Qed.

(** Logging CPUID queries of leaves 0, 1 or 7 changes no register. *)
Lemma cr4_block_log evs s :
  forallb cpu_init_event evs = true -> cr4_block 0 s (log_events evs s).
Proof.
  intros He. unfold cr4_block, log_events. cbn [cr xcr trace].
  rewrite Z.lor_0_r. repeat split; auto. exists evs. auto.
Qed.

Lemma cr4_block_then m s s1 s2 :
  cr4_block m s s1 -> cr4_block 0 s1 s2 -> cr4_block m s s2.
Proof.
  intros H1 H2. rewrite <- (Z.lor_0_r m). eapply cr4_block_trans; eassumption.
Qed.

Lemma cr4_block_after m s s1 s2 :
  cr4_block 0 s s1 -> cr4_block m s1 s2 -> cr4_block m s s2.
Proof.
  intros H1 H2. rewrite <- (Z.lor_0_l m). eapply cr4_block_trans; eassumption.
Qed.

Lemma cr4_block_read_write m s :
  0 <= m < 2 ^ 64 ->
  cr4_block m s
    (exec (write_cr 4 (Z.lor (fst (read_cr 4 s)) m)) (exec (read_cr 4) s)).
Proof.
  intros Hm. pose proof (cr4_block_or m s Hm) as H.
  rewrite exec_bind in H. exact H.
Qed.

Lemma cr4_block_clac s : cr4_block 0 s (exec clac s).
Proof.
  unfold cr4_block, exec, clac, emit. cbn [snd cr xcr trace].
  rewrite Z.lor_0_r. repeat split; auto. eexists. split; reflexivity.
Qed.

Lemma cr4_block_xsetbv0 v s : cr4_block 0 s (exec (wrxcr 0 v) s).
Proof.
  unfold cr4_block, exec, wrxcr, emit. cbn [snd cr xcr trace].
  rewrite Z.lor_0_r. repeat split; auto.
  - intros i Hi. apply upd_other, Hi.
  - eexists. split; reflexivity.
Qed.

Lemma cr4_block_set_fpu a b c s : cr4_block 0 s (exec (set_fpu a b c) s).
Proof.
  unfold cr4_block, exec, set_fpu. cbn [snd cr xcr trace].
  rewrite Z.lor_0_r. repeat split; auto. exists []. rewrite app_nil_r. auto.
Qed.

Lemma cr4_block_pat s : cr4_block 0 s (exec cpu_init_pat s).
Proof.
  unfold cr4_block, exec, cpu_init_pat, bind, rdmsr, wrmsr, emit.
  cbn [fst snd cr xcr trace].
  rewrite Z.lor_0_r. repeat split; auto.
  eexists. split; [rewrite <- app_assoc; reflexivity|reflexivity].
Qed.

Lemma exec_ret {A} (x : A) s : exec (ret x) s = s.
Proof. reflexivity. Qed.

Lemma cr4_block_refl s : cr4_block 0 s s.
Proof.
  unfold cr4_block. rewrite Z.lor_0_r. repeat split; auto.
  exists []. rewrite app_nil_r. auto.
Qed.

Section CpuInitMore.

Variables CPUID_SMEP CPUID_SMAP CPUID_UMIP : Z.
Variable cpuid : Z -> Z -> cpuid_regs.

Abbreviation cpu_init' := (cpu_init CPUID_SMEP CPUID_SMAP CPUID_UMIP cpuid).
Abbreviation cpu_init_smep' := (cpu_init_smep CPUID_SMEP cpuid).
Abbreviation cpu_init_smap' := (cpu_init_smap CPUID_SMAP cpuid).
Abbreviation cpu_init_umip' := (cpu_init_umip CPUID_UMIP cpuid).
Abbreviation cpu_init_fpu' := (cpu_init_fpu cpuid).
Abbreviation leaf_supported := (Cpu.leaf_supported cpuid).
Abbreviation seen := (Cpu.seen cpuid).
Abbreviation smep_seen := (Cpu.smep_seen CPUID_SMEP cpuid).
Abbreviation smap_seen := (Cpu.smap_seen CPUID_SMAP cpuid).
Abbreviation umip_seen := (Cpu.umip_seen CPUID_UMIP cpuid).
Abbreviation xsave_present := (Cpu.xsave_present cpuid).
Abbreviation locals_after_leaf7 := (Cpu.locals_after_leaf7 cpuid).
Abbreviation xcr0_value := (Cpu.xcr0_value cpuid).
Abbreviation cr4_mask := (Cpu.cr4_mask CPUID_SMEP CPUID_SMAP CPUID_UMIP cpuid).

Lemma exec_get_cpuid leaf abcd s :
  Z.land leaf 0x80000000 = 0 ->
  exec (__get_cpuid cpuid leaf abcd) s
  = log_events (EvCpuid 0 :: if leaf_supported leaf then [EvCpuid leaf] else []) s.
Proof.
  intros H. unfold exec. rewrite get_cpuid_eq by exact H.
  destruct (Cpu.leaf_supported cpuid leaf); reflexivity.
Qed.

Lemma cr4_block_get_cpuid leaf abcd s :
  leaf = 1 \/ leaf = 7 ->
  cr4_block 0 s (exec (__get_cpuid cpuid leaf abcd) s).
Proof.
  intros [->| ->]; rewrite exec_get_cpuid by reflexivity;
    apply cr4_block_log; destruct (Cpu.leaf_supported cpuid _); reflexivity.
Qed.

Lemma fst_get_cpuid leaf abcd s :
  Z.land leaf 0x80000000 = 0 ->
  fst (__get_cpuid cpuid leaf abcd s)
  = (leaf_supported leaf, if leaf_supported leaf then query cpuid leaf else abcd).
Proof.
  intros H. rewrite get_cpuid_eq by exact H.
  destruct (Cpu.leaf_supported cpuid leaf); reflexivity.
Qed.

Lemma cpu_init_smep_block abcd s :
  cr4_block (if smep_seen then Z.shiftl 1 20 else 0) s
    (exec (cpu_init_smep' abcd) s).
Proof.
  unfold Cpu.smep_seen, cpu_init_smep. rewrite exec_bind.
  rewrite fst_get_cpuid by reflexivity. cbn [fst snd].
  eapply cr4_block_after; [apply (cr4_block_get_cpuid 7 abcd); auto|].
  destruct (Cpu.leaf_supported cpuid 7); cbn [andb query r_b];
    [|apply cr4_block_refl].
  destruct (nonzero _); [|apply cr4_block_refl].
  rewrite !exec_bind, exec_ret. apply cr4_block_read_write. in_u64.
Qed.

Lemma cpu_init_smap_block abcd s :
  cr4_block (if smap_seen then Z.shiftl 1 21 else 0) s
    (exec (cpu_init_smap' abcd) s).
Proof.
  unfold Cpu.smap_seen, cpu_init_smap. rewrite exec_bind.
  rewrite fst_get_cpuid by reflexivity. cbn [fst snd].
  eapply cr4_block_after; [apply (cr4_block_get_cpuid 7 abcd); auto|].
  destruct (Cpu.leaf_supported cpuid 7); cbn [andb query r_b];
    [|apply cr4_block_refl].
  destruct (nonzero _); [|apply cr4_block_refl].
  rewrite !exec_bind, exec_ret.
  eapply cr4_block_then; [apply cr4_block_read_write; in_u64|].
  apply cr4_block_clac.
Qed.

Lemma cpu_init_umip_block abcd s :
  cr4_block (if umip_seen then Z.shiftl 1 11 else 0) s
    (exec (cpu_init_umip' abcd) s).
Proof.
  unfold Cpu.umip_seen, cpu_init_umip. rewrite exec_bind.
  rewrite fst_get_cpuid by reflexivity. cbn [fst snd].
  eapply cr4_block_after; [apply (cr4_block_get_cpuid 7 abcd); auto|].
  destruct (Cpu.leaf_supported cpuid 7); cbn [andb query r_c];
    [|apply cr4_block_refl].
  destruct (nonzero _); [|apply cr4_block_refl].
  rewrite !exec_bind, exec_ret. apply cr4_block_read_write. in_u64.
Qed.

Lemma cpu_init_fpu_block abcd s :
  (leaf_supported 1 = false -> r_c abcd = 0) ->
  cr4_block (if xsave_present then Z.shiftl 1 18 else 0) s
    (exec (cpu_init_fpu' abcd) s).
Proof.
  intros Habcd. unfold Cpu.xsave_present, cpu_init_fpu. rewrite exec_bind.
  rewrite fst_get_cpuid by reflexivity. cbn [fst snd].
  eapply cr4_block_after; [apply (cr4_block_get_cpuid 1 abcd); auto|].
  assert (Hcond : nonzero (Z.land (r_c (if leaf_supported 1 then query cpuid 1 else abcd))
                             bit_XSAVE)
                  = leaf_supported 1 && Z.testbit (r_c (seen 1)) 26).
  { destruct (Cpu.leaf_supported cpuid 1) eqn:H1; cbn [andb query r_c].
    - unfold bit_XSAVE. apply nonzero_mask. lia.
    - rewrite Habcd by reflexivity. reflexivity. }
  rewrite Hcond.
  destruct (Cpu.leaf_supported cpuid 1 && Z.testbit (r_c (seen 1)) 26);
    [|apply cr4_block_set_fpu].
  rewrite !exec_bind.
  eapply cr4_block_then; [|apply cr4_block_set_fpu].
  eapply cr4_block_then; [|apply cr4_block_xsetbv0].
  eapply cr4_block_then; [apply cr4_block_read_write; in_u64|].
  unfold cpu_init_xcr0. rewrite exec_bind, exec_ret.
  apply cr4_block_get_cpuid. auto.
Qed.


(** Until the strategy selection no block touches an XCR, and the SMAP
    block is the only one to touch the AC flag. *)
Lemma blocks_keep_xcr abcd s :
  xcr (exec cpu_init_cr0 s) = xcr s
  /\ xcr (exec cpu_init_cr4_fxsr s) = xcr s
  /\ xcr (exec cpu_init_cr4_tsd s) = xcr s
  /\ xcr (exec (cpu_init_smep' abcd) s) = xcr s
  /\ xcr (exec (cpu_init_smap' abcd) s) = xcr s
  /\ xcr (exec (cpu_init_umip' abcd) s) = xcr s
  /\ xcr (exec cpu_init_pat s) = xcr s.
Proof.
  repeat split; cpu_unfold; cbn; cpu_cases; reflexivity.
Qed.

Lemma cpu_init_smap_ac abcd s :
  rflags_ac (exec (cpu_init_smap' abcd) s)
  = if smap_seen then false else rflags_ac s.
Proof.
  unfold Cpu.smap_seen, cpu_init_smap. rewrite exec_bind.
  rewrite fst_get_cpuid, exec_get_cpuid by reflexivity. cbn [fst snd].
  destruct (Cpu.leaf_supported cpuid 7); cbn [andb query r_b]; [|reflexivity].
  destruct (nonzero _); reflexivity.
Qed.

Lemma cpu_init_cr0_effect s :
  cr (exec cpu_init_cr0 s) 0
  = u64 (Z.lor (Z.land (u64 (cr s 0)) (u64 (Z.lnot (Z.shiftl 1 2))))
               (Z.shiftl 1 1))
  /\ (forall n, n <> 0 -> cr (exec cpu_init_cr0 s) n = cr s n)
  /\ trace (exec cpu_init_cr0 s)
     = trace s ++ [EvReadCr 0;
                   EvWriteCr 0 (cr (exec cpu_init_cr0 s) 0)].
Proof.
  unfold cpu_init_cr0, exec, bind, read_cr, write_cr, emit.
  cbn [fst snd cr trace]. rewrite upd_same.
  split; [reflexivity|split].
  - intros n Hn. apply upd_other, Hn.
  - rewrite <- app_assoc. reflexivity.
Qed.

Lemma cr4_block_in_range m s s' :
  cr4_block m s s' -> cr s 4 = u64 (cr s 4) -> cr s' 4 = u64 (cr s' 4).
Proof.
  intros (_ & _ & [Hsame|Hr] & _) H; [|exact Hr].
  rewrite Hsame. exact H.
Qed.

(** The machine after each block of [cpu_init], from the first CR4 update
    on. *)
Lemma cpu_init_chain s :
  exists s2 s7,
    s2 = exec cpu_init_cr4_fxsr (exec cpu_init_cr0 s)
    /\ cr4_block
         (Z.lor (Z.lor (Z.lor (Z.shiftl 1 2)
                              (if smep_seen then Z.shiftl 1 20 else 0))
                       (if smap_seen then Z.shiftl 1 21 else 0))
                (if umip_seen then Z.shiftl 1 11 else 0)) s2 s7
    /\ xcr s7 = xcr s
    /\ rflags_ac s7 = (if smap_seen then false else rflags_ac s)
    /\ exec cpu_init' s = exec (cpu_init_fpu' (locals_after_leaf7 regs0)) s7.
Proof.
  unfold cpu_init. cbv zeta. rewrite !exec_bind.
  set (s1 := exec cpu_init_cr0 s).
  set (s2 := exec cpu_init_cr4_fxsr s1).
  set (s3 := exec cpu_init_cr4_tsd s2).
  set (r1 := fst (cpu_init_smep' (mk_regs 0 0 0 0) s3)).
  set (s4 := exec (cpu_init_smep' (mk_regs 0 0 0 0)) s3).
  set (r2 := fst (cpu_init_smap' r1 s4)).
  set (s5 := exec (cpu_init_smap' r1) s4).
  set (r3 := fst (cpu_init_umip' r2 s5)).
  set (s6 := exec (cpu_init_umip' r2) s5).
  set (s7 := exec cpu_init_pat s6).
  exists s2, s7. split; [reflexivity|split; [|split; [|split]]].
  - eapply cr4_block_then; [|apply cr4_block_pat].
    eapply cr4_block_trans; [|apply cpu_init_umip_block].
    eapply cr4_block_trans; [|apply cpu_init_smap_block].
    eapply cr4_block_trans; [|apply cpu_init_smep_block].
    apply (cr4_block_or (Z.shiftl 1 2)). in_u64.
  - destruct (blocks_keep_xcr regs0 s) as (X1 & _).
    destruct (blocks_keep_xcr regs0 s1) as (_ & X2 & _).
    destruct (blocks_keep_xcr regs0 s2) as (_ & _ & X3 & _).
    destruct (blocks_keep_xcr (mk_regs 0 0 0 0) s3) as (_ & _ & _ & X4 & _).
    destruct (blocks_keep_xcr r1 s4) as (_ & _ & _ & _ & X5 & _).
    destruct (blocks_keep_xcr r2 s5) as (_ & _ & _ & _ & _ & X6 & _).
    destruct (blocks_keep_xcr r2 s6) as (_ & _ & _ & _ & _ & _ & X7).
    subst s7. rewrite X7. subst s6. rewrite X6. subst s5. rewrite X5.
    subst s4. rewrite X4. subst s3. rewrite X3. subst s2. rewrite X2.
    exact X1.
  - destruct (cpu_init_pat_step s6) as [_ A7].
    destruct (cpu_init_umip_step CPUID_UMIP cpuid r2 s5) as [_ [_ A6]].
    destruct (cpu_init_smep_step CPUID_SMEP cpuid (mk_regs 0 0 0 0) s3) as [_ [_ A4]].
    destruct (cpu_init_cr4_tsd_step s2) as [_ [_ A3]].
    destruct (cpu_init_cr4_fxsr_step s1) as [_ [_ A2]].
    destruct (cpu_init_cr0_step s) as [_ [_ A1]].
    pose proof (cpu_init_smap_ac r1 s4) as A5.
    fold s1 in A1. fold s2 in A2. fold s3 in A3. fold s4 in A4.
    fold s5 in A5. fold s6 in A6. fold s7 in A7.
    rewrite A7, A6, A5. destruct (Cpu.smap_seen CPUID_SMAP cpuid);
      [reflexivity|]. congruence.
  - f_equal. subst r3 r2 r1.
    rewrite cpu_init_umip_locals, cpu_init_smap_locals, cpu_init_smep_locals.
    unfold Cpu.locals_after_leaf7. destruct (Cpu.leaf_supported cpuid 7);
      reflexivity.
Qed.


Lemma locals_for_fpu :
  leaf_supported 1 = false -> r_c (locals_after_leaf7 regs0) = 0.
Proof.
  intros H1. unfold Cpu.locals_after_leaf7.
  rewrite (no_leaf_7_without_1 cpuid H1). reflexivity.
Qed.

(** The whole of [cpu_init] after the CR0 block, as one CR4 block. *)
Lemma cpu_init_after_cr0 s :
  let s2 := exec cpu_init_cr4_fxsr (exec cpu_init_cr0 s) in
  cr4_block
    (Z.lor (Z.lor (Z.lor (Z.lor (Z.shiftl 1 2)
                                (if smep_seen then Z.shiftl 1 20 else 0))
                         (if smap_seen then Z.shiftl 1 21 else 0))
                  (if umip_seen then Z.shiftl 1 11 else 0))
           (if xsave_present then Z.shiftl 1 18 else 0))
    s2 (exec cpu_init' s).
Proof.
  destruct (cpu_init_chain s) as (s2 & s7 & -> & Hb & _ & _ & ->).
  eapply cr4_block_trans; [exact Hb|].
  apply cpu_init_fpu_block, locals_for_fpu.
Qed.

(** cpu.c:112-160.  On return from [cpu_init] CR4 holds the value it had
    on entry with these bits ORed in, and no others: 9, 10 and 2 always;
    20, 21 and 11 when the leaf-7 queries - run with the ECX that the
    leaf-0 query left - return the SMEP, SMAP and UMIP bits; 18 when
    leaf 1 has the XSAVE bit. *)
Theorem cpu_init_cr4_value s :
  cr (exec cpu_init' s) 4 = Z.lor (u64 (cr s 4)) cr4_mask.
Proof.
  pose proof (cpu_init_after_cr0 s) as Hb. cbv zeta in Hb.
  set (s1 := exec cpu_init_cr0 s) in *.
  set (s2 := exec cpu_init_cr4_fxsr s1) in *.
  assert (Hs1 : cr s1 4 = cr s 4).
  { apply (proj1 (proj2 (cpu_init_cr0_effect s))). lia. }
  assert (Hs2 : cr s2 4 = Z.lor (u64 (cr s 4)) (Z.shiftl 3 9)).
  { subst s2. unfold cpu_init_cr4_fxsr, exec, bind, read_cr, write_cr, emit.
    cbn [fst snd cr]. rewrite upd_same, Hs1. apply u64_lor_u64. in_u64. }
  assert (Hr2 : cr s2 4 = u64 (cr s2 4)).
  { rewrite Hs2. symmetry. apply u64_lor_u64. in_u64. }
  rewrite (cr4_block_in_range _ _ _ Hb Hr2).
  destruct Hb as (_ & Hv & _). rewrite Hv, <- Hr2, Hs2.
  unfold Cpu.cr4_mask. rewrite !Z.lor_assoc. reflexivity.
Qed.

(** cpu.c:106-110.  On return from [cpu_init] CR0 has bit 1 set and bit 2
    clear, and every other bit as it was on entry. *)
Theorem cpu_init_cr0_bits s i :
  Z.testbit (cr (exec cpu_init' s) 0) i
  = if i =? 1 then true
    else if i =? 2 then false
    else Z.testbit (u64 (cr s 0)) i.
Proof.
  destruct (cpu_init_after_cr0 s) as (Hc & _).
  rewrite Hc by lia.
  assert (Hf : cr (exec cpu_init_cr4_fxsr (exec cpu_init_cr0 s)) 0
               = cr (exec cpu_init_cr0 s) 0).
  { unfold cpu_init_cr4_fxsr, exec at 1, bind, read_cr, write_cr, emit.
    cbn [fst snd cr]. apply upd_other. lia. }
  rewrite Hf, (proj1 (cpu_init_cr0_effect s)).
  destruct (Z.ltb_spec i 0) as [Hn|Hp].
  { rewrite !Z.testbit_neg_r by lia.
    destruct (Z.eqb_spec i 1), (Z.eqb_spec i 2); try lia; reflexivity. }
  destruct (Z.ltb_spec i 64) as [Hlo|Hhi].
  - rewrite u64_testbit, Z.lor_spec, Z.land_spec by lia.
    rewrite (u64_testbit (Z.lnot _)), Z.lnot_spec by lia.
    change (Z.shiftl 1 2) with (2 ^ 2). change (Z.shiftl 1 1) with (2 ^ 1).
    rewrite !Z.pow2_bits_eqb by lia.
    rewrite (Z.eqb_sym 1 i), (Z.eqb_sym 2 i).
    destruct (Z.eqb_spec i 1), (Z.eqb_spec i 2); try lia; cbn;
      rewrite ?andb_true_r, ?andb_false_r, ?orb_true_r, ?orb_false_r;
      reflexivity.
  - rewrite !u64_testbit_high by lia.
    destruct (Z.eqb_spec i 1), (Z.eqb_spec i 2); try lia; reflexivity.
Qed.


Lemma cpu_init_msr_frame s :
  (forall i, i <> 0x277 -> msr (exec cpu_init' s) i = msr s i)
  /\ (forall i, 0 <= i ->
        Z.testbit (msr (exec cpu_init' s) 0x277) i
        = if i <? 32 then Z.testbit (msr s 0x277) i
          else Z.testbit 0x0105 (i - 32)).
Proof.
  pose proof (cpu_init_blocks CPUID_SMEP CPUID_SMAP CPUID_UMIP cpuid s) as Hb.
  cbv zeta in Hb. rewrite Hb.
  set (s4 := exec (before_smap CPUID_SMEP cpuid) s) in *.
  set (r1 := fst (before_smap CPUID_SMEP cpuid s)) in *.
  set (s5 := exec (cpu_init_smap' r1) s4) in *.
  set (r2 := fst (cpu_init_smap' r1 s4)) in *.
  destruct (after_smap_step CPUID_UMIP cpuid r2 s5) as (_ & _ & Hother & Hpat).
  destruct (cpu_init_smap_step CPUID_SMAP cpuid r1 s4) as [_ Hm5].
  destruct (before_smap_step CPUID_SMEP cpuid s) as [_ [Hm4 _]].
  fold s5 in Hm5. fold s4 in Hm4.
  split.
  - intros i Hi. rewrite Hother by exact Hi. rewrite Hm5, Hm4. reflexivity.
  - intros i Hi. rewrite Hpat, cpu_init_pat_bits by exact Hi.
    rewrite Hm5, Hm4. reflexivity.
Qed.

(** cpu.c:104-187.  What [cpu_init] leaves alone: every control register
    other than CR0 and CR4, every MSR other than 0x277, every XCR other
    than XCR0; XCR0 itself unless leaf 1 has the XSAVE bit, and the AC
    flag unless the leaf-7 query of the SMAP block - run with the ECX that
    the leaf-0 query left - returns the SMAP bit. *)
Theorem cpu_init_leaves_alone s :
  (forall n, n <> 0 -> n <> 4 -> cr (exec cpu_init' s) n = cr s n)
  /\ (forall i, i <> 0x277 -> msr (exec cpu_init' s) i = msr s i)
  /\ (forall i, i <> 0 -> xcr (exec cpu_init' s) i = xcr s i)
  /\ xcr (exec cpu_init' s) 0
     = (if xsave_present then xcr0_value else xcr s 0)
  /\ rflags_ac (exec cpu_init' s)
     = (if smap_seen then false else rflags_ac s).
Proof.
  split; [|split; [apply cpu_init_msr_frame|]].
  - intros n H0 H4. destruct (cpu_init_after_cr0 s) as (Hc & _).
    rewrite Hc by exact H4.
    transitivity (cr (exec cpu_init_cr0 s) n).
    + unfold cpu_init_cr4_fxsr, exec at 1, bind, read_cr, write_cr, emit.
      cbn [fst snd cr]. apply upd_other, H4.
    + apply (proj1 (proj2 (cpu_init_cr0_effect s))), H0.
  - destruct (cpu_init_chain s) as (s2 & s7 & _ & _ & Hx & Hac & ->).
    pose proof (cpu_init_fpu_block (locals_after_leaf7 regs0) s7 locals_for_fpu)
      as (_ & _ & _ & Hxf & _).
    destruct (cpu_init_fpu_step cpuid (locals_after_leaf7 regs0) s7)
      as [_ [_ Hacf]].
    split; [|split].
    + intros i Hi. rewrite Hxf by exact Hi. rewrite Hx. reflexivity.
    + destruct (Cpu.xsave_present cpuid) eqn:Hxs.
      * apply (cpu_init_fpu_modern cpuid (locals_after_leaf7 regs0) s7 Hxs).
      * destruct (cpu_init_fpu_legacy cpuid (locals_after_leaf7 regs0) s7 Hxs
                    locals_for_fpu) as (_ & _ & _ & Hxl).
        rewrite Hxl, Hx. reflexivity.
    + rewrite Hacf. exact Hac.
Qed.

(** cpu.c:104-187.  The privileged instructions [cpu_init] executes are
    CPUID on leaves 0, 1 and 7, moves from and to CR0 and CR4, [rdmsr] and
    [wrmsr] on MSR 0x277, [xsetbv] on XCR0 and [clac], and nothing else;
    in particular the XSAVE sizing leaf 13 is never queried. *)
Theorem cpu_init_instructions s :
  exists evs,
    trace (exec cpu_init' s) = trace s ++ evs
    /\ forallb cpu_init_event evs = true
    /\ ~ In (EvCpuid 13) evs.
Proof.
  destruct (cpu_init_after_cr0 s) as (_ & _ & _ & _ & e2 & Ht2 & He2).
  pose proof (cr4_block_or (Z.shiftl 3 9) (exec cpu_init_cr0 s)) as Hf.
  destruct Hf as (_ & _ & _ & _ & e1 & Ht1 & He1); [in_u64|].
  destruct (cpu_init_cr0_effect s) as (_ & _ & Ht0).
  eexists. split; [|split].
  - rewrite Ht2. unfold cpu_init_cr4_fxsr. rewrite Ht1, Ht0.
    rewrite <- !app_assoc. reflexivity.
  - rewrite !forallb_app, He1, He2. reflexivity.
  - intros Hin.
    assert (Hall : forallb cpu_init_event
                     ([EvReadCr 0; EvWriteCr 0 (cr (exec cpu_init_cr0 s) 0)]
                      ++ e1 ++ e2) = true).
    { rewrite !forallb_app, He1, He2. reflexivity. }
    rewrite forallb_forall in Hall. specialize (Hall _ Hin). discriminate.
Qed.

End CpuInitMore.

End CpuFacts.

(** ** Multiprocessor bootstrap coordinator *)

Module SmpFacts.

Import Smp.

Section SmpInitFacts.

Variable heap : Type.
Variable alloc : Z -> heap -> Z * heap.
Variable cpu_start : Z.

Abbreviation smp_init_body := (Smp.smp_init_body alloc cpu_start).
Abbreviation smp_init_loop := (Smp.smp_init_loop alloc cpu_start).
Abbreviation smp_init := (Smp.smp_init alloc cpu_start).
Abbreviation stack_bases := (Smp.stack_bases alloc).
Abbreviation published := (Smp.published cpu_start).

Lemma smp_init_loop_spec todo : forall i st,
  let st' := smp_init_loop todo i st in
  let bases := stack_bases todo (st_heap st) in
  st_log st' = st_log st ++ map (EvAlloc 32768) bases
  /\ cpu_count (st_tag st') = cpu_count (st_tag st)
  /\ length (smp_info (st_tag st')) = length (smp_info (st_tag st))
  /\ (forall j, (j < i)%nat ->
        smp_info (st_tag st') !! j = smp_info (st_tag st) !! j)
  /\ (forall k base, bases !! k = Some base ->
        smp_info (st_tag st') !! (i + k)%nat
        = published base <$> smp_info (st_tag st) !! (i + k)%nat).
Proof.
  induction todo as [|todo IH]; intros i st; cbn zeta.
  - cbn. rewrite app_nil_r. repeat split; auto. intros k base Hk. discriminate.
  - cbn [smp_init_loop stack_bases].
    specialize (IH (S i) (smp_init_body i st)). cbn zeta in IH.
    unfold smp_init_body in *.
    destruct (alloc 32768 (st_heap st)) as [b h1]. cbn [st_heap st_tag st_log
      smp_info cpu_count] in *.
    destruct IH as (Hlog & Hcnt & Hlen & Hlow & Hhigh).
    split; [|split; [|split; [|split]]].
    + rewrite Hlog, <- app_assoc. reflexivity.
    + exact Hcnt.
    + rewrite Hlen, !length_alter. reflexivity.
    + intros j Hj. rewrite Hlow by lia.
      rewrite !list_lookup_alter_ne by lia. reflexivity.
    + intros [|k] base Hk; cbn in Hk.
      * inversion Hk; subst base. rewrite Nat.add_0_r.
        rewrite Hlow by lia. rewrite !list_lookup_alter_eq.
        destruct (smp_info (st_tag st) !! i); reflexivity.
      * replace (i + S k)%nat with (S i + k)%nat by lia.
        rewrite (Hhigh k base Hk).
        rewrite !list_lookup_alter_ne by lia. reflexivity.
Qed.

Lemma length_stack_bases n : forall h, length (stack_bases n h) = n.
Proof.
  induction n as [|n IH]; intros h; cbn; [reflexivity|].
  destruct (alloc 32768 h) as [b h']. cbn. rewrite IH. reflexivity.
Qed.

(** What [smp_init] does for a hand-off list of [N] cores: exactly [N]
    allocations, each of 32768 bytes; core [i] keeps its identifiers, gets
    [cpu_start] as entry address, and gets as entry stack pointer the base
    of the [i]-th allocation plus [sizeof_stack], that is plus 8. *)
Lemma smp_init_spec h smp_tag :
  cpu_count smp_tag = Z.of_nat (length (smp_info smp_tag)) ->
  let st' := smp_init h smp_tag in
  let bases := stack_bases (length (smp_info smp_tag)) h in
  st_log st' = [EvPrintCount (cpu_count smp_tag);
                EvPrintOnline (match smp_info smp_tag !! 0%nat with
                               | Some c => lapic_id c
                               | None => 0
                               end)]
               ++ map (EvAlloc 32768) bases ++ [EvUsleep 50000]
  /\ length bases = length (smp_info smp_tag)
  /\ smp_info (st_tag st') = zip_with published bases (smp_info smp_tag).
Proof.
  intros Hcnt. cbn zeta. unfold smp_init. rewrite Hcnt, Nat2Z.id.
  set (st0 := mk_state h smp_tag _).
  destruct (smp_init_loop_spec (length (smp_info smp_tag)) 0%nat st0)
    as (Hlog & _ & Hlen & _ & Hhigh).
  cbn [st_heap st_tag st_log] in *.
  split; [|split].
  - rewrite Hlog. subst st0. cbn [st_log]. rewrite <- !app_assoc. reflexivity.
  - apply length_stack_bases.
  - apply list_eq. intros k. rewrite lookup_zip_with.
    destruct (stack_bases (length (smp_info smp_tag)) h !! k) as [base|] eqn:Hk.
    + pose proof (Hhigh k base Hk) as Hp.
      change (0 + k)%nat with k in Hp. rewrite Hp. subst st0. cbn.
      destruct (smp_info smp_tag !! k); reflexivity.
    + cbn. apply lookup_ge_None. rewrite Hlen.
      apply lookup_ge_None in Hk. rewrite length_stack_bases in Hk. exact Hk.
Qed.

End SmpInitFacts.

Lemma smp_init_spec_witness :
  st_log (smp_init bump cpu_start_address 0x100000 two_cores)
  = [EvPrintCount (cpu_count two_cores);
     EvPrintOnline (match smp_info two_cores !! 0%nat with
                    | Some c => lapic_id c
                    | None => 0
                    end)]
    ++ map (EvAlloc 32768)
         (stack_bases bump (length (smp_info two_cores)) 0x100000)
    ++ [EvUsleep 50000]
  /\ length (stack_bases bump (length (smp_info two_cores)) 0x100000)
     = length (smp_info two_cores)
  /\ smp_info (st_tag (smp_init bump cpu_start_address 0x100000 two_cores))
     = zip_with (published cpu_start_address)
         (stack_bases bump (length (smp_info two_cores)) 0x100000)
         (smp_info two_cores).
Proof.
  apply (smp_init_spec Z bump cpu_start_address 0x100000 two_cores).
  reflexivity.
Defined.

(** C3, at a failing input.  For two cores and stacks allocated at
    0x100000 and 0x108000, [smp_init] makes exactly two allocations of
    32768 bytes and publishes [cpu_start] as entry address, but the entry
    stack pointers are 0x100008 and 0x108008 - base plus [sizeof(stack)],
    the size of a pointer - and not base plus 32768. *)
Theorem smp_init_stack_top_is_base_plus_8 :
  let st := smp_init bump cpu_start_address 0x100000 two_cores in
  st_log st = [EvPrintCount 2; EvPrintOnline 0;
                 EvAlloc 32768 0x100000; EvAlloc 32768 0x108000;
                 EvUsleep 50000]
  /\ map goto_address (smp_info (st_tag st))
     = [cpu_start_address; cpu_start_address]
  /\ map target_stack (smp_info (st_tag st)) = [0x100008; 0x108008]
  /\ map target_stack (smp_info (st_tag st))
     <> [0x100000 + 32768; 0x108000 + 32768].
Proof.
  cbv zeta. split; [reflexivity|split; [reflexivity|split; [reflexivity|]]].
  vm_compute. discriminate.
Qed.

End SmpFacts.

(** ** The secondary-core trampoline *)

Module TrampolineFacts.

Import Trampoline.

Lemma exclusive_init n : exclusive (init n).
Proof.
  split.
  - intros _ i p Hp. apply lookup_replicate in Hp as [-> _]. reflexivity.
  - intros i j p q Hp _ Hin. apply lookup_replicate in Hp as [-> _]. discriminate.
Qed.

Lemma lookup_insert_cases (l : list pc) k x i p :
  <[k := x]> l !! i = Some p -> (i = k /\ p = x) \/ (i <> k /\ l !! i = Some p).
Proof.
  intros H. destruct (Nat.eq_dec i k) as [->|Hne].
  - left. split; [reflexivity|].
    destruct (Nat.lt_ge_cases k (length l)) as [Hlt|Hge].
    + rewrite list_lookup_insert_eq in H by exact Hlt. congruence.
    + rewrite list_insert_ge in H by exact Hge.
      apply lookup_lt_Some in H. lia.
  - right. split; [exact Hne|].
    rewrite list_lookup_insert_ne in H by congruence. exact H.
Qed.

Lemma exclusive_step k s : exclusive s -> exclusive (step k s).
Proof.
  intros [Hfree Huniq]. unfold step.
  destruct (cores s !! k) as [pk|] eqn:Hk; [|split; assumption].
  destruct (in_region pk) eqn:Hrk.
  - (* core k is inside: the lock is held, every other core is outside *)
    assert (Hlock : cpu_lock s = true).
    { destruct (cpu_lock s) eqn:Hl; [reflexivity|].
      rewrite (Hfree eq_refl k pk Hk) in Hrk. discriminate. }
    assert (Hothers : forall i p, i <> k -> cores s !! i = Some p ->
                                  in_region p = false).
    { intros i p Hne Hp. destruct (in_region p) eqn:Hrp; [|reflexivity].
      exfalso. apply Hne. exact (Huniq i k p pk Hp Hk Hrp Hrk). }
    destruct (cpu_start_step pk (cpu_lock s)) as [p' flag'] eqn:Hstep.
    split; cbn [cpu_lock cores].
    + intros Hflag i p Hp.
      apply lookup_insert_cases in Hp as [[-> ->]|[Hne Hp]];
        [|exact (Hothers i p Hne Hp)].
      destruct pk; try discriminate; cbn in Hstep;
        inversion Hstep; subst; try reflexivity; congruence.
    + intros i j p q Hp Hq Hrp Hrq.
      apply lookup_insert_cases in Hp as [[-> ->]|[Hni Hp]];
        apply lookup_insert_cases in Hq as [[-> ->]|[Hnj Hq]];
        try reflexivity.
      * rewrite (Hothers j q Hnj Hq) in Hrq. discriminate.
      * rewrite (Hothers i p Hni Hp) in Hrp. discriminate.
      * exact (Huniq i j p q Hp Hq Hrp Hrq).
  - (* core k is outside: spinning, entering, or halted *)
    destruct pk; try discriminate; cbn [cpu_start_step LOCK].
    + destruct (cpu_lock s) eqn:Hl; cbn [negb cpu_lock cores].
      * (* lock held: the attempt fails and nothing changes *)
        split; cbn [cpu_lock cores].
        -- intros Hflag. discriminate.
        -- intros i j p q Hp Hq Hrp Hrq.
           apply lookup_insert_cases in Hp as [[-> ->]|[Hni Hp]];
             [discriminate|].
           apply lookup_insert_cases in Hq as [[-> ->]|[Hnj Hq]];
             [discriminate|].
           exact (Huniq i j p q Hp Hq Hrp Hrq).
      * (* lock free: nobody is inside, core k enters *)
        split; cbn [cpu_lock cores].
        -- intros Hflag. discriminate.
        -- intros i j p q Hp Hq Hrp Hrq.
           apply lookup_insert_cases in Hp as [[-> ->]|[Hni Hp]];
             apply lookup_insert_cases in Hq as [[-> ->]|[Hnj Hq]];
             try reflexivity.
           ++ rewrite (Hfree eq_refl j q Hq) in Hrq. discriminate.
           ++ rewrite (Hfree eq_refl i p Hp) in Hrp. discriminate.
           ++ exact (Huniq i j p q Hp Hq Hrp Hrq).
    + (* halted: stays halted *)
      split; cbn [cpu_lock cores].
      * intros Hflag i p Hp.
        apply lookup_insert_cases in Hp as [[-> ->]|[Hne Hp]];
          [reflexivity|exact (Hfree Hflag i p Hp)].
      * intros i j p q Hp Hq Hrp Hrq.
        apply lookup_insert_cases in Hp as [[-> ->]|[Hni Hp]];
          [discriminate|].
        apply lookup_insert_cases in Hq as [[-> ->]|[Hnj Hq]];
          [discriminate|].
        exact (Huniq i j p q Hp Hq Hrp Hrq).
Qed.

Lemma exclusive_run schedule : forall s, exclusive s -> exclusive (run schedule s).
Proof.
  induction schedule as [|k schedule IH]; intros s Hs; [exact Hs|].
  cbn. apply IH, exclusive_step, Hs.
Qed.

(** C8.  Whatever the number of cores and however their steps through
    [cpu_start] interleave, two cores that are both between LOCK and
    UNLOCK (reading the core record, in [cpu_init], in [lapic_init], in
    the announcement, or about to unlock) are the same core. *)
Theorem cpu_start_mutual_exclusion n schedule i j p q :
  cores (run schedule (init n)) !! i = Some p ->
  cores (run schedule (init n)) !! j = Some q ->
  in_region p = true ->
  in_region q = true ->
  i = j.
Proof.
  intros Hp Hq Hrp Hrq.
  destruct (exclusive_run schedule (init n) (exclusive_init n)) as [_ Huniq].
  exact (Huniq i j p q Hp Hq Hrp Hrq).
Qed.

(** Three cores; core 1 wins the lock and is in [cpu_init] while cores 0
    and 2 keep trying. *)
Lemma cpu_start_mutual_exclusion_witness :
  cores (run [1; 0; 1; 2; 0]%nat (init 3)) = [AtLock; AtCpuInit; AtLock]
  /\ 1%nat = 1%nat.
Proof.
  split; [reflexivity|].
  apply (cpu_start_mutual_exclusion 3 [1; 0; 1; 2; 0]%nat 1 1
           AtCpuInit AtCpuInit); reflexivity.
Defined.

(** *** Lock state, and progress *)

Lemma step_length k s : length (cores (step k s)) = length (cores s).
Proof.
  unfold step. destruct (cores s !! k); [|reflexivity].
  destruct (cpu_start_step _ _). cbn. apply length_insert.
Qed.

Lemma run_length schedule : forall s,
  length (cores (run schedule s)) = length (cores s).
Proof.
  induction schedule as [|k schedule IH]; intros s; [reflexivity|].
  cbn. rewrite IH. apply step_length.
Qed.

Lemma occupied_step k s : exclusive s -> occupied s -> occupied (step k s).
Proof.
  intros [Hfree Huniq] Hocc. unfold step.
  destruct (cores s !! k) as [pk|] eqn:Hk; [|exact Hocc].
  assert (Hlen : (k < length (cores s))%nat) by (eapply lookup_lt_Some; eauto).
  destruct (cpu_start_step pk (cpu_lock s)) as [p' flag'] eqn:Hstep.
  intros Hflag. cbn [cpu_lock cores] in *.
  destruct (in_region p') eqn:Hp'.
  - exists k, p'. split; [apply list_lookup_insert_eq, Hlen|exact Hp'].
  - (* core k is outside afterwards: it spun, stayed halted, or unlocked *)
    destruct pk; cbn in Hstep; inversion Hstep; subst p' flag';
      try discriminate.
    + (* AtLock *)
      destruct (cpu_lock s) eqn:Hl; [|discriminate].
      destruct (Hocc Hl) as (i & p & Hp & Hrp).
      exists i, p. split; [|exact Hrp].
      rewrite list_lookup_insert_ne; [exact Hp|].
      intros ->. rewrite Hk in Hp. inversion Hp; subst. discriminate.
    + (* Halted *)
      assert (Hheld : cpu_lock s = true) by congruence.
      destruct (Hocc Hheld) as (i & p & Hp & Hrp).
      exists i, p. split; [|exact Hrp].
      rewrite list_lookup_insert_ne; [exact Hp|].
      intros ->. rewrite Hk in Hp. inversion Hp; subst. discriminate.
Qed.

Lemma occupied_run schedule : forall s,
  exclusive s -> occupied s ->
  exclusive (run schedule s) /\ occupied (run schedule s).
Proof.
  induction schedule as [|k schedule IH]; intros s He Ho; [auto|].
  cbn. apply IH; [apply exclusive_step, He|apply occupied_step; assumption].
Qed.

Lemma occupied_init n : occupied (init n).
Proof. intros H. discriminate. Qed.

(** cpu.c:79-90.  In every state the trampoline can reach, the lock is
    held exactly when some core is between LOCK and UNLOCK. *)
Theorem cpu_lock_held_iff_region_occupied n schedule :
  cpu_lock (run schedule (init n)) = true
  <-> exists i p, cores (run schedule (init n)) !! i = Some p
                  /\ in_region p = true.
Proof.
  destruct (occupied_run schedule (init n) (exclusive_init n) (occupied_init n))
    as [[Hfree _] Hocc].
  split; [exact Hocc|].
  intros (i & p & Hp & Hrp).
  destruct (cpu_lock (run schedule (init n))) eqn:Hl; [reflexivity|].
  rewrite (Hfree eq_refl i p Hp) in Hrp. discriminate.
Qed.

Lemma work_insert (l : list pc) k p p' :
  l !! k = Some p ->
  (sum_list (map remaining (<[k := p']> l)) + remaining p
   = sum_list (map remaining l) + remaining p')%nat.
Proof.
  revert k. induction l as [|x l IH]; intros k Hk; [discriminate|].
  destruct k as [|k]; simpl in *.
  - inversion Hk; subst. lia.
  - specialize (IH k Hk). simpl in IH. lia.
Qed.

Lemma work_positive (l : list pc) :
  (0 < sum_list (map remaining l))%nat ->
  exists k p, l !! k = Some p /\ p <> Halted.
Proof.
  induction l as [|x l IH]; cbn; [lia|]. intros H.
  assert (Hdec : x = Halted \/ x <> Halted)
    by (destruct x; (left; reflexivity) || (right; discriminate)).
  destruct Hdec as [->|Hx].
  - destruct IH as (k & p & Hp & Hne); [cbn in H; lia|].
    exists (S k), p. auto.
  - exists 0%nat, x. auto.
Qed.

Lemma work_zero (l : list pc) :
  sum_list (map remaining l) = 0%nat -> l = replicate (length l) Halted.
Proof.
  induction l as [|x l IH]; cbn; [reflexivity|]. intros H.
  destruct x; cbn in H; try lia. rewrite <- IH by lia. reflexivity.
Qed.

(** Some core can always take a step that brings the system closer to
    the state where all cores have halted. *)
Lemma progress s :
  exclusive s -> occupied s -> (0 < work s)%nat ->
  exists k, (work (step k s) < work s)%nat.
Proof.
  intros [Hfree Huniq] Hocc Hwork. unfold work in *.
  destruct (cpu_lock s) eqn:Hl.
  - destruct (Hocc Hl) as (k & p & Hp & Hrp).
    exists k. unfold step. rewrite Hp.
    destruct (cpu_start_step p (cpu_lock s)) as [p' flag'] eqn:Hstep.
    cbn [cores]. pose proof (work_insert _ k p p' Hp) as Hw.
    destruct p; try discriminate; cbn in Hstep; inversion Hstep; subst;
      cbn in Hw; lia.
  - destruct (work_positive _ Hwork) as (k & p & Hp & Hne).
    pose proof (Hfree eq_refl k p Hp) as Hout.
    exists k. unfold step. rewrite Hp, Hl.
    destruct p; try discriminate; try congruence.
    cbn [cpu_start_step LOCK negb cores].
    pose proof (work_insert _ k AtLock AtReadInfo Hp) as Hw. cbn in Hw. lia.
Qed.

Lemma all_halt_from s :
  exclusive s -> occupied s ->
  exists schedule,
    run schedule s = mk_system false (replicate (length (cores s)) Halted).
Proof.
  remember (work s) as w eqn:Hw. revert s Hw.
  induction w as [w IH] using lt_wf_ind. intros s Hw He Ho.
  destruct (Nat.eq_dec w 0%nat) as [->|Hpos].
  - exists []. cbn. destruct s as [flag l]. cbn in *.
    unfold work in Hw. cbn in Hw. symmetry in Hw.
    rewrite <- (work_zero l Hw). f_equal.
    destruct flag; [|reflexivity].
    destruct (Ho eq_refl) as (i & p & Hp & Hrp). cbn in Hp.
    rewrite (work_zero l Hw) in Hp. apply lookup_replicate in Hp as [-> _].
    discriminate.
  - destruct (progress s He Ho) as [k Hk]; [lia|].
    destruct (IH (work (step k s)) ltac:(lia) (step k s) eq_refl
                (exclusive_step k s He) (occupied_step k s He Ho))
      as [schedule Hrun].
    exists (k :: schedule).
    change (run (k :: schedule) s) with (run schedule (step k s)).
    rewrite Hrun, step_length. reflexivity.
Qed.

(** cpu.c:79-90.  The trampoline cannot get stuck: from every state it
    can reach, some continuation of the interleaving brings every core to
    its halt loop with the lock released. *)
Theorem cpu_start_all_cores_can_halt n schedule :
  exists continuation,
    run (schedule ++ continuation) (init n)
    = mk_system false (replicate n Halted).
Proof.
  destruct (occupied_run schedule (init n) (exclusive_init n) (occupied_init n))
    as [He Ho].
  destruct (all_halt_from _ He Ho) as [continuation Hrun].
  exists continuation.
  assert (Happ : run (schedule ++ continuation) (init n)
                 = run continuation (run schedule (init n)))
    by (unfold run; apply fold_left_app).
  rewrite Happ, Hrun, run_length. cbn. rewrite length_replicate.
  reflexivity.
Qed.

End TrampolineFacts.

(** ** The device filesystem *)

Module DevtmpfsFacts.

Import Devtmpfs.

(** *** The growth loop *)

(** When the doubling can reach [need] below 2^64 it does, and stops at
    the first size that fits. *)
Lemma growth_loop_fits need : forall f size,
  0 < size < 2 ^ 64 ->
  need <= 2 ^ 63 ->
  need <= size * 2 ^ Z.of_nat f ->
  exists size',
    growth_loop (S f) need size = Some size'
    /\ need <= size' /\ size <= size' /\ size' < 2 ^ 64.
Proof.
  induction f as [|f IH]; intros size Hsize Hneed Hreach.
  - cbn [growth_loop]. change (2 ^ Z.of_nat 0) with 1 in Hreach.
    destruct (Z.gtb_spec need size); [lia|].
    exists size. repeat split; lia.
  - cbn [growth_loop] in *.
    destruct (Z.gtb_spec need size) as [Hgt|Hle].
    + rewrite u64_small by lia.
      destruct (IH (size * 2)) as (size' & Hrun & H1 & H2 & H3); try lia.
      { rewrite Nat2Z.inj_succ, Z.pow_succ_r in Hreach by lia. lia. }
      exists size'. repeat split; try assumption. lia.
    + exists size. repeat split; lia.
Qed.

Lemma growth_loop_stuck_at_0 need : forall fuel,
  0 < need -> growth_loop fuel need 0 = None.
Proof.
  induction fuel as [|fuel IH]; intros Hneed; [reflexivity|].
  cbn [growth_loop]. destruct (Z.gtb_spec need 0); [|lia].
  change (u64 (0 * 2)) with 0. apply IH, Hneed.
Qed.

(** A request above 2^63 on a power-of-two size never leaves the loop:
    the size doubles up to 2^63, wraps to 0, and stays 0. *)
Lemma growth_loop_spins need : forall fuel k,
  0 <= k <= 63 -> 2 ^ 63 < need -> growth_loop fuel need (2 ^ k) = None.
Proof.
  induction fuel as [|fuel IH]; intros k Hk Hneed; [reflexivity|].
  cbn [growth_loop].
  assert (Hpow : 2 ^ k <= 2 ^ 63) by (apply Z.pow_le_mono_r; lia).
  destruct (Z.gtb_spec need (2 ^ k)); [|lia].
  replace (2 ^ k * 2) with (2 ^ (k + 1)) by (rewrite Z.pow_add_r; lia).
  destruct (Z.eq_dec k 63) as [->|Hne].
  - change (u64 (2 ^ (63 + 1))) with 0. apply growth_loop_stuck_at_0. lia.
  - assert (2 ^ (k + 1) <= 2 ^ 63) by (apply Z.pow_le_mono_r; lia).
    assert (0 < 2 ^ (k + 1)) by (apply Z.pow_pos_nonneg; lia).
    rewrite u64_small by lia. apply IH; lia.
Qed.

Section WriteFacts.

Variable krealloc : list Byte.byte -> Z -> list Byte.byte.

(** C10, as the code has it.  For a resource whose block has the positive
    size [allocated_size], a non-negative offset and a request with
    [off + count <= 2^63] (so that neither the sum nor the doubling wraps
    around), and a [krealloc] that, when line 82 calls it, returns a block
    of the requested size (its result is stored unchecked), the growth
    loop completes within 64 iterations, afterwards
    [off + count <= allocated_size], the block has that size, and the copy
    of [count] bytes at offset [off] stays inside it: the call returns. *)
Theorem devtmpfs_write_fits_after_growth fuel this buf off count :
  (64 <= fuel)%nat ->
  0 < allocated_size this < 2 ^ 64 ->
  Z.of_nat (length (data this)) = allocated_size this ->
  0 <= off ->
  0 <= count ->
  off + count <= 2 ^ 63 ->
  count <= Z.of_nat (length buf) ->
  (forall size,
     krealloc_request fuel (allocated_size this) off count = Some size ->
     Z.of_nat (length (krealloc (data this) size)) = size) ->
  exists grown block,
    devtmpfs_grow krealloc fuel this off count = Some grown
    /\ off + count <= allocated_size grown < 2 ^ 64
    /\ Z.of_nat (length (data grown)) = allocated_size grown
    /\ copy_in_bounds off count (allocated_size grown) = true
    /\ devtmpfs_write krealloc fuel this buf off count
       = Returned (s64 count)
           (mk_tmpfs (s64 (u64 (st_size this) + count))
              (allocated_size grown) block)
    /\ Z.of_nat (length block) = allocated_size grown.
Proof.
  intros Hfuel Hsize Hlen Hoff Hcount Hsum Hbuf Hserves.
  assert (Hneed : off_plus_count off count = off + count).
  { unfold off_plus_count. rewrite (u64_small off) by lia.
    apply u64_small. lia. }
  assert (Hgrow : exists grown,
    devtmpfs_grow krealloc fuel this off count = Some grown
    /\ off + count <= allocated_size grown < 2 ^ 64
    /\ Z.of_nat (length (data grown)) = allocated_size grown
    /\ st_size grown = st_size this).
  { unfold devtmpfs_grow. unfold krealloc_request in Hserves.
    rewrite Hneed in *.
    destruct (Z.gtb_spec (off + count) (allocated_size this)) as [Hgt|Hle].
    - destruct fuel as [|f]; [lia|].
      destruct (growth_loop_fits (off + count) f (allocated_size this))
        as (size' & Hrun & H1 & H2 & H3); try lia.
      { assert (2 ^ 63 <= 2 ^ Z.of_nat f) by (apply Z.pow_le_mono_r; lia).
        nia. }
      rewrite Hrun. eexists. split; [reflexivity|]. cbn.
      repeat split; try lia.
      apply Hserves, Hrun.
    - exists this. repeat split; try lia. }
  destruct Hgrow as (grown & Hg & Hfit & Hglen & Hst).
  assert (Hin : copy_in_bounds off count (allocated_size grown) = true).
  { unfold copy_in_bounds. apply andb_true_iff.
    split; [apply Z.leb_le|apply Z.leb_le]; lia. }
  unfold devtmpfs_write. rewrite Hg. unfold memcpy_at.
  rewrite Hglen, Hin. cbn [andb].
  destruct (Z.leb_spec count (Z.of_nat (length buf))); [|lia].
  rewrite Hst. eexists grown, _. repeat split; try assumption; try lia.
  rewrite !length_app, !length_take, length_drop. lia.
Qed.

End WriteFacts.

(** C10, as stated, fails: a write of two bytes at offset -1 to a fresh
    resource passes the check of line 78 without growing anything
    ([off + count] wraps around to 1), and the copy then starts one byte
    before the block. *)
Lemma devtmpfs_write_negative_offset_escapes :
  0 < allocated_size fresh_resource
  /\ off_plus_count (-1) 2 = 1
  /\ devtmpfs_grow small_heap 64 fresh_resource (-1) 2
     = Some fresh_resource
  /\ copy_in_bounds (-1) 2 (allocated_size fresh_resource) = false
  /\ devtmpfs_write small_heap 64 fresh_resource
       [Byte.x01; Byte.x02] (-1) 2
     = OutOfBounds.
Proof. repeat split. Qed.

(** Outside the premises of [devtmpfs_write_fits_after_growth] lie also a
    sum that wraps around to a small value, and a request the doubling can
    never reach. *)
Lemma devtmpfs_write_wrapped_sum :
  off_plus_count 1 (2 ^ 64 - 1) = 0
  /\ devtmpfs_grow small_heap 64 fresh_resource 1 (2 ^ 64 - 1)
     = Some fresh_resource
  /\ copy_in_bounds 1 (2 ^ 64 - 1) (allocated_size fresh_resource) = false.
Proof. repeat split. Qed.

Lemma devtmpfs_write_never_returns fuel buf :
  devtmpfs_write small_heap fuel fresh_resource buf 0 (2 ^ 63 + 1)
  = Spinning.
Proof.
  unfold devtmpfs_write, devtmpfs_grow.
  change (off_plus_count 0 (2 ^ 63 + 1)) with (2 ^ 63 + 1).
  change (allocated_size fresh_resource) with (2 ^ 12).
  destruct (Z.gtb_spec (2 ^ 63 + 1) (2 ^ 12)); [|lia].
  rewrite growth_loop_spins by lia. reflexivity.
Qed.

(** Inside the arithmetic premises, but with an allocator that cannot
    serve the request: a write of one byte at offset 2^62 to a fresh
    resource doubles [allocated_size] up to 2^63, [krealloc] returns NULL,
    line 82 stores it, and the copy goes to NULL + 2^62. *)
Lemma devtmpfs_write_krealloc_null :
  krealloc_request 64 (allocated_size fresh_resource) (2 ^ 62) 1
  = Some (2 ^ 63)
  /\ small_heap (data fresh_resource) (2 ^ 63) = []
  /\ devtmpfs_grow small_heap 64 fresh_resource (2 ^ 62) 1
     = Some (mk_tmpfs 0 (2 ^ 63) [])
  /\ devtmpfs_write small_heap 64 fresh_resource [Byte.x01]
       (2 ^ 62) 1
     = OutOfBounds.
Proof. repeat split; vm_compute; reflexivity. Qed.

Lemma devtmpfs_write_fits_after_growth_witness :
  exists grown block,
    devtmpfs_grow small_heap 64 fresh_resource 4090 10 = Some grown
    /\ 4090 + 10 <= allocated_size grown < 2 ^ 64
    /\ Z.of_nat (length (data grown)) = allocated_size grown
    /\ copy_in_bounds 4090 10 (allocated_size grown) = true
    /\ devtmpfs_write small_heap 64 fresh_resource
         (replicate 10 Byte.x2a) 4090 10
       = Returned (s64 10)
           (mk_tmpfs (s64 (u64 (st_size fresh_resource) + 10))
              (allocated_size grown) block)
    /\ Z.of_nat (length block) = allocated_size grown.
Proof.
  apply (devtmpfs_write_fits_after_growth small_heap 64
           fresh_resource (replicate 10 Byte.x2a) 4090 10).
  - lia.
  - cbn. lia.
  - reflexivity.
  - lia.
  - lia.
  - lia.
  - cbn. lia.
  - intros size H. vm_compute in H. injection H as <-. reflexivity.
Defined.

(** *** How far a write grows the block, and what it stores *)

(** The doubling stops at the first size [size * 2^k] that holds [need]. *)
Lemma growth_loop_power need : forall f size,
  0 < size < 2 ^ 64 ->
  need <= 2 ^ 63 ->
  need <= size * 2 ^ Z.of_nat f ->
  exists k,
    0 <= k
    /\ growth_loop (S f) need size = Some (size * 2 ^ k)
    /\ need <= size * 2 ^ k < 2 ^ 64
    /\ (k = 0 \/ size * 2 ^ (k - 1) < need).
Proof.
  induction f as [|f IH]; intros size Hsize Hneed Hreach.
  - cbn [growth_loop]. change (2 ^ Z.of_nat 0) with 1 in Hreach.
    destruct (Z.gtb_spec need size); [lia|].
    exists 0. change (2 ^ 0) with 1. rewrite Z.mul_1_r.
    repeat split; lia.
  - cbn [growth_loop] in *.
    destruct (Z.gtb_spec need size) as [Hgt|Hle].
    + rewrite u64_small by lia.
      destruct (IH (size * 2)) as (k & Hk & Hrun & Hfit & Hmin); try lia.
      { rewrite Nat2Z.inj_succ, Z.pow_succ_r in Hreach by lia. lia. }
      exists (k + 1).
      assert (Hpow : size * 2 ^ (k + 1) = size * 2 * 2 ^ k).
      { rewrite Z.pow_add_r by lia. change (2 ^ 1) with 2. lia. }
      rewrite Hpow. replace (k + 1 - 1) with k by lia.
      split; [lia|]. split; [exact Hrun|]. split; [lia|]. right.
      destruct Hmin as [->|Hlt].
      * change (2 ^ 0) with 1. lia.
      * destruct (Z.eq_dec k 0) as [->|Hne]; [change (2 ^ 0) with 1; lia|].
        assert (Hk1 : 2 ^ k = 2 * 2 ^ (k - 1)).
        { rewrite <- Z.pow_succ_r by lia. f_equal. lia. }
        rewrite Hk1. lia.
    + exists 0. change (2 ^ 0) with 1. rewrite Z.mul_1_r.
      repeat split; lia.
Qed.

Section WriteMore.

Variable krealloc : list Byte.byte -> Z -> list Byte.byte.

(** Lines 78-83 under the premises that keep the arithmetic from wrapping
    and with a [krealloc] that returns a block of the requested size: the
    block is left alone when the request fits, and otherwise is the one
    [krealloc] returns for the first doubling that holds the request. *)
Lemma devtmpfs_grow_spec fuel this off count :
  (64 <= fuel)%nat ->
  0 < allocated_size this < 2 ^ 64 ->
  Z.of_nat (length (data this)) = allocated_size this ->
  0 <= off ->
  0 <= count ->
  off + count <= 2 ^ 63 ->
  (forall size,
     krealloc_request fuel (allocated_size this) off count = Some size ->
     Z.of_nat (length (krealloc (data this) size)) = size) ->
  exists k grown,
    0 <= k
    /\ (k = 0 \/ allocated_size this * 2 ^ (k - 1) < off + count)
    /\ off + count <= allocated_size this * 2 ^ k < 2 ^ 64
    /\ allocated_size this <= allocated_size this * 2 ^ k
    /\ Z.of_nat (length grown) = allocated_size this * 2 ^ k
    /\ (grown = data this
        \/ exists size,
             krealloc_request fuel (allocated_size this) off count
             = Some size
             /\ grown = krealloc (data this) size)
    /\ devtmpfs_grow krealloc fuel this off count
       = Some (mk_tmpfs (st_size this) (allocated_size this * 2 ^ k) grown).
Proof.
  intros Hfuel Hsize Hlen Hoff Hcount Hsum Hserves.
  assert (Hneed : off_plus_count off count = off + count).
  { unfold off_plus_count. rewrite (u64_small off) by lia.
    apply u64_small. lia. }
  unfold devtmpfs_grow. unfold krealloc_request in *.
  rewrite Hneed in *.
  destruct (Z.gtb_spec (off + count) (allocated_size this)) as [Hgt|Hle].
  - destruct fuel as [|f]; [lia|].
    destruct (growth_loop_power (off + count) f (allocated_size this))
      as (k & Hk & Hrun & Hfit & Hmin); try lia.
    { assert (2 ^ 63 <= 2 ^ Z.of_nat f) by (apply Z.pow_le_mono_r; lia).
      nia. }
    exists k, (krealloc (data this) (allocated_size this * 2 ^ k)).
    rewrite Hrun.
    split; [exact Hk|]. split; [exact Hmin|]. split; [exact Hfit|].
    split; [lia|]. split; [apply Hserves, Hrun|].
    split; [|reflexivity].
    right. eexists. split; reflexivity.
  - exists 0, (data this). change (2 ^ 0) with 1. rewrite Z.mul_1_r.
    split; [lia|]. split; [left; reflexivity|]. split; [lia|].
    split; [lia|]. split; [exact Hlen|]. split; [left; reflexivity|].
    destruct this; reflexivity.
Qed.

(** The whole call under the same premises, with the block it leaves
    written out. *)
Lemma devtmpfs_write_result fuel this buf off count :
  (64 <= fuel)%nat ->
  0 < allocated_size this < 2 ^ 64 ->
  Z.of_nat (length (data this)) = allocated_size this ->
  0 <= off ->
  0 <= count ->
  off + count <= 2 ^ 63 ->
  count <= Z.of_nat (length buf) ->
  (forall size,
     krealloc_request fuel (allocated_size this) off count = Some size ->
     Z.of_nat (length (krealloc (data this) size)) = size) ->
  exists k grown,
    0 <= k
    /\ (k = 0 \/ allocated_size this * 2 ^ (k - 1) < off + count)
    /\ off + count <= allocated_size this * 2 ^ k < 2 ^ 64
    /\ (grown = data this
        \/ exists size,
             krealloc_request fuel (allocated_size this) off count
             = Some size
             /\ grown = krealloc (data this) size)
    /\ Z.of_nat (length grown) = allocated_size this * 2 ^ k
    /\ devtmpfs_write krealloc fuel this buf off count
       = Returned (s64 count)
           (mk_tmpfs (s64 (u64 (st_size this) + count))
              (allocated_size this * 2 ^ k)
              (take (Z.to_nat off) grown
               ++ take (Z.to_nat count) buf
               ++ drop (Z.to_nat (off + count)) grown)).
Proof.
  intros Hfuel Hsize Hlen Hoff Hcount Hsum Hbuf Hserves.
  destruct (devtmpfs_grow_spec fuel this off count)
    as (k & grown & Hk & Hmin & Hfit & Hge & Hglen & Hgrown & Hg);
    try assumption.
  exists k, grown.
  split; [exact Hk|]. split; [exact Hmin|]. split; [exact Hfit|].
  split; [exact Hgrown|]. split; [exact Hglen|].
  unfold devtmpfs_write. rewrite Hg. cbn [data st_size allocated_size].
  unfold memcpy_at, copy_in_bounds. rewrite Hglen.
  destruct (Z.leb_spec 0 off); [|lia].
  destruct (Z.leb_spec (off + count) (allocated_size this * 2 ^ k)); [|lia].
  destruct (Z.leb_spec count (Z.of_nat (length buf))); [|lia].
  reflexivity.
Qed.

(** devtmpfs.c:78-83.  With a [krealloc] that, when line 82 calls it,
    returns a block of the requested size, a write leaves [allocated_size]
    multiplied by a power of two, the smallest one that holds
    [off + count]: the block never shrinks, and it is left alone exactly
    when the request already fits. *)
Theorem devtmpfs_write_grows_by_least_doubling fuel this buf off count :
  (64 <= fuel)%nat ->
  0 < allocated_size this < 2 ^ 64 ->
  Z.of_nat (length (data this)) = allocated_size this ->
  0 <= off ->
  0 <= count ->
  off + count <= 2 ^ 63 ->
  count <= Z.of_nat (length buf) ->
  (forall size,
     krealloc_request fuel (allocated_size this) off count = Some size ->
     Z.of_nat (length (krealloc (data this) size)) = size) ->
  exists k this',
    devtmpfs_write krealloc fuel this buf off count
    = Returned (s64 count) this'
    /\ 0 <= k
    /\ allocated_size this' = allocated_size this * 2 ^ k
    /\ Z.of_nat (length (data this')) = allocated_size this'
    /\ off + count <= allocated_size this'
    /\ (k = 0 <-> off + count <= allocated_size this)
    /\ (0 < k -> allocated_size this * 2 ^ (k - 1) < off + count).
Proof.
  intros Hfuel Hsize Hlen Hoff Hcount Hsum Hbuf Hserves.
  destruct (devtmpfs_write_result fuel this buf off count)
    as (k & grown & Hk & Hmin & Hfit & Hgrown & Hglen & Hw);
    try assumption.
  exists k. eexists. split; [exact Hw|].
  cbn [allocated_size data].
  split; [exact Hk|]. split; [reflexivity|].
  split.
  { rewrite !length_app, !length_take, length_drop. lia. }
  split; [lia|]. split.
  - split.
    + intros ->. change (2 ^ 0) with 1 in Hfit. lia.
    + intros Hle. destruct Hmin as [->|Hlt]; [reflexivity|].
      destruct (Z.eq_dec k 0) as [->|Hne]; [reflexivity|].
      assert (0 < 2 ^ (k - 1)) by (apply Z.pow_pos_nonneg; lia).
      nia.
  - intros Hpos. destruct Hmin as [->|Hlt]; [lia|exact Hlt].
Qed.

(** devtmpfs.c:85-87.  With a [krealloc] that, when line 82 calls it,
    returns a block of the requested size that starts with the contents
    of the old one, after a write the [count] bytes at [off] are the
    caller's, every other byte the block had is unchanged, and [st_size]
    has grown by [count] whatever the offset was. *)
Theorem devtmpfs_write_stores fuel this buf off count :
  (64 <= fuel)%nat ->
  0 < allocated_size this < 2 ^ 64 ->
  Z.of_nat (length (data this)) = allocated_size this ->
  0 <= off ->
  0 <= count ->
  off + count <= 2 ^ 63 ->
  count <= Z.of_nat (length buf) ->
  0 <= st_size this ->
  st_size this + count < 2 ^ 63 ->
  (forall size,
     krealloc_request fuel (allocated_size this) off count = Some size ->
     Z.of_nat (length (krealloc (data this) size)) = size
     /\ take (length (data this)) (krealloc (data this) size)
        = data this) ->
  exists this',
    devtmpfs_write krealloc fuel this buf off count = Returned count this'
    /\ st_size this' = st_size this + count
    /\ (forall i, (i < Z.to_nat count)%nat ->
          data this' !! (Z.to_nat off + i)%nat = buf !! i)
    /\ (forall j, (j < length (data this))%nat ->
          (j < Z.to_nat off)%nat \/ (Z.to_nat (off + count) <= j)%nat ->
          data this' !! j = data this !! j).
Proof.
  intros Hfuel Hsize Hlen Hoff Hcount Hsum Hbuf Hst Hst' Hserves.
  destruct (devtmpfs_write_result fuel this buf off count)
    as (k & grown & Hk & Hmin & Hfit & Hgrown & Hglen & Hw);
    try assumption.
  { intros size Hreq. apply Hserves, Hreq. }
  assert (Hkeep : forall j, (j < length (data this))%nat ->
                            grown !! j = data this !! j).
  { intros j Hj. destruct Hgrown as [->|(size & Hreq & ->)]; [reflexivity|].
    rewrite <- (proj2 (Hserves size Hreq)) at 2.
    symmetry. apply lookup_take_lt. exact Hj. }
  assert (Hs : s64 count = count).
  { unfold s64. rewrite Z.mod_small by lia. lia. }
  assert (Hs' : s64 (u64 (st_size this) + count) = st_size this + count).
  { rewrite u64_small by lia. unfold s64. rewrite Z.mod_small by lia. lia. }
  rewrite Hs, Hs' in Hw.
  eexists. split; [exact Hw|]. cbn [st_size data].
  split; [reflexivity|]. split.
  - intros i Hi.
    rewrite lookup_app_r by (rewrite length_take; lia).
    rewrite length_take.
    replace (Z.to_nat off + i - Z.to_nat off `min` length grown)%nat
      with i by lia.
    rewrite lookup_app_l by (rewrite length_take; lia).
    apply lookup_take_lt. exact Hi.
  - intros j Hj [Hlow|Hhigh].
    + rewrite lookup_app_l by (rewrite length_take; lia).
      rewrite lookup_take_lt by exact Hlow.
      apply Hkeep, Hj.
    + rewrite lookup_app_r by (rewrite length_take; lia).
      rewrite lookup_app_r by (rewrite !length_take; lia).
      rewrite lookup_drop, !length_take.
      replace (Z.to_nat (off + count)
               + (j - Z.to_nat off `min` length grown
                  - Z.to_nat count `min` length buf))%nat
        with j by lia.
      apply Hkeep, Hj.
Qed.

End WriteMore.

(** *** Reads, devtmpfs.c:60-71 *)

(** devtmpfs.c:65-70.  A read that starts inside the file returns the
    bytes from [off] on, at most [count] of them and none past [st_size],
    and leaves the rest of the caller's buffer alone. *)
Theorem devtmpfs_read_clips_at_size this buf off count :
  0 <= off <= st_size this ->
  st_size this <= Z.of_nat (length (data this)) ->
  Z.of_nat (length (data this)) < 2 ^ 63 ->
  0 <= count ->
  off + count < 2 ^ 64 ->
  Z.min count (st_size this - off) <= Z.of_nat (length buf) ->
  devtmpfs_read this buf off count
  = ReadReturned (Z.min count (st_size this - off))
      (take (Z.to_nat (Z.min count (st_size this - off)))
         (drop (Z.to_nat off) (data this))
       ++ drop (Z.to_nat (Z.min count (st_size this - off))) buf).
Proof.
  intros Hoff Hst Hlen Hcount Hsum Hbuf.
  assert (Hneed : off_plus_count off count = off + count).
  { unfold off_plus_count. rewrite (u64_small off) by lia.
    apply u64_small. lia. }
  assert (Hclip : clipped_count this off count
                  = Z.min count (st_size this - off)).
  { unfold clipped_count. rewrite Hneed, (u64_small (st_size this)) by lia.
    destruct (Z.gtb_spec (off + count) (st_size this)).
    - rewrite (u64_small (off + count - st_size this)) by lia.
      rewrite u64_small by lia. lia.
    - lia. }
  unfold devtmpfs_read. rewrite Hclip.
  unfold memcpy_from, copy_in_bounds.
  destruct (Z.leb_spec 0 off); [|lia].
  destruct (Z.leb_spec (off + Z.min count (st_size this - off))
              (Z.of_nat (length (data this)))); [|lia].
  destruct (Z.leb_spec (Z.min count (st_size this - off))
              (Z.of_nat (length buf))); [|lia].
  cbn [andb]. f_equal.
  unfold s64. rewrite Z.mod_small by lia. lia.
Qed.

(** devtmpfs.c:65-68.  A read that starts past the end of the file does
    not return zero bytes: the clipping subtracts more than [count], the
    count wraps around to [2^64 - (off - st_size)], and the copy leaves
    the block. *)
Theorem devtmpfs_read_past_end_overruns this buf off count :
  0 <= st_size this < off ->
  0 <= count ->
  off + count < 2 ^ 64 ->
  Z.of_nat (length (data this)) < 2 ^ 64 ->
  clipped_count this off count = 2 ^ 64 - (off - st_size this)
  /\ devtmpfs_read this buf off count = ReadOutOfBounds.
Proof.
  intros Hst Hcount Hsum Hlen.
  assert (Hneed : off_plus_count off count = off + count).
  { unfold off_plus_count. rewrite (u64_small off) by lia.
    apply u64_small. lia. }
  assert (Hclip : clipped_count this off count
                  = 2 ^ 64 - (off - st_size this)).
  { unfold clipped_count. rewrite Hneed, (u64_small (st_size this)) by lia.
    destruct (Z.gtb_spec (off + count) (st_size this)); [|lia].
    rewrite (u64_small (off + count - st_size this)) by lia.
    unfold u64.
    replace (count - (off + count - st_size this))
      with (2 ^ 64 - (off - st_size this) + (-1) * 2 ^ 64) by lia.
    rewrite Z.mod_add by lia. apply Z.mod_small. lia. }
  split; [exact Hclip|].
  unfold devtmpfs_read. rewrite Hclip.
  unfold memcpy_from, copy_in_bounds.
  destruct (Z.leb_spec 0 off); [|lia].
  destruct (Z.leb_spec (off + (2 ^ 64 - (off - st_size this)))
              (Z.of_nat (length (data this)))); [lia|].
  reflexivity.
Qed.

Section ReadAfterWrite.

Variable krealloc : list Byte.byte -> Z -> list Byte.byte.

(** devtmpfs.c:60-90.  Bytes written inside or at the end of the file are
    the bytes a read of the same range returns, when [krealloc] returns a
    block of the requested size in case the block has to grow. *)
Theorem devtmpfs_write_then_read fuel this buf rbuf off count :
  (64 <= fuel)%nat ->
  0 < allocated_size this < 2 ^ 64 ->
  Z.of_nat (length (data this)) = allocated_size this ->
  0 <= off <= st_size this ->
  0 <= count ->
  st_size this + count < 2 ^ 63 ->
  count <= Z.of_nat (length buf) ->
  count <= Z.of_nat (length rbuf) ->
  (forall size,
     krealloc_request fuel (allocated_size this) off count = Some size ->
     Z.of_nat (length (krealloc (data this) size)) = size) ->
  exists this',
    devtmpfs_write krealloc fuel this buf off count = Returned count this'
    /\ devtmpfs_read this' rbuf off count
       = ReadReturned count
           (take (Z.to_nat count) buf ++ drop (Z.to_nat count) rbuf).
Proof.
  intros Hfuel Hsize Hlen Hoff Hcount Hst Hbuf Hrbuf Hserves.
  destruct (devtmpfs_write_result krealloc fuel this buf off count)
    as (k & grown & Hk & Hmin & Hfit & Hgrown & Hglen & Hw);
    try assumption; try lia.
  assert (Hs : s64 count = count).
  { unfold s64. rewrite Z.mod_small by lia. lia. }
  assert (Hs' : s64 (u64 (st_size this) + count) = st_size this + count).
  { rewrite u64_small by lia. unfold s64. rewrite Z.mod_small by lia. lia. }
  rewrite Hs, Hs' in Hw.
  eexists. split; [exact Hw|].
  assert (Hneed : off_plus_count off count = off + count).
  { unfold off_plus_count. rewrite (u64_small off) by lia.
    apply u64_small. lia. }
  unfold devtmpfs_read, clipped_count.
  cbn [st_size data]. rewrite Hneed.
  rewrite (u64_small (st_size this + count)) by lia.
  destruct (Z.gtb_spec (off + count) (st_size this + count)); [lia|].
  unfold memcpy_from, copy_in_bounds.
  rewrite !length_app, !length_take, length_drop.
  destruct (Z.leb_spec 0 off); [|lia].
  destruct (Z.leb_spec (off + count)
              (Z.of_nat (Z.to_nat off `min` length grown
                         + (Z.to_nat count `min` length buf
                            + (length grown - Z.to_nat (off + count))))));
    [|lia].
  destruct (Z.leb_spec count (Z.of_nat (length rbuf))); [|lia].
  cbn [andb]. rewrite Hs. f_equal. f_equal.
  rewrite drop_app_length' by (rewrite length_take; lia).
  rewrite take_app_length' by (rewrite length_take; lia).
  reflexivity.
Qed.

(** devtmpfs.c:66 and 86.  [st_size] counts the bytes written, not the end
    of the file: writing over the start of a file again makes [st_size]
    pass the end of the block, and a read of the whole file then leaves
    the block. *)
Theorem devtmpfs_rewrite_then_read_overruns fuel this buf rbuf count :
  (64 <= fuel)%nat ->
  0 < allocated_size this < 2 ^ 63 ->
  Z.of_nat (length (data this)) = allocated_size this ->
  0 <= st_size this ->
  0 <= count <= allocated_size this ->
  allocated_size this < st_size this + count < 2 ^ 63 ->
  count <= Z.of_nat (length buf) ->
  exists this',
    devtmpfs_write krealloc fuel this buf 0 count = Returned count this'
    /\ allocated_size this' = allocated_size this
    /\ st_size this' = st_size this + count
    /\ devtmpfs_read this' rbuf 0 (st_size this') = ReadOutOfBounds.
Proof.
  intros Hfuel Hsize Hlen Hst Hcount Hover Hbuf.
  assert (Hnone : krealloc_request fuel (allocated_size this) 0 count = None).
  { unfold krealloc_request, off_plus_count. change (u64 0) with 0.
    rewrite Z.add_0_l, u64_small by lia.
    destruct (Z.gtb_spec count (allocated_size this)); [lia|reflexivity]. }
  destruct (devtmpfs_write_result krealloc fuel this buf 0 count)
    as (k & grown & Hk & Hmin & Hfit & Hgrown & Hglen & Hw);
    try assumption; try lia.
  { intros size Hreq. rewrite Hnone in Hreq. discriminate Hreq. }
  assert (Hk0 : k = 0).
  { destruct Hmin as [->|Hlt]; [reflexivity|].
    destruct (Z.eq_dec k 0) as [->|Hne]; [reflexivity|].
    assert (0 < 2 ^ (k - 1)) by (apply Z.pow_pos_nonneg; lia).
    nia. }
  subst k. change (2 ^ 0) with 1 in *. rewrite Z.mul_1_r in *.
  assert (Hs : s64 count = count).
  { unfold s64. rewrite Z.mod_small by lia. lia. }
  assert (Hs' : s64 (u64 (st_size this) + count) = st_size this + count).
  { rewrite u64_small by lia. unfold s64. rewrite Z.mod_small by lia. lia. }
  rewrite Hs, Hs' in Hw.
  eexists. split; [exact Hw|]. cbn [st_size allocated_size data].
  split; [reflexivity|]. split; [reflexivity|].
  unfold devtmpfs_read, clipped_count. cbn [st_size data].
  assert (Hneed : off_plus_count 0 (st_size this + count)
                  = st_size this + count).
  { unfold off_plus_count. change (u64 0) with 0. apply u64_small. lia. }
  rewrite Hneed, (u64_small (st_size this + count)) by lia.
  destruct (Z.gtb_spec (st_size this + count) (st_size this + count));
    [lia|].
  unfold memcpy_from, copy_in_bounds.
  rewrite !length_app, !length_take, length_drop.
  destruct (Z.leb_spec (0 + (st_size this + count))
              (Z.of_nat (Z.to_nat 0 `min` length grown
                         + (Z.to_nat count `min` length buf
                            + (length grown - Z.to_nat (0 + count))))));
    [lia|].
  reflexivity.
Qed.

End ReadAfterWrite.

(** *** Creating files and directories, devtmpfs.c:100-135 *)

Lemma testbit_above x n i :
  0 <= x < 2 ^ n -> 0 <= n <= i -> Z.testbit x i = false.
Proof.
  intros Hx Hn. rewrite <- (Z.mod_small x (2 ^ n)) by lia.
  apply Z.mod_pow2_bits_high. lia.
Qed.

Section OpenFacts.

Variables S_IFMT S_IFREG S_IFDIR : Z.
Variables mode_bits ino_bits : Z.
Variable junk : Byte.byte.
Variable krealloc : list Byte.byte -> Z -> list Byte.byte.

Abbreviation file_mode := (Devtmpfs.file_mode S_IFMT mode_bits).
Abbreviation devtmpfs_open :=
  (Devtmpfs.devtmpfs_open S_IFMT S_IFREG mode_bits ino_bits junk).
Abbreviation devtmpfs_mkdir :=
  (Devtmpfs.devtmpfs_mkdir S_IFMT S_IFDIR mode_bits ino_bits).
Abbreviation serve :=
  (Devtmpfs.serve S_IFMT S_IFREG S_IFDIR mode_bits ino_bits junk).

Section Mode.

Hypothesis mode_bits_nonneg : 0 <= mode_bits.
Hypothesis S_IFMT_range : 0 <= S_IFMT < 2 ^ mode_bits.

(** A type inside the [S_IFMT] field replaces whatever the caller's mode
    had there, and the bits outside the field are the caller's. *)
Lemma file_mode_type_and_permissions mode type :
  0 <= mode < 2 ^ mode_bits ->
  Z.land type S_IFMT = type ->
  Z.land (file_mode mode type) S_IFMT = type
  /\ Z.land (file_mode mode type) (Z.lnot S_IFMT)
     = Z.land mode (Z.lnot S_IFMT).
Proof.
  intros Hmode Htype.
  assert (Hbit : forall i, 0 <= i ->
    Z.testbit (file_mode mode type) i
    = (Z.testbit mode i && negb (Z.testbit S_IFMT i)) || Z.testbit type i).
  { intros i Hi. unfold Devtmpfs.file_mode.
    destruct (Z.lt_ge_cases i mode_bits) as [Hlow|Hhigh].
    - rewrite Z.mod_pow2_bits_low by lia.
      rewrite Z.lor_spec, Z.land_spec, Z.lnot_spec by lia. reflexivity.
    - rewrite Z.mod_pow2_bits_high by lia.
      rewrite (testbit_above mode mode_bits i) by lia.
      rewrite <- Htype, Z.land_spec.
      rewrite (testbit_above S_IFMT mode_bits i) by lia.
      rewrite andb_false_r. reflexivity. }
  assert (Hsub : forall i, Z.testbit type i
                           = Z.testbit type i && Z.testbit S_IFMT i).
  { intros i. rewrite <- Htype at 1. apply Z.land_spec. }
  split; apply Z.bits_inj'; intros i Hi.
  - rewrite Z.land_spec, Hbit, (Hsub i) by lia.
    destruct (Z.testbit mode i), (Z.testbit S_IFMT i), (Z.testbit type i);
      reflexivity.
  - rewrite !Z.land_spec, Z.lnot_spec, Hbit, (Hsub i) by lia.
    destruct (Z.testbit mode i), (Z.testbit S_IFMT i), (Z.testbit type i);
      reflexivity.
Qed.

(** devtmpfs.c:114 and 131.  Whatever type bits the caller's mode carries,
    a created file is a regular file and a created directory a directory,
    and both keep exactly the caller's bits outside [S_IFMT]. *)
Theorem devtmpfs_open_mkdir_mode dev mode inode_counter :
  0 <= mode < 2 ^ mode_bits ->
  Z.land S_IFREG S_IFMT = S_IFREG ->
  Z.land S_IFDIR S_IFMT = S_IFDIR ->
  (exists f,
     fst (devtmpfs_open dev true mode inode_counter) = Some f
     /\ Z.land (st_mode (f_stat f)) S_IFMT = S_IFREG
     /\ Z.land (st_mode (f_stat f)) (Z.lnot S_IFMT)
        = Z.land mode (Z.lnot S_IFMT))
  /\ Z.land (st_mode (d_stat (fst (devtmpfs_mkdir dev mode inode_counter))))
       S_IFMT = S_IFDIR
  /\ Z.land (st_mode (d_stat (fst (devtmpfs_mkdir dev mode inode_counter))))
       (Z.lnot S_IFMT)
     = Z.land mode (Z.lnot S_IFMT).
Proof.
  intros Hmode Hreg Hdir.
  destruct (file_mode_type_and_permissions mode S_IFREG Hmode Hreg)
    as [Hr1 Hr2].
  destruct (file_mode_type_and_permissions mode S_IFDIR Hmode Hdir)
    as [Hd1 Hd2].
  split; [|split].
  - eexists. split; [reflexivity|]. cbn [f_stat st_mode]. split; assumption.
  - exact Hd1.
  - exact Hd2.
Qed.

End Mode.

(** The numbers [c + first], [c + first + 1], ... are pairwise different. *)
Lemma NoDup_consecutive c : forall n first,
  NoDup (map (fun k => c + Z.of_nat k) (seq first n)).
Proof.
  induction n as [|n IH]; intros first; cbn [seq map].
  - constructor.
  - constructor; [|apply IH].
    intros Hin. apply list_elem_of_In, in_map_iff in Hin.
    destruct Hin as (k & Heq & Hk). apply in_seq in Hk. lia.
Qed.

Lemma serve_spec : forall requests c,
  0 <= c ->
  c + Z.of_nat (length requests) < 2 ^ ino_bits ->
  exists n,
    (n <= length requests)%nat
    /\ serve requests c
       = (map (fun k => c + Z.of_nat k) (seq 0 n), c + Z.of_nat n).
Proof.
  induction requests as [|r rest IH]; intros c Hc Hroom.
  - exists 0%nat. split; [lia|]. cbn. rewrite Z.add_0_r. reflexivity.
  - assert (Hnext : (c + 1) mod 2 ^ ino_bits = c + 1).
    { apply Z.mod_small. cbn [length] in Hroom. lia. }
    assert (Hshift : forall n,
      c :: map (fun k => c + 1 + Z.of_nat k) (seq 0 n)
      = map (fun k => c + Z.of_nat k) (seq 0 (S n))).
    { intros n. cbn [seq map]. rewrite Z.add_0_r. f_equal.
      rewrite <- seq_shift, map_map. apply map_ext. intros k. lia. }
    cbn [length] in Hroom.
    destruct r as [dev [|] mode|dev mode].
    + destruct (IH (c + 1)) as (n & Hn & Hrun); try lia.
      exists (S n). split; [cbn [length]; lia|].
      cbn [Devtmpfs.serve]. unfold Devtmpfs.devtmpfs_open, next_inode.
      cbn [negb]. rewrite Hnext, Hrun. cbn [f_stat st_ino].
      rewrite Hshift. f_equal. lia.
    + destruct (IH c) as (n & Hn & Hrun); try lia.
      exists n. split; [cbn [length]; lia|].
      cbn [Devtmpfs.serve]. unfold Devtmpfs.devtmpfs_open.
      cbn [negb]. rewrite Hrun. reflexivity.
    + destruct (IH (c + 1)) as (n & Hn & Hrun); try lia.
      exists (S n). split; [cbn [length]; lia|].
      cbn [Devtmpfs.serve]. unfold Devtmpfs.devtmpfs_mkdir, next_inode.
      rewrite Hnext, Hrun. cbn [d_stat st_ino].
      rewrite Hshift. f_equal. lia.
Qed.

(** devtmpfs.c:113 and 130.  As long as the counter does not wrap, the
    files and directories a sequence of calls creates get consecutive
    inode numbers starting at the counter, so no two of them share one;
    a call to [devtmpfs_open] without [create] uses none. *)
Theorem devtmpfs_inodes_consecutive requests c :
  0 <= c ->
  c + Z.of_nat (length requests) < 2 ^ ino_bits ->
  fst (serve requests c)
  = map (fun k => c + Z.of_nat k)
      (seq 0 (length (fst (serve requests c))))
  /\ snd (serve requests c)
     = c + Z.of_nat (length (fst (serve requests c)))
  /\ NoDup (fst (serve requests c)).
Proof.
  intros Hc Hroom.
  destruct (serve_spec requests c Hc Hroom) as (n & Hn & Hrun).
  rewrite Hrun. cbn [fst snd].
  rewrite length_map, length_seq.
  split; [reflexivity|]. split; [reflexivity|]. apply NoDup_consecutive.
Qed.

(** devtmpfs.c:60-121.  A file that was just created and then written
    with [count] bytes at offset 0 holds exactly those bytes: a read from
    offset 0 that asks for at least [count] bytes returns [count] and the
    bytes written.  When the 4096 bytes of a new file do not hold
    [count], [krealloc] is to return a block of the requested size. *)
Theorem devtmpfs_open_write_read dev mode inode_counter buf rbuf count
    rcount :
  0 <= count < 2 ^ 63 ->
  count <= Z.of_nat (length buf) ->
  count <= Z.of_nat (length rbuf) ->
  count <= rcount < 2 ^ 64 ->
  (forall size,
     krealloc_request 64 4096 0 count = Some size ->
     Z.of_nat (length (krealloc (replicate 4096 junk) size)) = size) ->
  exists f this',
    fst (devtmpfs_open dev true mode inode_counter) = Some f
    /\ devtmpfs_write krealloc 64 (f_file f) buf 0 count = Returned count this'
    /\ devtmpfs_read this' rbuf 0 rcount
       = ReadReturned count
           (take (Z.to_nat count) buf ++ drop (Z.to_nat count) rbuf).
Proof.
  intros Hcount Hbuf Hrbuf Hrcount Hserves.
  eexists. cbn [Devtmpfs.devtmpfs_open negb fst]. unfold next_inode.
  cbn [fst].
  set (this := mk_tmpfs 0 4096 (replicate (Z.to_nat 4096) junk)).
  destruct (devtmpfs_write_result krealloc 64 this buf 0 count)
    as (k & grown & Hk & Hmin & Hfit & Hgrown & Hglen & Hw);
    try (subst this; cbn [allocated_size data st_size]; lia).
  { subst this. cbn [allocated_size data]. rewrite length_replicate. lia. }
  { exact Hserves. }
  assert (Hs : s64 count = count).
  { unfold s64. rewrite Z.mod_small by lia. lia. }
  assert (Hs' : s64 (u64 (st_size this) + count) = count).
  { subst this. cbn [st_size]. change (u64 0) with 0.
    rewrite Z.add_0_l. exact Hs. }
  rewrite Hs, Hs' in Hw.
  eexists. split; [reflexivity|]. cbn [f_file]. fold this.
  split; [exact Hw|].
  assert (Hneed : off_plus_count 0 rcount = rcount).
  { unfold off_plus_count. change (u64 0) with 0. apply u64_small. lia. }
  assert (Hclip : forall block,
    clipped_count (mk_tmpfs count (allocated_size this * 2 ^ k) block)
      0 rcount = count).
  { intros block. unfold clipped_count. cbn [st_size].
    rewrite Hneed, (u64_small count) by lia.
    destruct (Z.gtb_spec rcount count); [|lia].
    rewrite (u64_small (rcount - count)) by lia.
    rewrite u64_small by lia. lia. }
  unfold devtmpfs_read. rewrite Hclip. cbn [data].
  unfold memcpy_from, copy_in_bounds.
  rewrite !length_app, !length_take, length_drop.
  destruct (Z.leb_spec (0 + count)
              (Z.of_nat (Z.to_nat 0 `min` length grown
                         + (Z.to_nat count `min` length buf
                            + (length grown - Z.to_nat (0 + count))))));
    [|lia].
  destruct (Z.leb_spec count (Z.of_nat (length rbuf))); [|lia].
  cbn [Z.leb Z.compare andb]. rewrite Hs. f_equal.
  change (Z.to_nat 0) with 0%nat. rewrite drop_0, take_0. cbn [app].
  rewrite take_app_length' by (rewrite length_take; lia).
  reflexivity.
Qed.

End OpenFacts.

(** *** The theorems above at concrete calls *)

Lemma devtmpfs_write_grows_by_least_doubling_witness :
  exists k this',
    devtmpfs_write small_heap 64 fresh_resource (replicate 10 Byte.x2a)
      10000 10
    = Returned (s64 10) this'
    /\ 0 <= k
    /\ allocated_size this' = allocated_size fresh_resource * 2 ^ k
    /\ Z.of_nat (length (data this')) = allocated_size this'
    /\ 10000 + 10 <= allocated_size this'
    /\ (k = 0 <-> 10000 + 10 <= allocated_size fresh_resource)
    /\ (0 < k -> allocated_size fresh_resource * 2 ^ (k - 1) < 10000 + 10).
Proof.
  apply (devtmpfs_write_grows_by_least_doubling small_heap 64
           fresh_resource (replicate 10 Byte.x2a) 10000 10).
  - lia.
  - cbn. lia.
  - reflexivity.
  - lia.
  - lia.
  - lia.
  - cbn. lia.
  - intros size H. vm_compute in H. injection H as <-. reflexivity.
Defined.

Lemma devtmpfs_write_stores_witness :
  exists this',
    devtmpfs_write small_heap 64 fresh_resource (replicate 10 Byte.x2a)
      4090 10
    = Returned 10 this'
    /\ st_size this' = st_size fresh_resource + 10
    /\ (forall i, (i < Z.to_nat 10)%nat ->
          data this' !! (Z.to_nat 4090 + i)%nat
          = replicate 10 Byte.x2a !! i)
    /\ (forall j, (j < length (data fresh_resource))%nat ->
          (j < Z.to_nat 4090)%nat \/ (Z.to_nat (4090 + 10) <= j)%nat ->
          data this' !! j = data fresh_resource !! j).
Proof.
  apply (devtmpfs_write_stores small_heap 64 fresh_resource
           (replicate 10 Byte.x2a) 4090 10).
  - lia.
  - cbn. lia.
  - reflexivity.
  - lia.
  - lia.
  - lia.
  - cbn. lia.
  - cbn. lia.
  - cbn. lia.
  - intros size H. vm_compute in H. injection H as <-.
    split; vm_compute; reflexivity.
Defined.

Lemma devtmpfs_read_clips_at_size_witness :
  devtmpfs_read (mk_tmpfs 100 4096 (replicate 4096 Byte.x2a))
    (replicate 200 Byte.x00) 40 200
  = ReadReturned (Z.min 200 (100 - 40))
      (take (Z.to_nat (Z.min 200 (100 - 40)))
         (drop (Z.to_nat 40) (replicate 4096 Byte.x2a))
       ++ drop (Z.to_nat (Z.min 200 (100 - 40))) (replicate 200 Byte.x00)).
Proof.
  apply (devtmpfs_read_clips_at_size
           (mk_tmpfs 100 4096 (replicate 4096 Byte.x2a))
           (replicate 200 Byte.x00) 40 200).
  - cbn. lia.
  - cbn. lia.
  - cbn. lia.
  - lia.
  - lia.
  - cbn. lia.
Defined.

Lemma devtmpfs_read_past_end_overruns_witness :
  clipped_count fresh_resource 1 1 = 2 ^ 64 - (1 - st_size fresh_resource)
  /\ devtmpfs_read fresh_resource [Byte.x00] 1 1 = ReadOutOfBounds.
Proof.
  apply (devtmpfs_read_past_end_overruns fresh_resource [Byte.x00] 1 1).
  - cbn. lia.
  - lia.
  - lia.
  - cbn. lia.
Defined.

Lemma devtmpfs_write_then_read_witness :
  exists this',
    devtmpfs_write small_heap 64
      (mk_tmpfs 4090 4096 (replicate 4096 Byte.x00))
      (replicate 10 Byte.x2a) 4090 10
    = Returned 10 this'
    /\ devtmpfs_read this' (replicate 10 Byte.x00) 4090 10
       = ReadReturned 10
           (take (Z.to_nat 10) (replicate 10 Byte.x2a)
            ++ drop (Z.to_nat 10) (replicate 10 Byte.x00)).
Proof.
  apply (devtmpfs_write_then_read small_heap 64
           (mk_tmpfs 4090 4096 (replicate 4096 Byte.x00))
           (replicate 10 Byte.x2a) (replicate 10 Byte.x00) 4090 10).
  - lia.
  - cbn. lia.
  - reflexivity.
  - cbn. lia.
  - lia.
  - cbn. lia.
  - cbn. lia.
  - cbn. lia.
  - intros size H. vm_compute in H. injection H as <-. reflexivity.
Defined.

Lemma devtmpfs_rewrite_then_read_overruns_witness :
  exists this',
    devtmpfs_write small_heap 64
      (mk_tmpfs 4000 4096 (replicate 4096 Byte.x00))
      (replicate 100 Byte.x2a) 0 100
    = Returned 100 this'
    /\ allocated_size this'
       = allocated_size (mk_tmpfs 4000 4096 (replicate 4096 Byte.x00))
    /\ st_size this'
       = st_size (mk_tmpfs 4000 4096 (replicate 4096 Byte.x00)) + 100
    /\ devtmpfs_read this' [] 0 (st_size this') = ReadOutOfBounds.
Proof.
  apply (devtmpfs_rewrite_then_read_overruns small_heap 64
           (mk_tmpfs 4000 4096 (replicate 4096 Byte.x00))
           (replicate 100 Byte.x2a) [] 100).
  - lia.
  - cbn. lia.
  - reflexivity.
  - cbn. lia.
  - cbn. lia.
  - cbn. lia.
  - cbn. lia.
Defined.

(** With the usual values: [S_IFMT] 0170000 (0xF000), [S_IFREG] 0100000
    (0x8000), [S_IFDIR] 0040000 (0x4000), a 32-bit [mode_t]; the caller's
    mode 0040644 (0x41A4) carries the directory type. *)
Lemma devtmpfs_open_mkdir_mode_witness :
  (exists f,
     fst (devtmpfs_open 0xF000 0x8000 32 64 Byte.x00 0 true 0x41A4 1)
     = Some f
     /\ Z.land (st_mode (f_stat f)) 0xF000 = 0x8000
     /\ Z.land (st_mode (f_stat f)) (Z.lnot 0xF000)
        = Z.land 0x41A4 (Z.lnot 0xF000))
  /\ Z.land (st_mode (d_stat (fst (devtmpfs_mkdir 0xF000 0x4000 32 64
                                     0 0x41A4 1))))
       0xF000 = 0x4000
  /\ Z.land (st_mode (d_stat (fst (devtmpfs_mkdir 0xF000 0x4000 32 64
                                     0 0x41A4 1))))
       (Z.lnot 0xF000)
     = Z.land 0x41A4 (Z.lnot 0xF000).
Proof.
  apply (devtmpfs_open_mkdir_mode 0xF000 0x8000 0x4000 32 64 Byte.x00).
  - lia.
  - lia.
  - lia.
  - reflexivity.
  - reflexivity.
Defined.

Lemma devtmpfs_inodes_consecutive_witness :
  fst (serve 0xF000 0x8000 0x4000 32 64 Byte.x00
         [ReqOpen 0 true 0x1A4; ReqOpen 0 false 0; ReqMkdir 0 0x1ED;
          ReqOpen 0 true 0x180] 1)
  = map (fun k => 1 + Z.of_nat k)
      (seq 0 (length (fst (serve 0xF000 0x8000 0x4000 32 64 Byte.x00
                             [ReqOpen 0 true 0x1A4; ReqOpen 0 false 0;
                              ReqMkdir 0 0x1ED; ReqOpen 0 true 0x180] 1))))
  /\ snd (serve 0xF000 0x8000 0x4000 32 64 Byte.x00
            [ReqOpen 0 true 0x1A4; ReqOpen 0 false 0; ReqMkdir 0 0x1ED;
             ReqOpen 0 true 0x180] 1)
     = 1 + Z.of_nat
             (length (fst (serve 0xF000 0x8000 0x4000 32 64 Byte.x00
                             [ReqOpen 0 true 0x1A4; ReqOpen 0 false 0;
                              ReqMkdir 0 0x1ED; ReqOpen 0 true 0x180] 1)))
  /\ NoDup (fst (serve 0xF000 0x8000 0x4000 32 64 Byte.x00
                   [ReqOpen 0 true 0x1A4; ReqOpen 0 false 0;
                    ReqMkdir 0 0x1ED; ReqOpen 0 true 0x180] 1)).
Proof.
  apply (devtmpfs_inodes_consecutive 0xF000 0x8000 0x4000 32 64
           Byte.x00).
  - lia.
  - cbn. lia.
Defined.

Lemma devtmpfs_open_write_read_witness :
  exists f this',
    fst (devtmpfs_open 0xF000 0x8000 32 64 Byte.x00 0 true 0x1A4 1)
    = Some f
    /\ devtmpfs_write small_heap 64 (f_file f)
         (replicate 4500 Byte.x2a) 0 4500
       = Returned 4500 this'
    /\ devtmpfs_read this' (replicate 4800 Byte.x00) 0 4800
       = ReadReturned 4500
           (take (Z.to_nat 4500) (replicate 4500 Byte.x2a)
            ++ drop (Z.to_nat 4500) (replicate 4800 Byte.x00)).
Proof.
  apply (devtmpfs_open_write_read 0xF000 0x8000 32 64 Byte.x00 small_heap
           0 0x1A4 1
           (replicate 4500 Byte.x2a) (replicate 4800 Byte.x00) 4500 4800).
  - lia.
  - rewrite length_replicate. lia.
  - rewrite length_replicate. lia.
  - lia.
  - intros size H. vm_compute in H. injection H as <-. reflexivity.
Defined.

End DevtmpfsFacts.

(** ** Boot hand-off tags *)

Module KernelFacts.

Import Kernel.

(** kernel.c:35-49.  On a NULL-terminated tag list [stivale2_get_tag]
    returns, within one iteration per tag and one more, the address of the
    first tag whose identifier is [id], and NULL when no tag has it. *)
Theorem stivale2_get_tag_first_match fuel mem st id l :
  tag_chain mem (tags st) l ->
  (length l < fuel)%nat ->
  stivale2_get_tag fuel mem st id = Some (Returned (first_with id l)).
Proof.
  unfold stivale2_get_tag. generalize (tags st) as p.
  revert fuel. induction l as [|[a t] l IH]; intros fuel p Hchain Hfuel.
  - cbn in Hchain. subst p. destruct fuel as [|fuel]; [cbn in Hfuel; lia|].
    reflexivity.
  - destruct Hchain as (-> & Hnz & Hmem & Hrest).
    destruct fuel as [|fuel]; [cbn in Hfuel; lia|].
    cbn [get_tag_loop first_with].
    destruct (Z.eqb_spec a 0); [contradiction|].
    rewrite Hmem. destruct (identifier t =? id); [reflexivity|].
    apply IH; [exact Hrest|cbn in Hfuel; lia].
Qed.

Lemma stivale2_get_tag_first_match_witness :
  stivale2_get_tag 4 three_tags (mk_struct 0x1000) 0x22
  = Some (Returned 0x2000)
  /\ stivale2_get_tag 4 three_tags (mk_struct 0x1000) 0x33
     = Some (Returned 0).
Proof.
  split.
  - apply (stivale2_get_tag_first_match 4 three_tags (mk_struct 0x1000) 0x22
             three_tags_list).
    + cbn. repeat split; discriminate.
    + cbn. lia.
  - apply (stivale2_get_tag_first_match 4 three_tags (mk_struct 0x1000) 0x33
             three_tags_list).
    + cbn. repeat split; discriminate.
    + cbn. lia.
Defined.

(** kernel.c:35-49.  Whatever the memory holds, a non-NULL pointer that
    [stivale2_get_tag] returns is the address of a tag whose identifier is
    the one asked for. *)
Theorem stivale2_get_tag_sound fuel mem st id p :
  stivale2_get_tag fuel mem st id = Some (Returned p) ->
  p <> 0 ->
  exists t, mem p = Some t /\ identifier t = id.
Proof.
  unfold stivale2_get_tag. generalize (tags st) as q.
  induction fuel as [|fuel IH]; intros q Hrun Hp; [discriminate|].
  cbn [get_tag_loop] in Hrun.
  destruct (Z.eqb_spec q 0).
  { inversion Hrun; subst. contradiction. }
  destruct (mem q) as [t|] eqn:Hmem; [|discriminate].
  destruct (Z.eqb_spec (identifier t) id) as [Hid|Hid].
  - inversion Hrun; subst. eauto.
  - eapply IH; eassumption.
Qed.

Lemma stivale2_get_tag_sound_witness :
  exists t, three_tags 0x2000 = Some t /\ identifier t = 0x22.
Proof.
  apply (stivale2_get_tag_sound 4 three_tags (mk_struct 0x1000) 0x22 0x2000).
  - reflexivity.
  - discriminate.
Defined.

(** kernel.c:35-49.  There is no bound on the walk: when the tags
    reachable from the start never end in NULL and none has the
    identifier - a list that loops back on itself - the function does not
    return, whatever the number of iterations allowed. *)
Theorem stivale2_get_tag_loops_on_cycle (reachable : Z -> Prop) fuel mem st
    id :
  reachable (tags st) ->
  (forall a, reachable a ->
     a <> 0 /\ exists t, mem a = Some t /\ identifier t <> id
                         /\ reachable (next t)) ->
  stivale2_get_tag fuel mem st id = None.
Proof.
  intros Hstart Hclosed. unfold stivale2_get_tag.
  revert Hstart. generalize (tags st) as p.
  induction fuel as [|fuel IH]; intros p Hp; [reflexivity|].
  cbn [get_tag_loop].
  destruct (Hclosed p Hp) as (Hnz & t & Hmem & Hid & Hnext).
  destruct (Z.eqb_spec p 0); [contradiction|].
  rewrite Hmem. destruct (Z.eqb_spec (identifier t) id); [contradiction|].
  apply IH, Hnext.
Qed.

Lemma stivale2_get_tag_loops_on_cycle_witness :
  stivale2_get_tag 1000 two_tags_cycle (mk_struct 0x1000) 0x33 = None.
Proof.
  apply (stivale2_get_tag_loops_on_cycle
           (fun a => a = 0x1000 \/ a = 0x2000) 1000).
  - left. reflexivity.
  - intros a [-> | ->].
    + split; [discriminate|]. eexists. split; [reflexivity|].
      split; [discriminate|]. right. reflexivity.
    + split; [discriminate|]. eexists. split; [reflexivity|].
      split; [discriminate|]. left. reflexivity.
Defined.

End KernelFacts.
